(** * The annotation editor panel and the edit-control wrapper

    A shallow embedding of [src/EditAnnotations.cpp] and
    [src/wingui/EditCtrl.cpp], and the properties of the panel that the
    specification states about them.

    Conventions of the embedding.
    - A [const char*] is a position in character memory.  It is modelled by
      the characters stored from that position on ([string], which may hold
      NUL characters); a nullable pointer is an [option].
    - C++ [int] values are [Z].  The counters of the code ([i] in
      [FindStringInArray], [i] in [GetKnownColorName]) are bounded by the
      size of a table held in memory, so no wrap-around can occur; the
      sums and the product of [EditCtrl::GetIdealSize] are checked against
      the range of [int], a signed overflow having no defined result.
    - Objects reached through pointers ([Annotation*]) live in a heap
      ([gmap loc Annotation.t]); the panel stores locations, so that a write
      through [w->annot] is seen through [w->annotations].
    - A call that has no defined result in C++ (a null or dangling
      dereference, an index outside an array, a failed [CrashIf]) makes the
      enclosing function return [None].  Where the code itself provides for
      the return of a failed [CrashIf] (the guard of [StartEditAnnotations]),
      both behaviours of the macro are modelled. *)

From Stdlib Require Import ZArith Lia Ascii String List.
From stdpp Require Import base option list gmap strings pretty.
From Equations Require Import Equations.

Local Open Scope Z_scope.

(** ** Character memory *)

Definition NUL : ascii := Ascii.zero.
Definition LF : ascii := ascii_of_nat 10.
Definition CR : ascii := ascii_of_nat 13.

Definition is_nul (c : ascii) : bool := Ascii.eqb c NUL.

(** The C string that starts at a position: the characters before the
    first NUL. *)
Fixpoint cstr (p : string) : string :=
  match p with
  | EmptyString => EmptyString
  | String c r => if is_nul c then EmptyString else String c (cstr r)
  end.

(** The memory of a literal ["a\0b\0...z\0"]: every name followed by its
    NUL, then the terminator that the compiler appends to the literal. *)
Definition seqstr (names : list string) : string :=
  fold_right (fun s acc => s +:+ String NUL acc) (String NUL EmptyString) names.

(** [arr[i]] for a C array: no defined result outside the array. *)
Definition array_at {A : Type} (arr : list A) (i : Z) : option A :=
  if i <? 0 then None else arr !! Z.to_nat i.

(** ** utils/StrUtil: [str::] and [seqstrings::]

    These helpers are defined in utils/StrUtil.cpp, which is not among the
    files under verification; they are written here after the way
    [EditAnnotations.cpp] uses them. *)

Module str.

(** [str::Eq(s1, s2)]: null-safe [strcmp(s1, s2) == 0]; two null pointers
    are equal, a null pointer differs from every string. *)
Definition Eq (s1 s2 : option string) : bool :=
  match s1, s2 with
  | None, None => true
  | Some a, Some b => String.eqb (cstr a) (cstr b)
  | _, _ => false
  end.

(** [str::Str::Replace(toReplace, replaceWith)]: every occurrence of
    [toReplace], found from left to right, is replaced; [skip] counts the
    characters of an occurrence that are still to be passed over. *)
Fixpoint Replace_from (toReplace replaceWith s : string) (skip : nat) : string :=
  match s with
  | EmptyString => EmptyString
  | String c r =>
      match skip with
      | S k => Replace_from toReplace replaceWith r k
      | O =>
          if String.prefix toReplace s
          then replaceWith +:+
               Replace_from toReplace replaceWith r (String.length toReplace - 1)%nat
          else String c (Replace_from toReplace replaceWith r 0%nat)
      end
  end.

Definition Replace (s toReplace replaceWith : string) : string :=
  match toReplace with
  | EmptyString => s
  | _ => Replace_from toReplace replaceWith s 0%nat
  end.

End str.

Module seqstrings.

(** [seqstrings::SkipStr(s)]: the position after the NUL that ends the
    string at [s]. *)
Fixpoint SkipStr (s : string) : string :=
  match s with
  | EmptyString => EmptyString
  | String c r => if is_nul c then r else SkipStr r
  end.

(** [seqstrings::IdxToStr(strs, idx)]: the position of the [idx]-th string. *)
Fixpoint IdxToStr_nat (strs : string) (idx : nat) : string :=
  match idx with
  | O => strs
  | S k => IdxToStr_nat (SkipStr strs) k
  end.

Definition IdxToStr (strs : string) (idx : Z) : option string :=
  if idx <? 0 then None else Some (IdxToStr_nat strs (Z.to_nat idx)).

End seqstrings.

(** ** Externals of the platform

    [ColorUnset] is a macro of utils/ColorUtil.h; [%d] formatting and
    [gmtime]/[strftime] belong to the C library; [Vec<T>::at] is declared
    in utils/Vec.h.  None of them is fixed by the files under
    verification, so they are parameters. *)

(** [struct tm], as far as the format ["%Y-%m-%d %H:%M UTC"] reads it. *)
Record tm := mk_tm {
  tm_min : Z;
  tm_hour : Z;
  tm_mday : Z;
  tm_mon : Z;
  tm_year : Z;
}.

(** [gmtime secs] is [None] where the C library returns a null pointer: a
    time that it cannot break down.  [strftime t] is the text that
    [strftime(buf, sizeof buf, "%Y-%m-%d %H:%M UTC", t)] leaves in [buf].
    [Vec_at_outside v idx] is what [v.at(idx)] yields for an index outside
    the vector: a pointer, or [None] when the call has no result. *)
Class Platform := {
  ColorUnset : Z;
  printf_d : Z -> string;
  gmtime : Z -> option tm;
  strftime : tm -> string;
  Vec_at_outside : list (option nat) -> Z -> option (option nat);
}.

(** ** Colours

    "COLORREF is abgr format": red is the low byte, alpha the high byte of
    a 32-bit value. *)

Definition MkRgba (r g b a : Z) : Z :=
  Z.lor (Z.lor (Z.land r 0xff) (Z.shiftl (Z.land g 0xff) 8))
        (Z.lor (Z.shiftl (Z.land b 0xff) 16) (Z.shiftl (Z.land a 0xff) 24)).

(** [ColorSetAlpha(c, alpha)] (utils/ColorUtil): the colour [c] with its
    alpha byte replaced. *)
Definition ColorSetAlpha (c alpha : Z) : Z :=
  MkRgba (Z.land c 0xff) (Z.land (Z.shiftr c 8) 0xff) (Z.land (Z.shiftr c 16) 0xff) alpha.

(** ** Annotation.h *)

(** The enumeration is declared in Annotation.h: the kinds of annotation
    of the PDF format, and [Unknown].  The tables of [EditAnnotations.cpp]
    name seventeen of them. *)
Inductive AnnotationType :=
  | Text | Link | FreeText | Line | Square | Circle | Polygon | PolyLine
  | Highlight | Underline | Squiggly | StrikeOut | Redact | Stamp | Caret
  | Ink | Popup | FileAttachment | Sound | Movie | Widget | Screen
  | PrinterMark | TrapNet | Watermark | ThreeD | Unknown.

#[global] Instance AnnotationType_eq_dec : EqDecision AnnotationType.
Proof. solve_decision. Defined.

Module Annotation.

(** Modelled from the spec: the class [Annotation] (Annotation.h and
    Annotation.cpp).  "attributes include type, page number, rectangle,
    author string, modification timestamp, free-form contents string, icon
    name, color (packed RGB/alpha value), and linkage to an optional popup
    annotation identifier", with the markers "changed", "deleted" and
    "backed by persisted engine state" ([pdf]).  The rectangle is left out:
    the panel does not read it. *)
Record t := mk {
  type : AnnotationType;
  pageNo : Z;
  author : string;
  modificationDate : Z;
  popupId : Z;
  contents : string;
  iconName : string;
  color : Z;
  isChanged : bool;
  isDeleted : bool;
  pdf : bool;
}.

(** Modelled from the spec: the getters of [Annotation] return the
    attribute they are named after. *)
Definition Type_ (a : t) : AnnotationType := type a.
Definition Author (a : t) : string := author a.
Definition ModificationDate (a : t) : Z := modificationDate a.
Definition PopupId (a : t) : Z := popupId a.
Definition Contents (a : t) : string := contents a.
Definition IconName (a : t) : string := iconName a.
Definition Color (a : t) : Z := color a.

(** Modelled from the spec: [Annotation::SetColor].  "write the new value
    onto the selected annotation, mark it changed". *)
Definition SetColor (a : t) (c : Z) : t :=
  mk (type a) (pageNo a) (author a) (modificationDate a) (popupId a)
     (contents a) (iconName a) c true (isDeleted a) (pdf a).

(** Modelled from the spec: [Annotation::SetIconName].  "write the new
    value onto the selected annotation, mark it changed". *)
Definition SetIconName (a : t) (name : string) : t :=
  mk (type a) (pageNo a) (author a) (modificationDate a) (popupId a)
     (contents a) name (color a) true (isDeleted a) (pdf a).

End Annotation.

(** Locations of [Annotation] objects; [Annotation*] is a nullable
    location. *)
Definition loc := nat.
Definition ptr := option loc.

Definition deref (h : gmap loc Annotation.t) (p : ptr) : option Annotation.t :=
  match p with
  | None => None
  | Some l => h !! l
  end.

(** [Vec<Annotation*>::at(idx)]: the element at [idx]; for an index
    outside the vector, what the platform's [Vec_at_outside] tells. *)
Definition Vec_at `{Platform} (v : list ptr) (idx : Z) : option ptr :=
  match array_at v idx with
  | Some p => Some p
  | None => Vec_at_outside v idx
  end.

(** ** wingui controls

    A control is modelled by what its setters were last given. *)

Record WndEvent := mkWndEvent {
  hwnd : Z;
  msg : Z;
  wparam : Z;
  lparam : Z;
  didHandle : bool;
  result : Z;
}.

Record EditTextChangedEvent := mkEditTextChangedEvent {
  base : WndEvent;
  text : string;
}.

Record StaticCtrl := mkStaticCtrl {
  static_isVisible : bool;
  static_text : string;
}.

Record EditCtrl := mkEditCtrl {
  edit_isVisible : bool;
  edit_text : string;
  OnTextChanged : option (EditTextChangedEvent -> EditTextChangedEvent);
}.

Record DropDownCtrl := mkDropDownCtrl {
  dropdown_isVisible : bool;
  dropdown_items : list string;
  dropdown_currentSelection : Z;
}.

Record ButtonCtrl := mkButtonCtrl {
  button_isVisible : bool;
  button_isEnabled : bool;
}.

Module StaticCtrlM.
Definition SetIsVisible (b : bool) (c : StaticCtrl) : StaticCtrl :=
  mkStaticCtrl b (static_text c).
Definition SetText (s : string) (c : StaticCtrl) : StaticCtrl :=
  mkStaticCtrl (static_isVisible c) s.
End StaticCtrlM.

Module EditCtrlM.
Definition SetIsVisible (b : bool) (c : EditCtrl) : EditCtrl :=
  mkEditCtrl b (edit_text c) (OnTextChanged c).
Definition SetText (s : string) (c : EditCtrl) : EditCtrl :=
  mkEditCtrl (edit_isVisible c) s (OnTextChanged c).
Definition GetText (c : EditCtrl) : string := edit_text c.
End EditCtrlM.

Module DropDownCtrlM.
Definition SetIsVisible (b : bool) (c : DropDownCtrl) : DropDownCtrl :=
  mkDropDownCtrl b (dropdown_items c) (dropdown_currentSelection c).
Definition SetItems (items : list string) (c : DropDownCtrl) : DropDownCtrl :=
  mkDropDownCtrl (dropdown_isVisible c) items (dropdown_currentSelection c).
Definition SetCurrentSelection (n : Z) (c : DropDownCtrl) : DropDownCtrl :=
  mkDropDownCtrl (dropdown_isVisible c) (dropdown_items c) n.
End DropDownCtrlM.

Module ButtonCtrlM.
Definition SetIsVisible (b : bool) (c : ButtonCtrl) : ButtonCtrl :=
  mkButtonCtrl b (button_isEnabled c).
Definition SetIsEnabled (b : bool) (c : ButtonCtrl) : ButtonCtrl :=
  mkButtonCtrl (button_isVisible c) b.
End ButtonCtrlM.

(** ** wingui/EditCtrl.cpp *)

Definition WM_COMMAND : Z := 0x0111.
Definition EN_CHANGE : Z := 0x0300.
Definition HIWORD (x : Z) : Z := Z.land (Z.shiftr x 16) 0xffff.

(** A freshly constructed event: nothing handled yet, no text. *)
Definition EditTextChangedEvent_new : EditTextChangedEvent :=
  mkEditTextChangedEvent (mkWndEvent 0 0 0 0 false 0) EmptyString.

(** Modelled from the spec: [CopyWndEvent] (wingui/WinGui.h), the scoped
    helper that ties the callback's event to the native one.  Constructed,
    it copies the message of [src] into [dst]; destroyed, it hands
    [didHandle] and [result] of [dst] back to [src]: "if the callback marks
    the event handled, propagation stops". *)
Definition CopyWndEvent_ctor (dst : EditTextChangedEvent) (src : WndEvent) : EditTextChangedEvent :=
  mkEditTextChangedEvent
    (mkWndEvent (hwnd src) (msg src) (wparam src) (lparam src)
                (didHandle (base dst)) (result (base dst)))
    (text dst).

Definition CopyWndEvent_dtor (dst : EditTextChangedEvent) (src : WndEvent) : WndEvent :=
  mkWndEvent (hwnd src) (msg src) (wparam src) (lparam src)
             (didHandle (base dst)) (result (base dst)).

Definition set_text (s : string) (a : EditTextChangedEvent) : EditTextChangedEvent :=
  mkEditTextChangedEvent (base a) s.

(** [HandleWM_COMMAND(w, ev)].  The result is the native event as the
    handler leaves it, and the arguments of the calls made to
    [w->OnTextChanged], in order. *)
Definition HandleWM_COMMAND (w : EditCtrl) (ev : WndEvent)
  : option (WndEvent * list EditTextChangedEvent) :=
  if negb (msg ev =? WM_COMMAND) then None
  else
    let code := HIWORD (wparam ev) in
    if EN_CHANGE =? code then
      match OnTextChanged w with
      | Some callback =>
          let a := EditTextChangedEvent_new in
          let a := CopyWndEvent_ctor a ev in
          let a := set_text (EditCtrlM.GetText w) a in
          let a' := callback a in
          Some (CopyWndEvent_dtor a' ev, [a])
      | None => Some (ev, [])
      end
    else Some (ev, []).

(** ** EditAnnotations.cpp: tables *)

Definition gAnnotationTypes : string :=
  seqstr ["Text"; "Free Text"; "Stamp"; "Caret"; "Ink"; "Square"; "Circle";
          "Line"; "Polygon"]%string.

Definition gTextIcons : string :=
  seqstr ["Comment"; "Help"; "Insert"; "Key"; "NewParagraph"; "Note";
          "Paragraph"]%string.

Definition gFileAttachmentUcons : string :=
  seqstr ["Graph"; "Paperclip"; "PushPin"; "Tag"]%string.

Definition gSoundIcons : string := seqstr ["Speaker"; "Mic"]%string.

Definition gStampIcons : string :=
  seqstr ["Approved"; "AsIs"; "Confidential"; "Departmental"; "Draft";
          "Experimental"; "Expired"; "Final"; "ForComment";
          "ForPublicRelease"; "NotApproved"; "NotForPublicRelease"; "Sold";
          "TopSecret"]%string.

Definition gColorNames : list string :=
  ["None"; "Aqua"; "Black"; "Blue"; "Fuchsia"; "Gray"; "Green"; "Lime";
   "Maroon"; "Navy"; "Olive"; "Orange"; "Purple"; "Red"; "Silver"; "Teal";
   "White"; "Yellow"]%string.

Definition gColors : string := seqstr gColorNames.

Definition gColorsValues `{Platform} : list Z :=
  [ ColorUnset; (* transparent *)
    0xffffff00; (* aqua *)
    0xff000000; (* black *)
    0xffff0000; (* blue *)
    0xffff00ff; (* fuchsia *)
    0xff808080; (* gray *)
    0xff008000; (* green *)
    0xff00ff00; (* lime *)
    0xff000080; (* maroon *)
    0xff800000; (* navy *)
    0xff008080; (* olive *)
    0xff00a5ff; (* orange *)
    0xff800080; (* purple *)
    0xff0000ff; (* red *)
    0xffc0c0c0; (* silver *)
    0xff808000; (* teal *)
    0xffffffff; (* white *)
    0xff00ffff  (* yellow *) ].

Definition gAnnotsWithBorder : list AnnotationType :=
  [FreeText; Ink; Line; Square; Circle; Polygon; PolyLine].

Definition gAnnotsWithInteriorColor : list AnnotationType :=
  [Line; Square; Circle].

Definition gAnnotsWithColor : list AnnotationType :=
  [Stamp; Text; FileAttachment; Sound; Caret; FreeText; Ink; Line; Square;
   Circle; Polygon; PolyLine; Highlight; Underline; StrikeOut; Squiggly].

(** ** EditAnnotations.cpp: lookups *)

(** The loop of [GetKnownColorName]: [vals] is [gColorsValues] from index
    [i] on. *)
Fixpoint GetKnownColorName_loop (c2 : Z) (vals : list Z) (i : Z) : option string :=
  match vals with
  | [] => None
  | v :: rest =>
      if c2 =? v then seqstrings.IdxToStr gColors i
      else GetKnownColorName_loop c2 rest (i + 1)
  end.

Definition GetKnownColorName `{Platform} (c : Z) : option string :=
  let c2 := ColorSetAlpha c 0xff in
  GetKnownColorName_loop c2 (drop 1 gColorsValues) 1.

(** The loop of [FindStringInArray], [i] being its counter. *)
Equations? FindStringInArray_loop (items : string) (toFind : option string)
    (valIfNotFound : Z) (i : Z) : Z by wf (String.length items) lt :=
  FindStringInArray_loop EmptyString toFind valIfNotFound i := valIfNotFound;
  FindStringInArray_loop (String c r) toFind valIfNotFound i :=
    if is_nul c then valIfNotFound
    else if str.Eq (Some (String c r)) toFind then i
    else FindStringInArray_loop (seqstrings.SkipStr (String c r)) toFind
           valIfNotFound (i + 1).
Proof.
  assert (Hle : forall s, (String.length (seqstrings.SkipStr s) <= String.length s)%nat).
  { clear. intros s. induction s as [|c r IH]; simpl; [lia|].
    destruct (is_nul c); lia. }
  specialize (Hle r). destruct (is_nul c); lia.
Qed.

Definition FindStringInArray (items : string) (toFind : option string)
    (valIfNotFound : Z) : Z :=
  FindStringInArray_loop items toFind valIfNotFound 0.

(** [DropDownItemsFromStringArray(items, strings)]: the vector [items]
    after the call. *)
Equations? DropDownItemsFromStringArray (items : list string) (strings : string)
    : list string by wf (String.length strings) lt :=
  DropDownItemsFromStringArray items EmptyString := items;
  DropDownItemsFromStringArray items (String c r) :=
    if is_nul c then items
    else DropDownItemsFromStringArray (items ++ [cstr (String c r)])
           (seqstrings.SkipStr (String c r)).
Proof.
  assert (Hle : forall s, (String.length (seqstrings.SkipStr s) <= String.length s)%nat).
  { clear. intros s. induction s as [|c r IH]; simpl; [lia|].
    destruct (is_nul c); lia. }
  specialize (Hle r). destruct (is_nul c); lia.
Qed.

Fixpoint IsAnnotationTypeInArray (arr : list AnnotationType) (toFind : AnnotationType) : bool :=
  match arr with
  | [] => false
  | x :: rest => if bool_decide (toFind = x) then true else IsAnnotationTypeInArray rest toFind
  end.

Definition ShouldEditBorder (subtype : AnnotationType) : bool :=
  IsAnnotationTypeInArray gAnnotsWithBorder subtype.

Definition ShouldEditInteriorColor (subtype : AnnotationType) : bool :=
  IsAnnotationTypeInArray gAnnotsWithInteriorColor subtype.

(** ** EditAnnotations.cpp: the panel *)

(** [struct EditAnnotationsWindow], restricted to the controls that the
    handlers below write ([staticRect] is written by [ShowAnnotationRect]
    only, whose call is commented out). *)
Record EditAnnotationsWindow := mkEditAnnotationsWindow {
  staticAuthor : StaticCtrl;
  staticModificationDate : StaticCtrl;
  staticPopup : StaticCtrl;
  staticContents : StaticCtrl;
  editContents : EditCtrl;
  staticIcon : StaticCtrl;
  dropDownIcon : DropDownCtrl;
  staticColor : StaticCtrl;
  dropDownColor : DropDownCtrl;
  buttonDelete : ButtonCtrl;
  buttonSavePDF : ButtonCtrl;
  annotations : option (list ptr);
  annot : ptr;
}.

Definition upd_staticAuthor (f : StaticCtrl -> StaticCtrl) (w : EditAnnotationsWindow) :=
  mkEditAnnotationsWindow (f (staticAuthor w)) (staticModificationDate w)
    (staticPopup w) (staticContents w) (editContents w) (staticIcon w)
    (dropDownIcon w) (staticColor w) (dropDownColor w) (buttonDelete w)
    (buttonSavePDF w) (annotations w) (annot w).

Definition upd_staticModificationDate (f : StaticCtrl -> StaticCtrl) (w : EditAnnotationsWindow) :=
  mkEditAnnotationsWindow (staticAuthor w) (f (staticModificationDate w))
    (staticPopup w) (staticContents w) (editContents w) (staticIcon w)
    (dropDownIcon w) (staticColor w) (dropDownColor w) (buttonDelete w)
    (buttonSavePDF w) (annotations w) (annot w).

Definition upd_staticPopup (f : StaticCtrl -> StaticCtrl) (w : EditAnnotationsWindow) :=
  mkEditAnnotationsWindow (staticAuthor w) (staticModificationDate w)
    (f (staticPopup w)) (staticContents w) (editContents w) (staticIcon w)
    (dropDownIcon w) (staticColor w) (dropDownColor w) (buttonDelete w)
    (buttonSavePDF w) (annotations w) (annot w).

Definition upd_staticContents (f : StaticCtrl -> StaticCtrl) (w : EditAnnotationsWindow) :=
  mkEditAnnotationsWindow (staticAuthor w) (staticModificationDate w)
    (staticPopup w) (f (staticContents w)) (editContents w) (staticIcon w)
    (dropDownIcon w) (staticColor w) (dropDownColor w) (buttonDelete w)
    (buttonSavePDF w) (annotations w) (annot w).

Definition upd_editContents (f : EditCtrl -> EditCtrl) (w : EditAnnotationsWindow) :=
  mkEditAnnotationsWindow (staticAuthor w) (staticModificationDate w)
    (staticPopup w) (staticContents w) (f (editContents w)) (staticIcon w)
    (dropDownIcon w) (staticColor w) (dropDownColor w) (buttonDelete w)
    (buttonSavePDF w) (annotations w) (annot w).

Definition upd_staticIcon (f : StaticCtrl -> StaticCtrl) (w : EditAnnotationsWindow) :=
  mkEditAnnotationsWindow (staticAuthor w) (staticModificationDate w)
    (staticPopup w) (staticContents w) (editContents w) (f (staticIcon w))
    (dropDownIcon w) (staticColor w) (dropDownColor w) (buttonDelete w)
    (buttonSavePDF w) (annotations w) (annot w).

Definition upd_dropDownIcon (f : DropDownCtrl -> DropDownCtrl) (w : EditAnnotationsWindow) :=
  mkEditAnnotationsWindow (staticAuthor w) (staticModificationDate w)
    (staticPopup w) (staticContents w) (editContents w) (staticIcon w)
    (f (dropDownIcon w)) (staticColor w) (dropDownColor w) (buttonDelete w)
    (buttonSavePDF w) (annotations w) (annot w).

Definition upd_staticColor (f : StaticCtrl -> StaticCtrl) (w : EditAnnotationsWindow) :=
  mkEditAnnotationsWindow (staticAuthor w) (staticModificationDate w)
    (staticPopup w) (staticContents w) (editContents w) (staticIcon w)
    (dropDownIcon w) (f (staticColor w)) (dropDownColor w) (buttonDelete w)
    (buttonSavePDF w) (annotations w) (annot w).

Definition upd_dropDownColor (f : DropDownCtrl -> DropDownCtrl) (w : EditAnnotationsWindow) :=
  mkEditAnnotationsWindow (staticAuthor w) (staticModificationDate w)
    (staticPopup w) (staticContents w) (editContents w) (staticIcon w)
    (dropDownIcon w) (staticColor w) (f (dropDownColor w)) (buttonDelete w)
    (buttonSavePDF w) (annotations w) (annot w).

Definition upd_buttonDelete (f : ButtonCtrl -> ButtonCtrl) (w : EditAnnotationsWindow) :=
  mkEditAnnotationsWindow (staticAuthor w) (staticModificationDate w)
    (staticPopup w) (staticContents w) (editContents w) (staticIcon w)
    (dropDownIcon w) (staticColor w) (dropDownColor w) (f (buttonDelete w))
    (buttonSavePDF w) (annotations w) (annot w).

Definition upd_buttonSavePDF (f : ButtonCtrl -> ButtonCtrl) (w : EditAnnotationsWindow) :=
  mkEditAnnotationsWindow (staticAuthor w) (staticModificationDate w)
    (staticPopup w) (staticContents w) (editContents w) (staticIcon w)
    (dropDownIcon w) (staticColor w) (dropDownColor w) (buttonDelete w)
    (f (buttonSavePDF w)) (annotations w) (annot w).

Definition set_annot (p : ptr) (w : EditAnnotationsWindow) :=
  mkEditAnnotationsWindow (staticAuthor w) (staticModificationDate w)
    (staticPopup w) (staticContents w) (editContents w) (staticIcon w)
    (dropDownIcon w) (staticColor w) (dropDownColor w) (buttonDelete w)
    (buttonSavePDF w) (annotations w) p.

(** What a handler works on: the [Annotation] objects, the panel, and the
    number of times the host view was asked to render again
    ([RerenderForWindowInfo], in SumatraPDF.cpp). *)
Record State := mkState {
  heap : gmap loc Annotation.t;
  window : EditAnnotationsWindow;
  rerenders : nat;
}.

Record ListBoxSelectionChangedEvent := mkListBoxSelectionChangedEvent {
  lb_idx : Z;
  lb_item : string;
}.

Record DropDownSelectionChangedEvent := mkDropDownSelectionChangedEvent {
  dd_idx : Z;
  dd_item : string;
}.

Definition is_empty (s : string) : bool :=
  match s with EmptyString => true | _ => false end.

Section Panel.

Context `{Platform}.

(** The setters of [Annotation] that the edit handlers call. *)
Variable Annotation_SetIconName : Annotation.t -> string -> Annotation.t.
Variable Annotation_SetColor : Annotation.t -> Z -> Annotation.t.

Definition ShowAnnotationAuthor (h : gmap loc Annotation.t)
    (w : EditAnnotationsWindow) (annot : ptr) : option EditAnnotationsWindow :=
  match annot with
  | None => Some (upd_staticAuthor (StaticCtrlM.SetIsVisible false) w)
  | Some _ =>
      a ← deref h annot;
      let isVisible := negb (is_empty (Annotation.Author a)) in
      let w := upd_staticAuthor (StaticCtrlM.SetIsVisible isVisible) w in
      if negb isVisible then Some w
      else
        let s := ("Author: " +:+ Annotation.Author a)%string in
        Some (upd_staticAuthor (StaticCtrlM.SetText s) w)
  end.

(** [AppendPdfDate(s, secs)].  The pointer that [gmtime] returns is handed
    to [strftime] unchecked: there is no result when it is null. *)
Definition AppendPdfDate (s : string) (secs : Z) : option string :=
  t ← gmtime secs;
  let buf := strftime t in
  Some (s +:+ buf).

Definition ShowAnnotationModificationDate (h : gmap loc Annotation.t)
    (w : EditAnnotationsWindow) (annot : ptr) : option EditAnnotationsWindow :=
  match annot with
  | None => Some (upd_staticModificationDate (StaticCtrlM.SetIsVisible false) w)
  | Some _ =>
      a ← deref h annot;
      let isVisible := negb (Annotation.ModificationDate a =? 0) in
      let w := upd_staticModificationDate (StaticCtrlM.SetIsVisible isVisible) w in
      if negb isVisible then Some w
      else
        s ← AppendPdfDate "Date: " (Annotation.ModificationDate a);
        Some (upd_staticModificationDate (StaticCtrlM.SetText s) w)
  end.

Definition ShowAnnotationsPopup (h : gmap loc Annotation.t)
    (w : EditAnnotationsWindow) (annot : ptr) : option EditAnnotationsWindow :=
  popupId ← match annot with
            | None => Some (-1)
            | Some _ => Annotation.PopupId <$> deref h annot
            end;
  let isVisible := 0 <=? popupId in
  if negb isVisible then Some (upd_staticPopup (StaticCtrlM.SetIsVisible isVisible) w)
  else
    let s := ("Popup: " +:+ printf_d popupId +:+ " 0 R")%string in
    let w := upd_staticPopup (StaticCtrlM.SetIsVisible isVisible) w in
    Some (upd_staticPopup (StaticCtrlM.SetText s) w).

Definition ShowAnnotationsContents (h : gmap loc Annotation.t)
    (w : EditAnnotationsWindow) (annot : ptr) : option EditAnnotationsWindow :=
  let isVisible := bool_decide (annot <> None) in
  let w := upd_staticContents (StaticCtrlM.SetIsVisible isVisible) w in
  let w := upd_editContents (EditCtrlM.SetIsVisible isVisible) w in
  if negb isVisible then Some w
  else
    a ← deref h annot;
    let s := Annotation.Contents a in
    let s := str.Replace s (String LF EmptyString) (String CR (String LF EmptyString)) in
    Some (upd_editContents (EditCtrlM.SetText s) w).

(** The [switch] of [ShowAnnotationsIcon]. *)
Definition icons_of_type (t : AnnotationType) : option string :=
  match t with
  | Text => Some gTextIcons
  | FileAttachment => Some gFileAttachmentUcons
  | Sound => Some gSoundIcons
  | Stamp => Some gStampIcons
  | _ => None
  end.

Definition ShowAnnotationsIcon (h : gmap loc Annotation.t)
    (w : EditAnnotationsWindow) (annot : ptr) : option EditAnnotationsWindow :=
  iconName ← match annot with
             | None => Some EmptyString
             | Some _ => Annotation.IconName <$> deref h annot
             end;
  let isVisible := negb (is_empty iconName) in
  icons ← (if isVisible then a ← deref h annot; Some (icons_of_type (Annotation.type a))
           else Some None);
  let isVisible := match icons with None => false | Some _ => isVisible end in
  let w := upd_staticIcon (StaticCtrlM.SetIsVisible isVisible) w in
  let w := upd_dropDownIcon (DropDownCtrlM.SetIsVisible isVisible) w in
  match icons with
  | Some icons =>
      if negb isVisible then Some w
      else
        let strings := DropDownItemsFromStringArray [] icons in
        let w := upd_dropDownIcon (DropDownCtrlM.SetItems strings) w in
        let idx := FindStringInArray icons (Some iconName) 0 in
        Some (upd_dropDownIcon (DropDownCtrlM.SetCurrentSelection idx) w)
  | None => Some w
  end.

Definition ShowAnnotationsColor (h : gmap loc Annotation.t)
    (w : EditAnnotationsWindow) (annot : ptr) : option EditAnnotationsWindow :=
  annotType ← match annot with
              | None => Some Unknown
              | Some _ => Annotation.Type_ <$> deref h annot
              end;
  let isVisible := IsAnnotationTypeInArray gAnnotsWithColor annotType in
  let w := upd_staticColor (StaticCtrlM.SetIsVisible isVisible) w in
  let w := upd_dropDownColor (DropDownCtrlM.SetIsVisible isVisible) w in
  if negb isVisible then Some w
  else
    a ← deref h annot;
    let col := Annotation.Color a in
    let strings := DropDownItemsFromStringArray [] gColors in
    let w := upd_dropDownColor (DropDownCtrlM.SetItems strings) w in
    let colorName := GetKnownColorName col in
    let idx := FindStringInArray gColors colorName 0 in
    (* if (idx == -1) { } *)
    Some (upd_dropDownColor (DropDownCtrlM.SetCurrentSelection idx) w).

(** [ListBoxSelectionChanged(w, ev)].  The closing call of
    [LayoutAndSizeToContent] places the controls and writes none of the
    fields modelled here. *)
Definition ListBoxSelectionChanged (st : State) (ev : ListBoxSelectionChangedEvent)
  : option State :=
  let h := heap st in
  let w := window st in
  let itemNo := lb_idx ev in
  let w := set_annot None w in
  w ← (if 0 <=? itemNo
       then v ← annotations w; p ← Vec_at v itemNo; Some (set_annot p w)
       else Some w);
  w ← ShowAnnotationAuthor h w (annot w);
  w ← ShowAnnotationModificationDate h w (annot w);
  w ← ShowAnnotationsPopup h w (annot w);
  w ← ShowAnnotationsContents h w (annot w);
  w ← ShowAnnotationsIcon h w (annot w);
  w ← ShowAnnotationsColor h w (annot w);
  let w := upd_buttonDelete (ButtonCtrlM.SetIsVisible (bool_decide (annot w <> None))) w in
  Some (mkState h w (rerenders st)).

(** The loop of [EnableSaveIfAnnotationsChanged]; it leaves at the first
    marked annotation. *)
Fixpoint didChange_loop (h : gmap loc Annotation.t) (v : list ptr) : option bool :=
  match v with
  | [] => Some false
  | p :: rest =>
      a ← deref h p;
      if Annotation.isChanged a || Annotation.isDeleted a then Some true
      else didChange_loop h rest
  end.

Definition EnableSaveIfAnnotationsChanged (h : gmap loc Annotation.t)
    (w : EditAnnotationsWindow) : option EditAnnotationsWindow :=
  didChange ← match annotations w with
              | None => Some false
              | Some v => didChange_loop h v
              end;
  Some (upd_buttonSavePDF (ButtonCtrlM.SetIsEnabled didChange) w).

Definition RerenderForWindowInfo (n : nat) : nat := S n.

Definition DropDownIconSelectionChanged (st : State) (ev : DropDownSelectionChangedEvent)
  : option State :=
  let w := window st in
  l ← annot w;
  a ← heap st !! l;
  let h := <[l := Annotation_SetIconName a (dd_item ev)]> (heap st) in
  w ← EnableSaveIfAnnotationsChanged h w;
  Some (mkState h w (RerenderForWindowInfo (rerenders st))).

Definition DropDownColorSelectionChanged (st : State) (ev : DropDownSelectionChangedEvent)
  : option State :=
  let w := window st in
  let nColors := Z.of_nat (length gColorsValues) in
  let col := ColorUnset in
  col ← (if dd_idx ev <? nColors then array_at gColorsValues (dd_idx ev)
         else Some col);
  l ← annot w;
  a ← heap st !! l;
  let h := <[l := Annotation_SetColor a col]> (heap st) in
  w ← EnableSaveIfAnnotationsChanged h w;
  Some (mkState h w (RerenderForWindowInfo (rerenders st))).

End Panel.

(** The controls as [CreateMainLayout] leaves them, for a panel opened on
    the annotations [annots]: labels and pickers hidden, the colour picker
    filled from [gColors], the save button disabled, no text-changed
    callback on the contents editor, nothing selected. *)
Definition CreateMainLayout (annots : option (list ptr)) : EditAnnotationsWindow :=
  {| staticAuthor := mkStaticCtrl false EmptyString;
     staticModificationDate := mkStaticCtrl false EmptyString;
     staticPopup := mkStaticCtrl false EmptyString;
     staticContents := mkStaticCtrl false "Contents:";
     editContents := mkEditCtrl false EmptyString None;
     staticIcon := mkStaticCtrl false "Icon:";
     dropDownIcon := mkDropDownCtrl false [] (-1);
     staticColor := mkStaticCtrl false "Color:";
     dropDownColor := mkDropDownCtrl false (DropDownItemsFromStringArray [] gColors) (-1);
     buttonDelete := mkButtonCtrl false true;
     buttonSavePDF := mkButtonCtrl true false;
     annotations := annots;
     annot := None |}.

(** ** Reference definitions used to state the properties *)

(** A pointer that may be handed to the panel: null, or the location of an
    object of the heap. *)
Definition live_or_null (h : gmap loc Annotation.t) (p : ptr) : Prop :=
  match p with
  | None => True
  | Some l => is_Some (h !! l)
  end.

(** Every pointer of the panel's list points to an object. *)
Definition annotations_live (h : gmap loc Annotation.t) (w : EditAnnotationsWindow) : Prop :=
  match annotations w with
  | None => True
  | Some v => Forall (fun p => is_Some (deref h p)) v
  end.

(** The type that [ShowAnnotationsColor] tests: [Unknown] when nothing is
    selected. *)
Definition selected_type (h : gmap loc Annotation.t) (p : ptr) : AnnotationType :=
  match deref h p with
  | Some a => Annotation.Type_ a
  | None => Unknown
  end.

(** The pointer that a selection event with index [idx] designates: null
    for a negative index, the element of the list otherwise. *)
Definition designated `{Platform} (w : EditAnnotationsWindow) (idx : Z) : option ptr :=
  if 0 <=? idx then v ← annotations w; Vec_at v idx else Some None.

(** A modification date that the date label can show: 0 (the label is
    hidden and the date is not formatted) or a time that [gmtime] breaks
    down. *)
Definition date_representable `{Platform} (h : gmap loc Annotation.t) (p : ptr) : Prop :=
  match deref h p with
  | Some a =>
      Annotation.ModificationDate a = 0 \/ is_Some (gmtime (Annotation.ModificationDate a))
  | None => True
  end.

(** Some annotation of the panel's list carries the changed marker or the
    deleted marker. *)
Definition some_annotation_marked (st : State) : Prop :=
  exists (v : list ptr) (p : ptr) (a : Annotation.t),
    annotations (window st) = Some v /\
    In p v /\
    deref (heap st) p = Some a /\
    (Annotation.isChanged a = true \/ Annotation.isDeleted a = true).

(** What the contents label and editor become for the selected pointer. *)
Definition contents_shown (h : gmap loc Annotation.t) (p : ptr)
    (w : EditAnnotationsWindow) : EditAnnotationsWindow :=
  match deref h p with
  | Some a =>
      upd_editContents
        (fun c => EditCtrlM.SetText
                    (str.Replace (Annotation.Contents a) (String LF EmptyString)
                                 (String CR (String LF EmptyString)))
                    (EditCtrlM.SetIsVisible true c))
        (upd_staticContents (StaticCtrlM.SetIsVisible true) w)
  | None =>
      upd_editContents (EditCtrlM.SetIsVisible false)
        (upd_staticContents (StaticCtrlM.SetIsVisible false) w)
  end.

(** A text with every line feed replaced by carriage return, line feed. *)
Fixpoint crlf (s : string) : string :=
  match s with
  | EmptyString => EmptyString
  | String c r =>
      if Ascii.eqb c LF then String CR (String LF (crlf r)) else String c (crlf r)
  end.

(** An annotation of the given type, colour and contents, with nothing
    else set. *)
Definition sample_annotation (t : AnnotationType) (icon : string) (c : Z)
    (text : string) : Annotation.t :=
  {| Annotation.type := t; Annotation.pageNo := 1;
     Annotation.author := EmptyString; Annotation.modificationDate := 0;
     Annotation.popupId := -1; Annotation.contents := text;
     Annotation.iconName := icon; Annotation.color := c;
     Annotation.isChanged := false; Annotation.isDeleted := false;
     Annotation.pdf := true |}.

(** A panel opened on two annotations: a red note without contents at
    location 0, a link with two lines of contents at location 1. *)
Definition sample_heap : gmap loc Annotation.t :=
  <[1%nat := sample_annotation Link EmptyString 0 ("see" +:+ String LF "page 2")]>
    (<[0%nat := sample_annotation Text "Note" 0xff0000ff EmptyString]> ∅).

Definition sample_state : State :=
  mkState sample_heap (CreateMainLayout (Some [Some 0%nat; Some 1%nat])) 0.

(** An edit control showing "abc" whose callback marks every event
    handled, and the notification of a change of its text. *)
Definition sample_edit : EditCtrl :=
  mkEditCtrl true "abc"
    (Some (fun a =>
             mkEditTextChangedEvent
               (mkWndEvent (hwnd (base a)) (msg (base a)) (wparam (base a))
                           (lparam (base a)) true (result (base a)))
               (text a))).

Definition sample_en_change : WndEvent :=
  mkWndEvent 1 WM_COMMAND (Z.lor (Z.shiftl EN_CHANGE 16) 7) 0 false 0.

(** The sample panel with its first annotation selected. *)
Definition sample_selected : State :=
  mkState sample_heap
    (set_annot (Some 0%nat) (CreateMainLayout (Some [Some 0%nat; Some 1%nat]))) 0.

(** The first index at which [name] occurs in a list of names. *)
Fixpoint first_index (name : string) (names : list string) : option nat :=
  match names with
  | [] => None
  | x :: rest =>
      if String.eqb x name then Some O else S <$> first_index name rest
  end.

Fixpoint nul_free (s : string) : bool :=
  match s with
  | EmptyString => true
  | String c r => negb (is_nul c) && nul_free r
  end.

(** A name that a sequence of strings can hold: not empty (an empty string
    ends the sequence) and without NUL. *)
Definition name_ok (s : string) : bool := negb (is_empty s) && nul_free s.

(** The entry that a picker selects for a value: the first entry whose name
    is the value, and entry 0 when the value is null or names no entry. *)
Definition picker_selection (value : option string) (names : list string) : Z :=
  match value with
  | Some s =>
      match first_index (cstr s) names with
      | Some k => Z.of_nat k
      | None => 0
      end
  | None => 0
  end.

(** The date of the proleptic Gregorian calendar that lies [z] days after
    1970-01-01: year, month (1 to 12), day of the month. *)
Definition civil_from_days (z : Z) : Z * Z * Z :=
  let z := z + 719468 in
  let era := z / 146097 in
  let doe := z - era * 146097 in
  let yoe := (doe - doe / 1460 + doe / 36524 - doe / 146096) / 365 in
  let doy := doe - (365 * yoe + yoe / 4 - yoe / 100) in
  let mp := (5 * doy + 2) / 153 in
  let d := doy - (153 * mp + 2) / 5 + 1 in
  let m := if mp <? 10 then mp + 3 else mp - 9 in
  let y := yoe + era * 400 + (if m <=? 2 then 1 else 0) in
  (y, m, d).

(** A [gmtime] that breaks down the times from 1970-01-01 00:00:00 to
    3000-12-31 23:59:59 and returns null for every other. *)
Definition sample_gmtime (secs : Z) : option tm :=
  if (secs <? 0) || (32535215999 <? secs) then None
  else
    let '(y, m, d) := civil_from_days (secs / 86400) in
    let rem := secs mod 86400 in
    Some (mk_tm (rem mod 3600 / 60) (rem / 3600) d (m - 1) (y - 1900)).

Definition two_digits (n : Z) : string :=
  if n <? 10 then ("0" +:+ pretty n)%string else pretty n.

(** ["%Y-%m-%d %H:%M UTC"] for a year of four digits. *)
Definition sample_strftime (t : tm) : string :=
  (pretty (tm_year t + 1900) +:+ "-" +:+ two_digits (tm_mon t + 1) +:+ "-" +:+
   two_digits (tm_mday t) +:+ " " +:+ two_digits (tm_hour t) +:+ ":" +:+
   two_digits (tm_min t) +:+ " UTC")%string.

(** A platform to run the definitions on: a value of [ColorUnset] that is
    not a palette colour, decimal printing, the calendar above, and a
    [Vec<T>::at] that has no result outside the vector. *)
Definition sample_platform : Platform :=
  {| ColorUnset := 0xfeffffff;
     printf_d := fun n => pretty n;
     gmtime := sample_gmtime;
     strftime := sample_strftime;
     Vec_at_outside := fun _ _ => None |}.


(** ** What a selection writes, control by control

    Each function below is the write that one [Show...] function makes to
    one control, for the pointer [p] selected on the heap [h]. *)

Section Written.

Context `{Platform}.

Definition author_written (h : gmap loc Annotation.t) (p : ptr) (c : StaticCtrl) : StaticCtrl :=
  match deref h p with
  | Some a =>
      if is_empty (Annotation.Author a) then StaticCtrlM.SetIsVisible false c
      else StaticCtrlM.SetText ("Author: " +:+ Annotation.Author a)
             (StaticCtrlM.SetIsVisible true c)
  | None => StaticCtrlM.SetIsVisible false c
  end.

Definition date_written (h : gmap loc Annotation.t) (p : ptr) (c : StaticCtrl) : StaticCtrl :=
  match deref h p with
  | Some a =>
      if Annotation.ModificationDate a =? 0 then StaticCtrlM.SetIsVisible false c
      else
        match AppendPdfDate "Date: " (Annotation.ModificationDate a) with
        | Some s => StaticCtrlM.SetText s (StaticCtrlM.SetIsVisible true c)
        | None => StaticCtrlM.SetIsVisible true c
        end
  | None => StaticCtrlM.SetIsVisible false c
  end.

Definition popup_written (h : gmap loc Annotation.t) (p : ptr) (c : StaticCtrl) : StaticCtrl :=
  match deref h p with
  | Some a =>
      if 0 <=? Annotation.PopupId a
      then StaticCtrlM.SetText ("Popup: " +:+ printf_d (Annotation.PopupId a) +:+ " 0 R")
             (StaticCtrlM.SetIsVisible true c)
      else StaticCtrlM.SetIsVisible false c
  | None => StaticCtrlM.SetIsVisible false c
  end.

(** The table of icon names that [ShowAnnotationsIcon] offers, if any. *)
Definition icons_offered (h : gmap loc Annotation.t) (p : ptr) : option string :=
  match deref h p with
  | Some a =>
      if is_empty (Annotation.IconName a) then None
      else icons_of_type (Annotation.type a)
  | None => None
  end.

Definition icon_label_written (h : gmap loc Annotation.t) (p : ptr) (c : StaticCtrl) : StaticCtrl :=
  StaticCtrlM.SetIsVisible
    (match icons_offered h p with Some _ => true | None => false end) c.

Definition icon_picker_written (h : gmap loc Annotation.t) (p : ptr) (c : DropDownCtrl) : DropDownCtrl :=
  match icons_offered h p, deref h p with
  | Some icons, Some a =>
      DropDownCtrlM.SetCurrentSelection
        (FindStringInArray icons (Some (Annotation.IconName a)) 0)
        (DropDownCtrlM.SetItems (DropDownItemsFromStringArray [] icons)
           (DropDownCtrlM.SetIsVisible true c))
  | _, _ => DropDownCtrlM.SetIsVisible false c
  end.

Definition color_label_written (h : gmap loc Annotation.t) (p : ptr) (c : StaticCtrl) : StaticCtrl :=
  StaticCtrlM.SetIsVisible
    (IsAnnotationTypeInArray gAnnotsWithColor (selected_type h p)) c.

Definition color_picker_written (h : gmap loc Annotation.t) (p : ptr) (c : DropDownCtrl) : DropDownCtrl :=
  match deref h p with
  | Some a =>
      if IsAnnotationTypeInArray gAnnotsWithColor (Annotation.Type_ a)
      then DropDownCtrlM.SetCurrentSelection
             (FindStringInArray gColors (GetKnownColorName (Annotation.Color a)) 0)
             (DropDownCtrlM.SetItems (DropDownItemsFromStringArray [] gColors)
                (DropDownCtrlM.SetIsVisible true c))
      else DropDownCtrlM.SetIsVisible false c
  | None => DropDownCtrlM.SetIsVisible false c
  end.

(** The panel after a selection event that designates [p]. *)
Definition selection_written (h : gmap loc Annotation.t) (p : ptr)
    (w : EditAnnotationsWindow) : EditAnnotationsWindow :=
  upd_buttonDelete (ButtonCtrlM.SetIsVisible (bool_decide (p <> None)))
    (upd_dropDownColor (color_picker_written h p)
       (upd_staticColor (color_label_written h p)
          (upd_dropDownIcon (icon_picker_written h p)
             (upd_staticIcon (icon_label_written h p)
                (contents_shown h p
                   (upd_staticPopup (popup_written h p)
                      (upd_staticModificationDate (date_written h p)
                         (upd_staticAuthor (author_written h p)
                            (set_annot p w))))))))).

End Written.

(** A panel opened on one ink annotation by Ada, dated, with popup 12 and
    a blue colour. *)
Definition sample_inked : State :=
  mkState
    (<[0%nat := Annotation.mk Ink 3 "Ada" 86400 12 EmptyString EmptyString
                  0xffff0000 false false true]> ∅)
    (CreateMainLayout (Some [Some 0%nat])) 0.

(** A pointer to an annotation that carries neither marker. *)
Definition unmarked (h : gmap loc Annotation.t) (p : ptr) : Prop :=
  exists a, deref h p = Some a /\
            Annotation.isChanged a = false /\ Annotation.isDeleted a = false.

(** ** wingui/EditCtrl.cpp: colours, creation, cue text, ideal size *)

Definition WM_CTLCOLOREDIT : Z := 0x0133.
Definition TRANSPARENT : Z := 1.
Definition WS_CHILD : Z := 0x40000000.
Definition WS_VISIBLE : Z := 0x10000000.
Definition WS_BORDER : Z := 0x00800000.
Definition WS_VSCROLL : Z := 0x00200000.
Definition WS_TABSTOP : Z := 0x00010000.
Definition ES_LEFT : Z := 0x0000.
Definition ES_MULTILINE : Z := 0x0004.
Definition ES_AUTOHSCROLL : Z := 0x0080.
Definition ES_WANTRETURN : Z := 0x1000.
Definition LOWORD (x : Z) : Z := Z.land x 0xffff.

(** [bit::IsMaskSet(v, mask)] (utils/BitManip.h): every bit of [mask] is
    set in [v]. *)
Definition IsMaskSet (v mask : Z) : bool := Z.land v mask =? mask.

(** What the edit control draws on a device context. *)
Inductive GdiCall :=
  | SetBkMode (hdc mode : Z)
  | SetTextColor (hdc color : Z).

(** The members of [EditCtrl] and of its base [WindowBase] that
    EditCtrl.cpp reads and writes; a null handle is 0.  [handlers] are the
    messages registered with [RegisterHandlerForMessage], [cueBanners] the
    texts handed to the native [Edit_SetCueBannerText], latest first. *)
Record EditCtrlWin := mkEditCtrlWin {
  ec_hwnd : Z;
  ec_dwStyle : Z;
  ec_isMultiLine : bool;
  ec_hasBorder : bool;
  ec_idealSizeLines : Z;
  ec_cueText : string;
  ec_bgBrush : Z;
  ec_textColor : Z;
  ec_handlers : list Z;
  ec_cueBanners : list string;
}.

Record Size := mkSize { size_dx : Z; size_dy : Z }.

(** The range of [int], and the value of an [int] operation whose exact
    result is [x]: none when [x] is outside the range. *)
Definition INT_MIN : Z := - 2 ^ 31.
Definition INT_MAX : Z := 2 ^ 31 - 1.

Definition int_of (x : Z) : option Z :=
  if (INT_MIN <=? x) && (x <=? INT_MAX) then Some x else None.

Module EditCtrlNative.

Section Native.

Context `{Platform}.

(** [WindowBase::Create] (wingui/Window.cpp): the handle of the window
    created with the given style, or nothing when creation fails.
    [Edit_SetCueBannerText] is the native call; it reports success. *)
Variable WindowBase_Create : Z -> option Z.
Variable Edit_SetCueBannerText : Z -> string -> bool.

(** [HandleWM_CTLCOLOREDIT(w, ev)]: the event as the handler leaves it and
    the drawing calls made. *)
Definition HandleWM_CTLCOLOREDIT (w : EditCtrlWin) (ev : WndEvent)
  : option (WndEvent * list GdiCall) :=
  if negb (msg ev =? WM_CTLCOLOREDIT) then None
  else
    let hwndCtrl := lparam ev in
    if negb (hwndCtrl =? ec_hwnd w) then None
    else if ec_bgBrush w =? 0 then Some (ev, [])
    else
      let hdc := wparam ev in
      let calls := [SetBkMode hdc TRANSPARENT] in
      let calls := if negb (ec_textColor w =? ColorUnset)
                   then calls ++ [SetTextColor hdc (ec_textColor w)]
                   else calls in
      Some (mkWndEvent (hwnd ev) (msg ev) (wparam ev) (lparam ev) true (ec_bgBrush w),
            calls).

(** [EditSetCueText(hwnd, s)]: the control after the call and the result. *)
Definition EditSetCueText (w : EditCtrlWin) (s : string) : EditCtrlWin * bool :=
  if ec_hwnd w =? 0 then (w, false)
  else
    let ok := Edit_SetCueBannerText (ec_hwnd w) s in
    (mkEditCtrlWin (ec_hwnd w) (ec_dwStyle w) (ec_isMultiLine w) (ec_hasBorder w)
       (ec_idealSizeLines w) (ec_cueText w) (ec_bgBrush w) (ec_textColor w)
       (ec_handlers w) (s :: ec_cueBanners w),
     ok).

(** [EditCtrl::SetCueText(s)]. *)
Definition SetCueText (w : EditCtrlWin) (s : string) : EditCtrlWin * bool :=
  let w := mkEditCtrlWin (ec_hwnd w) (ec_dwStyle w) (ec_isMultiLine w) (ec_hasBorder w)
             (ec_idealSizeLines w) s (ec_bgBrush w) (ec_textColor w)
             (ec_handlers w) (ec_cueBanners w) in
  EditSetCueText w (ec_cueText w).

(** [EditCtrl::EditCtrl(p)]: the constructor sets the window style; the
    other members keep the values that their declarations give them. *)
Definition EditCtrl_ctor (w : EditCtrlWin) : EditCtrlWin :=
  let dwStyle := Z.lor (Z.lor (Z.lor WS_CHILD WS_VISIBLE) WS_TABSTOP) ES_LEFT in
  let dwStyle := Z.lor dwStyle WS_BORDER in
  mkEditCtrlWin (ec_hwnd w) dwStyle (ec_isMultiLine w) (ec_hasBorder w)
    (ec_idealSizeLines w) (ec_cueText w) (ec_bgBrush w) (ec_textColor w)
    (ec_handlers w) (ec_cueBanners w).

(** [EditCtrl::Create()]. *)
Definition Create (w : EditCtrlWin) : EditCtrlWin * bool :=
  let hasBorder := IsMaskSet (ec_dwStyle w) WS_BORDER in
  let dwStyle :=
    if ec_isMultiLine w
    then Z.lor (ec_dwStyle w) (Z.lor (Z.lor ES_MULTILINE WS_VSCROLL) ES_WANTRETURN)
    else Z.lor (ec_dwStyle w) ES_AUTOHSCROLL in
  let w := mkEditCtrlWin (ec_hwnd w) dwStyle (ec_isMultiLine w) hasBorder
             (ec_idealSizeLines w) (ec_cueText w) (ec_bgBrush w) (ec_textColor w)
             (ec_handlers w) (ec_cueBanners w) in
  match WindowBase_Create dwStyle with
  | None => (w, false)
  | Some hwnd =>
      let w := mkEditCtrlWin hwnd (ec_dwStyle w) (ec_isMultiLine w) (ec_hasBorder w)
                 (ec_idealSizeLines w) (ec_cueText w) (ec_bgBrush w) (ec_textColor w)
                 (ec_handlers w ++ [WM_COMMAND; WM_CTLCOLOREDIT]) (ec_cueBanners w) in
      (fst (EditSetCueText w (ec_cueText w)), true)
  end.

(** [EditCtrl::GetIdealSize()], from what the platform measures: [s1] the
    size of "Minimal", [s2] the size of the control's text, [margins] the
    answer to [EM_GETMARGINS], [dpi4] four pixels scaled to the display. *)
Definition GetIdealSize (w : EditCtrlWin) (s1 s2 : Size) (margins dpi4 : Z)
  : option Size :=
  let dx := Z.max (size_dx s1) (size_dx s2) in
  let dy := Z.min (size_dy s1) (size_dy s2) in
  let dy := if dy =? 0 then Z.max (size_dy s1) (size_dy s2) else dy in
  dy ← int_of (dy * ec_idealSizeLines w);
  let lm := LOWORD margins in
  let rm := HIWORD margins in
  margin ← int_of (lm + rm);
  dx ← int_of (dx + margin);
  if ec_hasBorder w
  then
    dx ← int_of (dx + dpi4);
    dy ← int_of (dy + dpi4);
    Some (mkSize dx dy)
  else Some (mkSize dx dy).

End Native.

End EditCtrlNative.

(** An edit control before its creation, a platform window factory that
    always succeeds with handle 42, and a native cue banner call that
    succeeds. *)
Definition sample_edit_win : EditCtrlWin :=
  mkEditCtrlWin 0 0 true false 5 EmptyString 0 0xfeffffff [] [].

Definition sample_create (style : Z) : option Z := Some 42.

Definition sample_banner (hwnd : Z) (s : string) : bool := true.

(** ** EditAnnotations.cpp: opening and closing the panel *)

(** The loop of [~EditAnnotationsWindow]: [delete a] for every annotation
    of the list that has [pdf] set ("only annotations with pdf_annot set
    belong to us"). *)
Fixpoint delete_owned (h : gmap loc Annotation.t) (v : list ptr)
  : option (gmap loc Annotation.t) :=
  match v with
  | [] => Some h
  | p :: rest =>
      a ← deref h p;
      match p with
      | Some l => delete_owned (if Annotation.pdf a then delete l h else h) rest
      | None => None
      end
  end.

(** [~EditAnnotationsWindow]: the heap of annotations once the panel is
    destroyed.  The destructor reads [annotations] without testing it. *)
Definition EditAnnotationsWindow_dtor (h : gmap loc Annotation.t)
    (w : EditAnnotationsWindow) : option (gmap loc Annotation.t) :=
  v ← annotations w;
  delete_owned h v.

(** The panel with the strings of its list box. *)
Record Panel := mkPanel {
  panel_window : EditAnnotationsWindow;
  lbModel : list string;
}.

Record DisplayModel := mkDisplayModel {
  userAnnots : option (list ptr);
}.

(** [TabInfo], as far as the panel uses it: the slot of the open panel, the
    document view that [AsFixed()] returns, and the number of times the
    panel was brought to the top. *)
Record TabInfo := mkTabInfo {
  editAnnotsWindow : option Panel;
  AsFixed : option DisplayModel;
  broughtToTop : nat;
}.

Section Lifecycle.

Context `{Platform}.

(** [AnnotationName] (Annotation.cpp): the display name of a type. *)
Variable AnnotationName : AnnotationType -> string.

(** [CrashIf] (utils/BaseUtil.h) with a condition that holds: whether the
    macro returns to the code after it, or ends the program there. *)
Variable CrashIf_returns : bool.

(** The loop of [RebuildAnnotations]: one string for each annotation. *)
Fixpoint RebuildAnnotations_loop (h : gmap loc Annotation.t) (v : list ptr)
  : option (list string) :=
  match v with
  | [] => Some []
  | p :: rest =>
      annot ← deref h p;
      let s := ("page " +:+ printf_d (Annotation.pageNo annot) +:+ ", ")%string in
      let s := (s +:+ AnnotationName (Annotation.type annot))%string in
      strings ← RebuildAnnotations_loop h rest;
      Some (s :: strings)
  end.

(** [RebuildAnnotations(w)]: the strings of the new list box model. *)
Definition RebuildAnnotations (h : gmap loc Annotation.t)
    (w : EditAnnotationsWindow) : option (list string) :=
  match annotations w with
  | Some v => RebuildAnnotations_loop h v
  | None => Some []
  end.

(** [StartEditAnnotations(tab)].  [engineAnnots] are the pointers that the
    engine's [GetAnnotations] appends (their objects are in [h]);
    [created] tells whether the native windows could be created.  Without
    a document view, [CrashIf(!dm)] is followed by [if (!dm) return]: when
    the macro returns, the call returns with the tab as it was.  After a
    window that could not be created, nothing but [CrashIf(!ok)] stands
    before the code that uses the window: there is no result.  The
    placement and the size of the window are left out. *)
Definition StartEditAnnotations (engineAnnots : list ptr) (created : bool)
    (h : gmap loc Annotation.t) (tab : TabInfo) : option TabInfo :=
  match editAnnotsWindow tab with
  | Some _ => Some (mkTabInfo (editAnnotsWindow tab) (AsFixed tab) (S (broughtToTop tab)))
  | None =>
      match AsFixed tab with
      | None => if CrashIf_returns then Some tab else None
      | Some dm =>
          let annots := engineAnnots in
          let annots := match userAnnots dm with
                        | Some u => annots ++ u
                        | None => annots
                        end in
          if negb created then None
          else
            let win := CreateMainLayout (Some annots) in
            model ← RebuildAnnotations h win;
            Some (mkTabInfo (Some (mkPanel win model)) (AsFixed tab) (broughtToTop tab))
      end
  end.

End Lifecycle.

(** [CloseWindow(w)] for the panel [w] of the tab: the slot is cleared and
    the panel destroyed. *)
Definition CloseWindow (h : gmap loc Annotation.t) (tab : TabInfo)
  : option (gmap loc Annotation.t * TabInfo) :=
  w ← editAnnotsWindow tab;
  h' ← EditAnnotationsWindow_dtor h (panel_window w);
  Some (h', mkTabInfo None (AsFixed tab) (broughtToTop tab)).

(** Display names for the samples. *)
Definition sample_name (t : AnnotationType) : string :=
  match t with
  | Text => "Text"
  | Link => "Link"
  | Ink => "Ink"
  | _ => "Other"
  end.

(** A tab on a document view with one user annotation (the link of the
    sample heap), with no panel open. *)
Definition sample_tab : TabInfo :=
  mkTabInfo None (Some (mkDisplayModel (Some [Some 1%nat]))) 0.

(** The sample heap with its link marked as not backed by the engine. *)
Definition sample_heap_owned : gmap loc Annotation.t :=
  <[1%nat := Annotation.mk Link 2 EmptyString 0 (-1) EmptyString EmptyString 0
               false false false]> sample_heap.

(** * Properties *)

(** The lookups are kept folded while the handlers are evaluated. *)
Arguments FindStringInArray : simpl never.
Arguments GetKnownColorName : simpl never.
Arguments IsAnnotationTypeInArray : simpl never.
Arguments DropDownItemsFromStringArray : simpl never.
Arguments str.Replace : simpl never.
Arguments gColorsValues : simpl never.

(** ** The definitions at work *)

Example FindStringInArray_default_fallback :
  FindStringInArray gColors (Some "Pink"%string) (-1) = -1 /\
  FindStringInArray gColors (Some "Navy"%string) (-1) = 9 /\
  FindStringInArray gStampIcons (Some "Draft"%string) 0 = 4.
Proof. repeat split; reflexivity. Qed.

Example DropDownItemsFromStringArray_sound :
  DropDownItemsFromStringArray [] gSoundIcons = ["Speaker"; "Mic"]%string.
Proof. reflexivity. Qed.

Example GetKnownColorName_samples :
  cstr <$> GetKnownColorName (H := sample_platform) 0x0000a5ff = Some "Orange"%string /\
  cstr <$> GetKnownColorName (H := sample_platform) 0x7f0000ff = Some "Red"%string /\
  GetKnownColorName (H := sample_platform) 0xff123456 = None.
Proof. repeat split; reflexivity. Qed.

(** A line feed that already follows a carriage return is replaced as
    well. *)
Example Replace_after_carriage_return :
  str.Replace (String CR (String LF "x")) (String LF EmptyString)
    (String CR (String LF EmptyString)) =
  String CR (String CR (String LF "x")).
Proof. reflexivity. Qed.

Example IsAnnotationTypeInArray_samples :
  IsAnnotationTypeInArray gAnnotsWithColor Squiggly = true /\
  IsAnnotationTypeInArray gAnnotsWithColor Link = false /\
  IsAnnotationTypeInArray gAnnotsWithColor Unknown = false.
Proof. repeat split; reflexivity. Qed.

(** ** Sequences of strings *)

Lemma cstr_seq (name rest : string) :
  nul_free name = true -> cstr (name +:+ String NUL rest) = name.
Proof.
  induction name as [|c r IH]; simpl; [reflexivity|].
  intros Hok. apply andb_true_iff in Hok as [Hc Hr].
  apply negb_true_iff in Hc. rewrite Hc. f_equal. auto.
Qed.

Lemma SkipStr_seq (name rest : string) :
  nul_free name = true -> seqstrings.SkipStr (name +:+ String NUL rest) = rest.
Proof.
  induction name as [|c r IH]; simpl; [reflexivity|].
  intros Hok. apply andb_true_iff in Hok as [Hc Hr].
  apply negb_true_iff in Hc. rewrite Hc. auto.
Qed.

Lemma cstr_nul_free (s : string) : nul_free s = true -> cstr s = s.
Proof.
  induction s as [|c r IH]; simpl; [reflexivity|].
  intros Hok. apply andb_true_iff in Hok as [Hc Hr].
  apply negb_true_iff in Hc. rewrite Hc. f_equal. auto.
Qed.

Lemma seqstr_cons (x : string) (names : list string) :
  seqstr (x :: names) = x +:+ String NUL (seqstr names).
Proof. reflexivity. Qed.

Lemma name_ok_inv (x : string) :
  name_ok x = true ->
  exists c r, x = String c r /\ is_nul c = false /\ nul_free x = true.
Proof.
  unfold name_ok. intros Hok. apply andb_true_iff in Hok as [Hne Hnf].
  destruct x as [|c r]; [discriminate|].
  exists c, r. split; [reflexivity|]. split; [|exact Hnf].
  simpl in Hnf. apply andb_true_iff in Hnf as [Hc _].
  now apply negb_true_iff in Hc.
Qed.

(** On a well-formed table, the loop of [FindStringInArray] finds the first
    entry equal to the string looked for. *)
Lemma FindStringInArray_loop_seqstr (names : list string) (t : string) (d i : Z) :
  forallb name_ok names = true ->
  FindStringInArray_loop (seqstr names) (Some t) d i =
  match first_index (cstr t) names with
  | Some k => i + Z.of_nat k
  | None => d
  end.
Proof.
  revert i. induction names as [|x names IH]; intros i Hok.
  - unfold seqstr; simpl. simp FindStringInArray_loop. reflexivity.
  - simpl in Hok. apply andb_true_iff in Hok as [Hx Hrest].
    destruct (name_ok_inv x Hx) as (c & r & -> & Hc & Hnf).
    rewrite seqstr_cons.
    change (String c r +:+ String NUL (seqstr names))
      with (String c (r +:+ String NUL (seqstr names))).
    simp FindStringInArray_loop. rewrite Hc.
    change (String c (r +:+ String NUL (seqstr names)))
      with (String c r +:+ String NUL (seqstr names)).
    unfold str.Eq. rewrite (cstr_seq _ _ Hnf), (SkipStr_seq _ _ Hnf).
    cbn [first_index].
    destruct (String.eqb (String c r) (cstr t)) eqn:Heq.
    + simpl. lia.
    + rewrite IH by exact Hrest.
      destruct (first_index (cstr t) names) as [k|]; simpl; [lia|reflexivity].
Qed.

(** A null pointer is found in no table. *)
Lemma FindStringInArray_loop_null (items : string) (d i : Z) :
  FindStringInArray_loop items None d i = d.
Proof.
  funelim (FindStringInArray_loop items None d i).
  - reflexivity.
  - destruct (is_nul c); [reflexivity|]. simpl. auto.
Qed.

(** The loop returns the fallback value or a count of skipped strings. *)
Lemma FindStringInArray_loop_range (items : string) (toFind : option string) (d i : Z) :
  FindStringInArray_loop items toFind d i = d \/
  i <= FindStringInArray_loop items toFind d i < i + Z.of_nat (String.length items).
Proof.
  funelim (FindStringInArray_loop items toFind d i).
  - left. reflexivity.
  - destruct (is_nul c) eqn:Hc; [left; reflexivity|].
    destruct (str.Eq (Some (String c r)) toFind) eqn:Heq.
    + right. simpl. lia.
    + destruct H as [H|H]; [left; exact H|right].
      assert (Hle : forall s, (String.length (seqstrings.SkipStr s) <= String.length s)%nat).
      { clear. intros s. induction s as [|c r IH]; simpl; [lia|].
        destruct (is_nul c); lia. }
      specialize (Hle r). simpl in H |- *. rewrite Hc in H |- *. simpl String.length. lia.
Qed.

Lemma DropDownItemsFromStringArray_seqstr (names items : list string) :
  forallb name_ok names = true ->
  DropDownItemsFromStringArray items (seqstr names) = items ++ names.
Proof.
  revert items. induction names as [|x names IH]; intros items Hok.
  - unfold seqstr; simpl. simp DropDownItemsFromStringArray.
    now rewrite app_nil_r.
  - simpl in Hok. apply andb_true_iff in Hok as [Hx Hrest].
    destruct (name_ok_inv x Hx) as (c & r & -> & Hc & Hnf).
    rewrite seqstr_cons.
    change (String c r +:+ String NUL (seqstr names))
      with (String c (r +:+ String NUL (seqstr names))).
    simp DropDownItemsFromStringArray. rewrite Hc.
    change (String c (r +:+ String NUL (seqstr names)))
      with (String c r +:+ String NUL (seqstr names)).
    rewrite (cstr_seq _ _ Hnf), (SkipStr_seq _ _ Hnf).
    rewrite IH by exact Hrest. now rewrite <- app_assoc.
Qed.

(** ** Colours *)

Local Open Scope bool_scope.

Lemma testbit_0xff (n : Z) : Z.testbit 0xff n = (0 <=? n) && (n <? 8).
Proof. change 0xff with (Z.ones 8). apply Z.testbit_ones. lia. Qed.

Ltac bits :=
  repeat first
    [ rewrite Z.lor_spec | rewrite Z.land_spec | rewrite testbit_0xff
    | rewrite Z.shiftl_spec by lia ].

Ltac split_cmp :=
  repeat match goal with
    | |- context [?a <=? ?b] => destruct (Z.leb_spec a b)
    | |- context [?a <? ?b] => destruct (Z.ltb_spec a b)
    end.

(** [ColorSetAlpha c a] keeps the 24 colour bits of [c] and takes its alpha
    byte from [a]. *)
Lemma ColorSetAlpha_testbit (c a n : Z) :
  0 <= n ->
  Z.testbit (ColorSetAlpha c a) n =
  if n <? 24 then Z.testbit c n
  else if n <? 32 then Z.testbit a (n - 24) else false.
Proof.
  intros Hn. unfold ColorSetAlpha, MkRgba. bits.
  split_cmp; try lia;
    rewrite ?andb_false_r, ?andb_true_r, ?orb_false_r, ?orb_false_l;
    rewrite ?Z.shiftr_spec by lia; try reflexivity; f_equal; lia.
Qed.

Lemma ColorSetAlpha_idem (c a b : Z) :
  ColorSetAlpha (ColorSetAlpha c a) b = ColorSetAlpha c b.
Proof.
  apply Z.bits_inj'. intros n Hn.
  rewrite !ColorSetAlpha_testbit by lia.
  destruct (n <? 24); reflexivity.
Qed.

(** ** The known-colour lookup *)

Lemma GetKnownColorName_loop_found (c2 : Z) (vals : list Z) (i : Z) (k : nat) :
  vals !! k = Some c2 ->
  (forall j : nat, (j < k)%nat -> vals !! j <> Some c2) ->
  GetKnownColorName_loop c2 vals i = seqstrings.IdxToStr gColors (i + Z.of_nat k).
Proof.
  revert i k. induction vals as [|v rest IH]; intros i k Hk Hleast.
  - rewrite lookup_nil in Hk. discriminate.
  - simpl. destruct k as [|k].
    + simpl in Hk. injection Hk as ->. rewrite Z.eqb_refl. f_equal. lia.
    + destruct (Z.eqb_spec c2 v) as [->|Hne].
      * exfalso. apply (Hleast O); [lia|reflexivity].
      * rewrite (IH (i + 1) k).
        -- f_equal. lia.
        -- exact Hk.
        -- intros j Hj. apply (Hleast (S j)). lia.
Qed.

Lemma GetKnownColorName_loop_none (c2 : Z) (vals : list Z) (i : Z) :
  (forall j : nat, vals !! j <> Some c2) ->
  GetKnownColorName_loop c2 vals i = None.
Proof.
  revert i. induction vals as [|v rest IH]; intros i Hno; [reflexivity|].
  simpl. destruct (Z.eqb_spec c2 v) as [->|Hne].
  - exfalso. apply (Hno O). reflexivity.
  - apply IH. intros j. apply (Hno (S j)).
Qed.

Lemma GetKnownColorName_loop_some (c2 : Z) (vals : list Z) (i : Z) (s : string) :
  GetKnownColorName_loop c2 vals i = Some s ->
  exists k : nat,
    vals !! k = Some c2 /\
    (forall j : nat, (j < k)%nat -> vals !! j <> Some c2) /\
    seqstrings.IdxToStr gColors (i + Z.of_nat k) = Some s.
Proof.
  revert i. induction vals as [|v rest IH]; intros i Hs; [discriminate|].
  simpl in Hs. destruct (Z.eqb_spec c2 v) as [->|Hne].
  - exists O. split; [reflexivity|]. split; [lia|].
    rewrite <- Hs. f_equal. lia.
  - destruct (IH _ Hs) as (k & Hk & Hleast & Hname).
    exists (S k). split; [exact Hk|]. split.
    + intros [|j] Hj; simpl; [congruence|]. apply Hleast. lia.
    + rewrite <- Hname. f_equal. lia.
Qed.

(** The names of the palette, read through [IdxToStr]. *)
Lemma IdxToStr_gColors (i : nat) :
  (i < 18)%nat ->
  cstr <$> seqstrings.IdxToStr gColors (Z.of_nat i) = gColorNames !! i.
Proof.
  intros Hi.
  do 18 (destruct i as [|i]; [vm_compute; reflexivity|]).
  lia.
Qed.

Lemma gColorsValues_length `{Platform} : length gColorsValues = 18%nat.
Proof. reflexivity. Qed.

(** The name that [GetKnownColorName] returns is found by
    [FindStringInArray] at the index it was taken from. *)
Lemma FindStringInArray_IdxToStr_gColors (i : nat) (s : string) (d : Z) :
  (i < 18)%nat ->
  seqstrings.IdxToStr gColors (Z.of_nat i) = Some s ->
  FindStringInArray gColors (Some s) d = Z.of_nat i.
Proof.
  intros Hi Hs. unfold FindStringInArray, gColors.
  rewrite FindStringInArray_loop_seqstr by reflexivity.
  pose proof (IdxToStr_gColors i Hi) as Hname. rewrite Hs in Hname.
  change (cstr <$> Some s) with (Some (cstr s)) in Hname.
  generalize dependent (cstr s). intros name Hname.
  do 18 (destruct i as [|i];
         [vm_compute in Hname; injection Hname as ->; reflexivity|]).
  lia.
Qed.

Lemma GetKnownColorName_inv `{Platform} (c : Z) (s : string) :
  GetKnownColorName c = Some s ->
  exists i : nat,
    (1 <= i < 18)%nat /\
    gColorsValues !! i = Some (ColorSetAlpha c 0xff) /\
    seqstrings.IdxToStr gColors (Z.of_nat i) = Some s.
Proof.
  unfold GetKnownColorName. intros Hs.
  apply GetKnownColorName_loop_some in Hs as (k & Hk & _ & Hname).
  rewrite lookup_drop in Hk.
  pose proof (lookup_lt_Some _ _ _ Hk) as Hlt. rewrite gColorsValues_length in Hlt.
  exists (1 + k)%nat. split; [lia|]. split; [exact Hk|].
  rewrite <- Hname. f_equal. lia.
Qed.

Lemma GetKnownColorName_least `{Platform} (c : Z) (i : nat) :
  (1 <= i)%nat ->
  gColorsValues !! i = Some (ColorSetAlpha c 0xff) ->
  (forall j : nat, (1 <= j < i)%nat -> gColorsValues !! j <> Some (ColorSetAlpha c 0xff)) ->
  GetKnownColorName c = seqstrings.IdxToStr gColors (Z.of_nat i).
Proof.
  intros Hi Hval Hleast. unfold GetKnownColorName.
  rewrite (GetKnownColorName_loop_found _ _ _ (i - 1)).
  - f_equal. lia.
  - rewrite lookup_drop. replace (1 + (i - 1))%nat with i by lia. exact Hval.
  - intros j Hj. rewrite lookup_drop. apply Hleast. lia.
Qed.

(** The index that [ShowAnnotationsColor] selects for a colour. *)
Lemma color_selection_range `{Platform} (c : Z) :
  0 <= FindStringInArray gColors (GetKnownColorName c) 0 < 18.
Proof.
  destruct (GetKnownColorName c) as [s|] eqn:Hs.
  - apply GetKnownColorName_inv in Hs as (i & Hi & _ & Hname).
    rewrite (FindStringInArray_IdxToStr_gColors i s 0) by (lia || exact Hname). lia.
  - unfold FindStringInArray. rewrite FindStringInArray_loop_null. lia.
Qed.

Lemma gColors_items : DropDownItemsFromStringArray [] gColors = gColorNames.
Proof.
  unfold gColors. now rewrite DropDownItemsFromStringArray_seqstr.
Qed.

Lemma ShowAnnotationsColor_visible `{Platform} (h : gmap loc Annotation.t)
    (w : EditAnnotationsWindow) (l : loc) (a : Annotation.t) :
  h !! l = Some a ->
  IsAnnotationTypeInArray gAnnotsWithColor (Annotation.type a) = true ->
  exists w',
    ShowAnnotationsColor h w (Some l) = Some w' /\
    static_isVisible (staticColor w') = true /\
    dropdown_isVisible (dropDownColor w') = true /\
    dropdown_items (dropDownColor w') = gColorNames /\
    dropdown_currentSelection (dropDownColor w') =
      FindStringInArray gColors (GetKnownColorName (Annotation.color a)) 0.
Proof.
  intros Hl Hin. unfold ShowAnnotationsColor, deref. rewrite Hl.
  cbn [fmap option_fmap option_map mbind option_bind].
  unfold Annotation.Type_, Annotation.Color. rewrite Hin. simpl.
  eexists. split; [reflexivity|]. simpl. rewrite gColors_items. auto.
Qed.

(** C9.  [GetKnownColorName c] is the name at the least index [i >= 1] whose
    palette value is [c] with its alpha byte forced to [0xff], and null when
    there is no such index; so the result does not depend on the alpha byte
    of [c], and it is never the name "None" of index 0. *)
Theorem GetKnownColorName_least_index `{Platform} (c : Z) :
  (forall i : nat,
      (1 <= i)%nat ->
      gColorsValues !! i = Some (ColorSetAlpha c 0xff) ->
      (forall j : nat, (1 <= j < i)%nat ->
                       gColorsValues !! j <> Some (ColorSetAlpha c 0xff)) ->
      GetKnownColorName c = seqstrings.IdxToStr gColors (Z.of_nat i) /\
      cstr <$> GetKnownColorName c = gColorNames !! i) /\
  ((forall i : nat, (1 <= i)%nat ->
                    gColorsValues !! i <> Some (ColorSetAlpha c 0xff)) ->
   GetKnownColorName c = None) /\
  (forall alpha : Z, GetKnownColorName (ColorSetAlpha c alpha) = GetKnownColorName c) /\
  (forall s : string, GetKnownColorName c = Some s -> cstr s <> "None"%string).
Proof.
  repeat split.
  - now apply GetKnownColorName_least.
  - rewrite (GetKnownColorName_least c i) by assumption.
    apply IdxToStr_gColors.
    pose proof (lookup_lt_Some _ _ _ H1) as Hlt.
    now rewrite gColorsValues_length in Hlt.
  - intros Hno. unfold GetKnownColorName.
    apply GetKnownColorName_loop_none. intros j. rewrite lookup_drop.
    apply Hno. lia.
  - intros alpha. unfold GetKnownColorName. now rewrite ColorSetAlpha_idem.
  - intros s Hs Hnone.
    apply GetKnownColorName_inv in Hs as (i & Hi & _ & Hname).
    pose proof (IdxToStr_gColors i ltac:(lia)) as Hnth.
    rewrite Hname in Hnth. simpl in Hnth. rewrite Hnone in Hnth.
    destruct i as [|i]; [lia|].
    do 17 (destruct i as [|i]; [discriminate Hnth|]).
    lia.
Qed.

(** C9 on red with a transparent alpha byte: index 13 of the palette. *)
Lemma GetKnownColorName_least_index_witness :
  cstr <$> GetKnownColorName (H := sample_platform) 0x000000ff = Some "Red"%string.
Proof.
  refine (proj2 (proj1 (GetKnownColorName_least_index (H := sample_platform) 0x000000ff)
                   13%nat _ _ _)).
  - lia.
  - reflexivity.
  - intros j Hj.
    do 13 (destruct j as [|j]; [first [lia | discriminate]|]). lia.
Defined.

(** C10.  With the fallback value 0, [FindStringInArray] returns no
    negative number; in [ShowAnnotationsColor] the index is therefore never
    -1, and what is passed to [SetCurrentSelection] is an index of the list
    of items. *)
Theorem FindStringInArray_fallback_zero `{Platform} :
  (forall (items : string) (toFind : option string),
      0 <= FindStringInArray items toFind 0) /\
  (forall (h : gmap loc Annotation.t) (w : EditAnnotationsWindow) (l : loc)
          (a : Annotation.t),
      h !! l = Some a ->
      IsAnnotationTypeInArray gAnnotsWithColor (Annotation.type a) = true ->
      exists w',
        ShowAnnotationsColor h w (Some l) = Some w' /\
        dropdown_currentSelection (dropDownColor w') =
          FindStringInArray gColors (GetKnownColorName (Annotation.color a)) 0 /\
        dropdown_currentSelection (dropDownColor w') <> -1 /\
        0 <= dropdown_currentSelection (dropDownColor w')
          < Z.of_nat (length (dropdown_items (dropDownColor w')))).
Proof.
  split.
  - intros items toFind. unfold FindStringInArray.
    destruct (FindStringInArray_loop_range items toFind 0 0) as [->|Hr]; lia.
  - intros h w l a Hl Hin.
    destruct (ShowAnnotationsColor_visible h w l a Hl Hin)
      as (w' & Hw' & _ & _ & Hitems & Hsel).
    exists w'. split; [exact Hw'|]. split; [exact Hsel|].
    rewrite Hsel, Hitems.
    pose proof (color_selection_range (Annotation.color a)) as Hr.
    change (Z.of_nat (length gColorNames)) with 18. lia.
Qed.

(** C10 on the red note of the sample panel, and on a search for a null
    name in the table of sound icons. *)
Lemma FindStringInArray_fallback_zero_witness :
  0 <= FindStringInArray gSoundIcons None 0 /\
  exists w',
    ShowAnnotationsColor (H := sample_platform) sample_heap
      (window sample_state) (Some 0%nat) = Some w' /\
    dropdown_currentSelection (dropDownColor w') <> -1 /\
    0 <= dropdown_currentSelection (dropDownColor w')
      < Z.of_nat (length (dropdown_items (dropDownColor w'))).
Proof.
  split.
  - exact (proj1 (FindStringInArray_fallback_zero (H := sample_platform))
                 gSoundIcons None).
  - destruct (proj2 (FindStringInArray_fallback_zero (H := sample_platform))
                sample_heap (window sample_state) 0%nat
                (sample_annotation Text "Note" 0xff0000ff EmptyString)
                eq_refl eq_refl)
      as (w' & Hw' & _ & Hne & Hrange).
    exists w'. auto.
Defined.

(** ** The panel: what each [Show...] function writes *)

Lemma ShowAnnotationAuthor_shape `{Platform} (h : gmap loc Annotation.t)
    (w : EditAnnotationsWindow) (p : ptr) :
  live_or_null h p ->
  exists f, ShowAnnotationAuthor h w p = Some (upd_staticAuthor f w).
Proof.
  destruct p as [l|]; simpl.
  - intros [a Ha]. rewrite Ha. simpl.
    destruct (is_empty (Annotation.Author a)); simpl.
    + eexists. reflexivity.
    + exists (fun c => StaticCtrlM.SetText ("Author: " +:+ Annotation.Author a)
                         (StaticCtrlM.SetIsVisible true c)).
      reflexivity.
  - intros _. eexists. reflexivity.
Qed.

Lemma ShowAnnotationModificationDate_shape `{Platform} (h : gmap loc Annotation.t)
    (w : EditAnnotationsWindow) (p : ptr) :
  live_or_null h p ->
  date_representable h p ->
  exists f, ShowAnnotationModificationDate h w p = Some (upd_staticModificationDate f w).
Proof.
  unfold date_representable. destruct p as [l|]; simpl.
  - intros [a Ha] Hd. rewrite Ha in Hd |- *. simpl.
    destruct (Z.eqb_spec (Annotation.ModificationDate a) 0) as [Hz|Hz]; simpl.
    + eexists. reflexivity.
    + destruct Hd as [Hd|[t Ht]]; [contradiction|].
      unfold AppendPdfDate. rewrite Ht. simpl.
      exists (fun c => StaticCtrlM.SetText ("Date: " +:+ strftime t)
                         (StaticCtrlM.SetIsVisible true c)).
      reflexivity.
  - intros _ _. eexists. reflexivity.
Qed.

(** The date label has a result only for a date that can be shown. *)
Lemma ShowAnnotationModificationDate_defined `{Platform} (h : gmap loc Annotation.t)
    (w w' : EditAnnotationsWindow) (p : ptr) :
  ShowAnnotationModificationDate h w p = Some w' -> date_representable h p.
Proof.
  unfold date_representable. destruct p as [l|]; simpl; [|intros _; exact I].
  destruct (h !! l) as [a|]; simpl; [|intros _; exact I].
  destruct (Z.eqb_spec (Annotation.ModificationDate a) 0) as [Hz|Hz]; simpl.
  - intros _. left. exact Hz.
  - unfold AppendPdfDate.
    destruct (gmtime (Annotation.ModificationDate a)) as [t|]; simpl; [|discriminate].
    intros _. right. eexists. reflexivity.
Qed.

Lemma ShowAnnotationsPopup_shape `{Platform} (h : gmap loc Annotation.t)
    (w : EditAnnotationsWindow) (p : ptr) :
  live_or_null h p ->
  exists f, ShowAnnotationsPopup h w p = Some (upd_staticPopup f w).
Proof.
  unfold ShowAnnotationsPopup. destruct p as [l|]; simpl.
  - intros [a Ha]. rewrite Ha. simpl.
    destruct (0 <=? Annotation.PopupId a); simpl.
    + exists (fun c => StaticCtrlM.SetText
                         ("Popup: " +:+ printf_d (Annotation.PopupId a) +:+ " 0 R")
                         (StaticCtrlM.SetIsVisible true c)).
      reflexivity.
    + eexists. reflexivity.
  - intros _. eexists. reflexivity.
Qed.

(** The contents editor is shown exactly when an annotation is selected. *)
Lemma ShowAnnotationsContents_eq `{Platform} (h : gmap loc Annotation.t)
    (w : EditAnnotationsWindow) (p : ptr) :
  live_or_null h p ->
  ShowAnnotationsContents h w p =
  Some match deref h p with
       | Some a =>
           upd_editContents
             (fun c => EditCtrlM.SetText
                         (str.Replace (Annotation.Contents a) (String LF EmptyString)
                                      (String CR (String LF EmptyString)))
                         (EditCtrlM.SetIsVisible true c))
             (upd_staticContents (StaticCtrlM.SetIsVisible true) w)
       | None =>
           upd_editContents (EditCtrlM.SetIsVisible false)
             (upd_staticContents (StaticCtrlM.SetIsVisible false) w)
       end.
Proof.
  unfold ShowAnnotationsContents. destruct p as [l|]; simpl.
  - intros [a Ha]. rewrite Ha. reflexivity.
  - intros _. reflexivity.
Qed.

Lemma ShowAnnotationsIcon_shape `{Platform} (h : gmap loc Annotation.t)
    (w : EditAnnotationsWindow) (p : ptr) :
  live_or_null h p ->
  exists f g, ShowAnnotationsIcon h w p = Some (upd_dropDownIcon g (upd_staticIcon f w)).
Proof.
  unfold ShowAnnotationsIcon. destruct p as [l|]; simpl.
  - intros [a Ha]. rewrite Ha. simpl.
    destruct (is_empty (Annotation.IconName a)); simpl.
    + do 2 eexists. reflexivity.
    + destruct (icons_of_type (Annotation.type a)) as [icons|]; simpl.
      * exists (StaticCtrlM.SetIsVisible true).
        exists (fun c => DropDownCtrlM.SetCurrentSelection
                           (FindStringInArray icons (Some (Annotation.IconName a)) 0)
                           (DropDownCtrlM.SetItems (DropDownItemsFromStringArray [] icons)
                              (DropDownCtrlM.SetIsVisible true c))).
        reflexivity.
      * do 2 eexists. reflexivity.
  - intros _. do 2 eexists. reflexivity.
Qed.

Lemma ShowAnnotationsColor_shape `{Platform} (h : gmap loc Annotation.t)
    (w : EditAnnotationsWindow) (p : ptr) :
  live_or_null h p ->
  exists f g,
    ShowAnnotationsColor h w p = Some (upd_dropDownColor g (upd_staticColor f w)) /\
    (forall c, static_isVisible (f c) =
               IsAnnotationTypeInArray gAnnotsWithColor (selected_type h p)) /\
    (forall c, dropdown_isVisible (g c) =
               IsAnnotationTypeInArray gAnnotsWithColor (selected_type h p)).
Proof.
  unfold ShowAnnotationsColor, selected_type. destruct p as [l|]; simpl.
  - intros [a Ha]. rewrite Ha. simpl.
    destruct (IsAnnotationTypeInArray gAnnotsWithColor (Annotation.Type_ a)) eqn:Hin; simpl.
    + exists (StaticCtrlM.SetIsVisible true).
      exists (fun c => DropDownCtrlM.SetCurrentSelection
                         (FindStringInArray gColors
                            (GetKnownColorName (Annotation.Color a)) 0)
                         (DropDownCtrlM.SetItems (DropDownItemsFromStringArray [] gColors)
                            (DropDownCtrlM.SetIsVisible true c))).
      split; [reflexivity|]. split; reflexivity.
    + do 2 eexists. split; [reflexivity|]. split; reflexivity.
  - intros _. do 2 eexists. split; [reflexivity|]. split; reflexivity.
Qed.

(** ** The panel: a selection event *)

Lemma ListBoxSelectionChanged_shape `{Platform} (st : State)
    (ev : ListBoxSelectionChangedEvent) (p : ptr) :
  designated (window st) (lb_idx ev) = Some p ->
  live_or_null (heap st) p ->
  date_representable (heap st) p ->
  exists fA fD fP fI gI fC gC,
    ListBoxSelectionChanged st ev =
    Some (mkState (heap st)
            (upd_buttonDelete (ButtonCtrlM.SetIsVisible (bool_decide (p <> None)))
               (upd_dropDownColor gC (upd_staticColor fC
                  (upd_dropDownIcon gI (upd_staticIcon fI
                     (contents_shown (heap st) p
                        (upd_staticPopup fP (upd_staticModificationDate fD
                           (upd_staticAuthor fA (set_annot p (window st)))))))))))
            (rerenders st)) /\
    (forall c, static_isVisible (fC c) =
               IsAnnotationTypeInArray gAnnotsWithColor (selected_type (heap st) p)) /\
    (forall c, dropdown_isVisible (gC c) =
               IsAnnotationTypeInArray gAnnotsWithColor (selected_type (heap st) p)).
Proof.
  intros Hsel Hlive Hdate. unfold ListBoxSelectionChanged.
  assert (Hfirst :
    (if 0 <=? lb_idx ev
     then v ← annotations (set_annot None (window st));
          p0 ← Vec_at v (lb_idx ev);
          Some (set_annot p0 (set_annot None (window st)))
     else Some (set_annot None (window st)))
    = Some (set_annot p (window st))).
  { unfold designated in Hsel. destruct (0 <=? lb_idx ev).
    - cbn [annotations set_annot].
      destruct (annotations (window st)) as [v|]; [|discriminate].
      cbn [mbind option_bind] in Hsel |- *. rewrite Hsel. reflexivity.
    - injection Hsel as <-. reflexivity. }
  cbv zeta. rewrite Hfirst. clear Hfirst.
  cbn [mbind option_bind].
  change (annot (set_annot p (window st))) with p.
  destruct (ShowAnnotationAuthor_shape (heap st) (set_annot p (window st)) p Hlive)
    as [fA ->].
  cbn [mbind option_bind]. change (annot (upd_staticAuthor fA _)) with p.
  destruct (ShowAnnotationModificationDate_shape (heap st)
              (upd_staticAuthor fA (set_annot p (window st))) p Hlive Hdate) as [fD ->].
  cbn [mbind option_bind]. change (annot (upd_staticModificationDate fD _)) with p.
  destruct (ShowAnnotationsPopup_shape (heap st)
              (upd_staticModificationDate fD
                 (upd_staticAuthor fA (set_annot p (window st)))) p Hlive) as [fP ->].
  cbn [mbind option_bind]. change (annot (upd_staticPopup fP _)) with p.
  rewrite (ShowAnnotationsContents_eq _ _ _ Hlive).
  fold (contents_shown (heap st) p
          (upd_staticPopup fP (upd_staticModificationDate fD
             (upd_staticAuthor fA (set_annot p (window st)))))).
  cbn [mbind option_bind].
  set (w4 := contents_shown _ _ _).
  assert (H4 : annot w4 = p).
  { unfold w4, contents_shown. destruct (deref (heap st) p); reflexivity. }
  rewrite H4.
  destruct (ShowAnnotationsIcon_shape (heap st) w4 p Hlive) as (fI & gI & ->).
  cbn [mbind option_bind].
  replace (annot (upd_dropDownIcon gI (upd_staticIcon fI w4))) with p
    by (symmetry; exact H4).
  destruct (ShowAnnotationsColor_shape (heap st)
              (upd_dropDownIcon gI (upd_staticIcon fI w4)) p Hlive)
    as (fC & gC & -> & HfC & HgC).
  cbn [mbind option_bind].
  replace (annot (upd_dropDownColor gC (upd_staticColor fC
             (upd_dropDownIcon gI (upd_staticIcon fI w4))))) with p
    by (symmetry; exact H4).
  exists fA, fD, fP, fI, gI, fC, gC. auto.
Qed.

Lemma Replace_from_crlf (s : string) :
  str.Replace_from (String LF EmptyString) (String CR (String LF EmptyString)) s 0 =
  crlf s.
Proof.
  induction s as [|c r IH]; [reflexivity|].
  cbn [str.Replace_from crlf String.prefix String.length Nat.sub].
  destruct (ascii_dec LF c) as [<-|Hne].
  - rewrite Ascii.eqb_refl.
    replace (String.prefix EmptyString r) with true by (destruct r; reflexivity).
    cbn. now rewrite IH.
  - destruct (Ascii.eqb_spec c LF) as [->|_]; [congruence|]. now rewrite IH.
Qed.

Lemma Replace_crlf (s : string) :
  str.Replace s (String LF EmptyString) (String CR (String LF EmptyString)) = crlf s.
Proof. unfold str.Replace. apply Replace_from_crlf. Qed.






(** C2, as the code has it.  [ShowAnnotationsContents] hides the contents
    editor when no annotation is selected; when one is selected it makes the
    editor visible, whether the contents string is empty or not, and shows
    the contents with every line feed replaced by carriage return, line
    feed.  A selection change that designates a null pointer, or an
    annotation whose date can be shown, runs to its end and leaves the
    editor so. *)
Theorem ListBoxSelectionChanged_contents `{Platform} (st : State)
    (ev : ListBoxSelectionChangedEvent) (p : ptr) :
  live_or_null (heap st) p ->
  (exists w',
     ShowAnnotationsContents (heap st) (window st) p = Some w' /\
     match deref (heap st) p with
     | Some a =>
         edit_isVisible (editContents w') = true /\
         edit_text (editContents w') = crlf (Annotation.contents a)
     | None => edit_isVisible (editContents w') = false
     end) /\
  (designated (window st) (lb_idx ev) = Some p ->
   date_representable (heap st) p ->
   exists st',
     ListBoxSelectionChanged st ev = Some st' /\
     match deref (heap st) p with
     | Some a =>
         edit_isVisible (editContents (window st')) = true /\
         edit_text (editContents (window st')) = crlf (Annotation.contents a)
     | None => edit_isVisible (editContents (window st')) = false
     end).
Proof.
  intros Hlive. split.
  - rewrite (ShowAnnotationsContents_eq _ _ _ Hlive). eexists. split; [reflexivity|].
    destruct (deref (heap st) p) as [a|].
    + split; [reflexivity|]. cbn. apply Replace_crlf.
    + reflexivity.
  - intros Hsel Hdate.
    destruct (ListBoxSelectionChanged_shape st ev p Hsel Hlive Hdate)
      as (fA & fD & fP & fI & gI & fC & gC & -> & _).
    eexists. split; [reflexivity|].
    unfold contents_shown. destruct (deref (heap st) p) as [a|].
    + split; [reflexivity|]. cbn. apply Replace_crlf.
    + reflexivity.
Qed.

(** C2 on the sample panel: the link's two lines of contents are shown
    with a carriage return before the line feed. *)
Lemma ListBoxSelectionChanged_contents_witness :
  exists st',
    ListBoxSelectionChanged (H := sample_platform) sample_state
      (mkListBoxSelectionChangedEvent 1 EmptyString) = Some st' /\
    edit_isVisible (editContents (window st')) = true /\
    edit_text (editContents (window st')) =
      ("see" +:+ String CR (String LF "page 2"))%string.
Proof.
  refine (proj2 (ListBoxSelectionChanged_contents (H := sample_platform) sample_state
                   (mkListBoxSelectionChangedEvent 1 EmptyString) (Some 1%nat) _) _ _).
  - simpl. eexists. reflexivity.
  - reflexivity.
  - left. reflexivity.
Defined.

(** C2 as stated fails on empty contents: the first annotation of the
    sample panel has no contents, and selecting it leaves the editor
    visible. *)
Lemma ListBoxSelectionChanged_empty_contents_counterexample :
  exists st' a,
    ListBoxSelectionChanged (H := sample_platform) sample_state
      (mkListBoxSelectionChangedEvent 0 EmptyString) = Some st' /\
    deref (heap st') (annot (window st')) = Some a /\
    Annotation.Contents a = EmptyString /\
    edit_isVisible (editContents (window st')) <> false.
Proof.
  destruct (ListBoxSelectionChanged_shape (H := sample_platform) sample_state
              (mkListBoxSelectionChangedEvent 0 EmptyString) (Some 0%nat))
    as (fA & fD & fP & fI & gI & fC & gC & Hst & _).
  - reflexivity.
  - simpl. eexists. reflexivity.
  - left. reflexivity.
  - rewrite Hst. do 2 eexists. split; [reflexivity|].
    split; [reflexivity|]. split; [reflexivity|]. discriminate.
Qed.

(** C6.  For an annotation whose type is not in [gAnnotsWithColor],
    [ShowAnnotationsColor] hides the colour label and the colour picker,
    whatever the colour is, and so does it for a null pointer, the type
    tested being [Unknown].  A selection event that designates such an
    annotation, its date being one that can be shown, or that designates
    nothing, runs to its end and leaves both controls hidden. *)
Theorem ListBoxSelectionChanged_hides_color `{Platform} (st : State)
    (ev : ListBoxSelectionChangedEvent) :
  (forall (l : loc) (a : Annotation.t),
      heap st !! l = Some a ->
      IsAnnotationTypeInArray gAnnotsWithColor (Annotation.Type_ a) = false ->
      (exists w',
         ShowAnnotationsColor (heap st) (window st) (Some l) = Some w' /\
         static_isVisible (staticColor w') = false /\
         dropdown_isVisible (dropDownColor w') = false) /\
      (designated (window st) (lb_idx ev) = Some (Some l) ->
       date_representable (heap st) (Some l) ->
       exists st',
         ListBoxSelectionChanged st ev = Some st' /\
         annot (window st') = Some l /\
         static_isVisible (staticColor (window st')) = false /\
         dropdown_isVisible (dropDownColor (window st')) = false)) /\
  (exists w',
     ShowAnnotationsColor (heap st) (window st) None = Some w' /\
     static_isVisible (staticColor w') = false /\
     dropdown_isVisible (dropDownColor w') = false) /\
  (designated (window st) (lb_idx ev) = Some None ->
   exists st',
     ListBoxSelectionChanged st ev = Some st' /\
     annot (window st') = None /\
     static_isVisible (staticColor (window st')) = false /\
     dropdown_isVisible (dropDownColor (window st')) = false).
Proof.
  split; [|split].
  - intros l a Hl Hout.
    assert (Hlive : live_or_null (heap st) (Some l)) by (simpl; eexists; exact Hl).
    assert (Htype : IsAnnotationTypeInArray gAnnotsWithColor
                      (selected_type (heap st) (Some l)) = false).
    { unfold selected_type. simpl. rewrite Hl. exact Hout. }
    split.
    + destruct (ShowAnnotationsColor_shape (heap st) (window st) (Some l) Hlive)
        as (fC & gC & -> & HfC & HgC).
      eexists. split; [reflexivity|]. cbn. rewrite HfC, HgC, Htype. split; reflexivity.
    + intros Hsel Hdate.
      destruct (ListBoxSelectionChanged_shape st ev (Some l) Hsel Hlive Hdate)
        as (fA & fD & fP & fI & gI & fC & gC & -> & HfC & HgC).
      eexists. split; [reflexivity|]. cbn.
      rewrite HfC, HgC, Htype. unfold contents_shown. simpl. rewrite Hl.
      repeat split; reflexivity.
  - destruct (ShowAnnotationsColor_shape (heap st) (window st) None I)
      as (fC & gC & -> & HfC & HgC).
    eexists. split; [reflexivity|]. cbn. rewrite HfC, HgC. split; reflexivity.
  - intros Hsel.
    destruct (ListBoxSelectionChanged_shape st ev None Hsel I I)
      as (fA & fD & fP & fI & gI & fC & gC & -> & HfC & HgC).
    eexists. split; [reflexivity|]. cbn.
    rewrite HfC, HgC. repeat split; reflexivity.
Qed.

(** C6 on the sample panel: the second annotation is a link, and index -1
    selects nothing. *)
Lemma ListBoxSelectionChanged_hides_color_witness :
  (exists st',
      ListBoxSelectionChanged (H := sample_platform) sample_state
        (mkListBoxSelectionChangedEvent 1 EmptyString) = Some st' /\
      annot (window st') = Some 1%nat /\
      static_isVisible (staticColor (window st')) = false /\
      dropdown_isVisible (dropDownColor (window st')) = false) /\
  (exists st',
      ListBoxSelectionChanged (H := sample_platform) sample_state
        (mkListBoxSelectionChangedEvent (-1) EmptyString) = Some st' /\
      annot (window st') = None /\
      static_isVisible (staticColor (window st')) = false /\
      dropdown_isVisible (dropDownColor (window st')) = false).
Proof.
  split.
  - refine (proj2 (proj1 (ListBoxSelectionChanged_hides_color (H := sample_platform)
                            sample_state (mkListBoxSelectionChangedEvent 1 EmptyString))
                         1%nat (sample_annotation Link EmptyString 0
                                  ("see" +:+ String LF "page 2")) _ _) _ _).
    + reflexivity.
    + reflexivity.
    + reflexivity.
    + left. reflexivity.
  - refine (proj2 (proj2 (ListBoxSelectionChanged_hides_color (H := sample_platform)
                            sample_state (mkListBoxSelectionChangedEvent (-1) EmptyString)))
                  _).
    reflexivity.
Defined.

(** ** The pickers *)

Lemma first_index_Some (name : string) (names : list string) (k : nat) :
  first_index name names = Some k ->
  names !! k = Some name /\
  (forall j : nat, (j < k)%nat -> names !! j <> Some name).
Proof.
  revert k. induction names as [|x rest IH]; intros k Hk; [discriminate|].
  simpl in Hk. destruct (String.eqb_spec x name) as [->|Hne].
  - injection Hk as <-. split; [reflexivity|]. intros j Hj. lia.
  - destruct (first_index name rest) as [k'|]; [|discriminate].
    injection Hk as <-. destruct (IH k' eq_refl) as [Hk' Hleast].
    split; [exact Hk'|].
    intros [|j] Hj; simpl; [congruence|]. apply Hleast. lia.
Qed.

Lemma first_index_None (name : string) (names : list string) :
  first_index name names = None -> ~ In name names.
Proof.
  induction names as [|x rest IH]; intros Hk; [intros []|].
  simpl in Hk. destruct (String.eqb_spec x name) as [->|Hne]; [discriminate|].
  destruct (first_index name rest); [discriminate|].
  intros [Hx|Hin]; [congruence|]. now apply IH.
Qed.

(** Every table of icon names is a well-formed sequence of strings. *)
Lemma icons_of_type_seqstr (t : AnnotationType) (icons : string) :
  icons_of_type t = Some icons ->
  exists names, icons = seqstr names /\ forallb name_ok names = true.
Proof.
  destruct t; try discriminate; intros Hi; injection Hi as <-;
    eexists; split; reflexivity.
Qed.

Lemma FindStringInArray_seqstr (names : list string) (value : option string) :
  forallb name_ok names = true ->
  FindStringInArray (seqstr names) value 0 = picker_selection value names.
Proof.
  intros Hok. unfold FindStringInArray, picker_selection.
  destruct value as [s|].
  - rewrite FindStringInArray_loop_seqstr by exact Hok.
    destruct (first_index (cstr s) names); [lia|reflexivity].
  - apply FindStringInArray_loop_null.
Qed.

Lemma ShowAnnotationsIcon_visible `{Platform} (h : gmap loc Annotation.t)
    (w : EditAnnotationsWindow) (l : loc) (a : Annotation.t) (names : list string) :
  h !! l = Some a ->
  is_empty (Annotation.IconName a) = false ->
  icons_of_type (Annotation.type a) = Some (seqstr names) ->
  forallb name_ok names = true ->
  exists w',
    ShowAnnotationsIcon h w (Some l) = Some w' /\
    static_isVisible (staticIcon w') = true /\
    dropdown_isVisible (dropDownIcon w') = true /\
    dropdown_items (dropDownIcon w') = names /\
    dropdown_currentSelection (dropDownIcon w') =
      picker_selection (Some (Annotation.IconName a)) names.
Proof.
  intros Hl Hne Hicons Hok. unfold ShowAnnotationsIcon, deref. rewrite Hl.
  cbn [fmap option_fmap option_map mbind option_bind].
  rewrite Hne. cbn [negb]. rewrite Hicons.
  cbn [fmap option_fmap option_map mbind option_bind negb].
  eexists. split; [reflexivity|]. cbn.
  rewrite DropDownItemsFromStringArray_seqstr by exact Hok.
  rewrite FindStringInArray_seqstr by exact Hok. auto.
Qed.

(** C7.  When the colour or the icon picker is filled for the selected
    annotation, its items are the entries of the picker's table of names,
    and the entry selected is the first one whose name is the annotation's
    value (for a colour, the name that [GetKnownColorName] gives it); when
    no entry has that name, a colour without a name included, entry 0 is
    selected. *)
Theorem pickers_populated `{Platform} (h : gmap loc Annotation.t)
    (w : EditAnnotationsWindow) (l : loc) (a : Annotation.t) :
  h !! l = Some a ->
  (IsAnnotationTypeInArray gAnnotsWithColor (Annotation.type a) = true ->
   exists w',
     ShowAnnotationsColor h w (Some l) = Some w' /\
     dropdown_isVisible (dropDownColor w') = true /\
     dropdown_items (dropDownColor w') = gColorNames /\
     gColors = seqstr gColorNames /\
     dropdown_currentSelection (dropDownColor w') =
       picker_selection (GetKnownColorName (Annotation.Color a)) gColorNames) /\
  (forall icons : string,
      is_empty (Annotation.IconName a) = false ->
      icons_of_type (Annotation.type a) = Some icons ->
      exists w' names,
        ShowAnnotationsIcon h w (Some l) = Some w' /\
        dropdown_isVisible (dropDownIcon w') = true /\
        icons = seqstr names /\
        forallb name_ok names = true /\
        dropdown_items (dropDownIcon w') = names /\
        dropdown_currentSelection (dropDownIcon w') =
          picker_selection (Some (Annotation.IconName a)) names).
Proof.
  intros Hl. split.
  - intros Hin.
    destruct (ShowAnnotationsColor_visible h w l a Hl Hin)
      as (w' & Hw' & _ & Hvis & Hitems & Hsel).
    exists w'. repeat (split; [assumption || reflexivity|]).
    rewrite Hsel. unfold gColors. now apply FindStringInArray_seqstr.
  - intros icons Hne Hicons.
    destruct (icons_of_type_seqstr _ _ Hicons) as (names & -> & Hok).
    destruct (ShowAnnotationsIcon_visible h w l a names Hl Hne Hicons Hok)
      as (w' & Hw' & _ & Hvis & Hitems & Hsel).
    exists w', names. auto 10.
Qed.

(** C7 on the red note of the sample panel: "Red" is entry 13 of the colour
    picker, "Note" entry 5 of the icon picker. *)
Lemma pickers_populated_witness :
  (exists w',
      ShowAnnotationsColor (H := sample_platform) sample_heap
        (window sample_state) (Some 0%nat) = Some w' /\
      dropdown_items (dropDownColor w') = gColorNames /\
      dropdown_currentSelection (dropDownColor w') = 13) /\
  (exists w',
      ShowAnnotationsIcon sample_heap (window sample_state) (Some 0%nat) = Some w' /\
      dropdown_items (dropDownIcon w') =
        ["Comment"; "Help"; "Insert"; "Key"; "NewParagraph"; "Note"; "Paragraph"]%string /\
      dropdown_currentSelection (dropDownIcon w') = 5).
Proof.
  pose proof (pickers_populated (H := sample_platform) sample_heap
                (window sample_state) 0%nat
                (sample_annotation Text "Note" 0xff0000ff EmptyString) eq_refl)
    as [Hcolor Hicon].
  split.
  - destruct (Hcolor eq_refl) as (w' & Hw' & _ & Hitems & _ & Hsel).
    exists w'. split; [exact Hw'|]. split; [exact Hitems|].
    rewrite Hsel. vm_compute. reflexivity.
  - destruct (Hicon gTextIcons eq_refl eq_refl)
      as (w' & names & Hw' & _ & Hnames & Hok & Hitems & Hsel).
    exists w'. split; [exact Hw'|].
    assert (Hcalc : ShowAnnotationsIcon sample_heap (window sample_state) (Some 0%nat) =
                    Some w') by exact Hw'.
    vm_compute in Hcalc. injection Hcalc as <-. split; reflexivity.
Defined.

(** ** The edit handlers *)

Lemma didChange_loop_spec (h : gmap loc Annotation.t) (v : list ptr) :
  Forall (fun p => is_Some (deref h p)) v ->
  exists b : bool,
    didChange_loop h v = Some b /\
    (b = true <->
     exists (p : ptr) (a : Annotation.t),
       In p v /\ deref h p = Some a /\
       (Annotation.isChanged a = true \/ Annotation.isDeleted a = true)).
Proof.
  induction 1 as [|p rest [a Ha] _ IH].
  - exists false. split; [reflexivity|]. split; [discriminate|].
    intros (p & a & [] & _).
  - simpl. rewrite Ha. simpl.
    destruct (Annotation.isChanged a || Annotation.isDeleted a) eqn:Hmark.
    + exists true. split; [reflexivity|]. split; [|reflexivity].
      intros _. exists p, a. split; [now left|]. split; [exact Ha|].
      now apply orb_true_iff.
    + destruct IH as (b & Hb & Hiff). exists b. split; [exact Hb|].
      rewrite Hiff. split.
      * intros (q & c & Hq & Hc & Hm). exists q, c. split; [now right|]. auto.
      * intros (q & c & [<-|Hq] & Hc & Hm).
        -- rewrite Ha in Hc. injection Hc as <-.
           apply orb_true_iff in Hm. congruence.
        -- exists q, c. auto.
Qed.

Lemma EnableSaveIfAnnotationsChanged_spec (h : gmap loc Annotation.t)
    (w : EditAnnotationsWindow) (n : nat) :
  annotations_live h w ->
  exists b : bool,
    EnableSaveIfAnnotationsChanged h w =
      Some (upd_buttonSavePDF (ButtonCtrlM.SetIsEnabled b) w) /\
    (b = true <-> some_annotation_marked (mkState h w n)).
Proof.
  unfold annotations_live, EnableSaveIfAnnotationsChanged, some_annotation_marked.
  cbn [heap window].
  destruct (annotations w) as [v|] eqn:Hv.
  - intros Hlive. destruct (didChange_loop_spec h v Hlive) as (b & -> & Hiff).
    exists b. split; [reflexivity|]. rewrite Hiff. split.
    + intros (p & a & Hp). exists v, p, a. auto.
    + intros (v' & p & a & Hv' & Hp). injection Hv' as <-. exists p, a. exact Hp.
  - intros _. exists false. split; [reflexivity|]. split; [discriminate|].
    intros (v' & p & a & Hv' & _). discriminate.
Qed.

(** A write to a live object keeps every pointer of the list live. *)
Lemma annotations_live_insert (h : gmap loc Annotation.t) (w : EditAnnotationsWindow)
    (l : loc) (a : Annotation.t) :
  is_Some (h !! l) -> annotations_live h w -> annotations_live (<[l := a]> h) w.
Proof.
  unfold annotations_live. intros Hl. destruct (annotations w) as [v|]; [|trivial].
  intros Hall. eapply Forall_impl; [exact Hall|].
  intros [q|]; simpl; [|trivial].
  intros Hq. destruct (decide (l = q)) as [->|Hne].
  - rewrite lookup_insert_eq. eauto.
  - now rewrite lookup_insert_ne.
Qed.

Lemma DropDownIconSelectionChanged_eq `{Platform}
    (SetIconName : Annotation.t -> string -> Annotation.t)
    (st : State) (ev : DropDownSelectionChangedEvent) (l : loc) (a : Annotation.t) :
  annot (window st) = Some l ->
  heap st !! l = Some a ->
  annotations_live (heap st) (window st) ->
  exists b : bool,
    let st' := mkState (<[l := SetIconName a (dd_item ev)]> (heap st))
                 (upd_buttonSavePDF (ButtonCtrlM.SetIsEnabled b) (window st))
                 (S (rerenders st)) in
    DropDownIconSelectionChanged SetIconName st ev = Some st' /\
    (b = true <-> some_annotation_marked st').
Proof.
  intros Hsel Hl Hlive. unfold DropDownIconSelectionChanged.
  rewrite Hsel. cbn [mbind option_bind]. rewrite Hl. cbn [mbind option_bind].
  destruct (EnableSaveIfAnnotationsChanged_spec
              (<[l := SetIconName a (dd_item ev)]> (heap st)) (window st)
              (S (rerenders st)))
    as (b & -> & Hiff).
  { apply annotations_live_insert; eauto. }
  exists b. split; [reflexivity|].
  rewrite Hiff. unfold some_annotation_marked. reflexivity.
Qed.

Lemma DropDownColorSelectionChanged_eq `{Platform}
    (SetColor : Annotation.t -> Z -> Annotation.t)
    (st : State) (ev : DropDownSelectionChangedEvent) (l : loc) (a : Annotation.t) :
  annot (window st) = Some l ->
  heap st !! l = Some a ->
  annotations_live (heap st) (window st) ->
  0 <= dd_idx ev ->
  exists (b : bool) (col : Z),
    let st' := mkState (<[l := SetColor a col]> (heap st))
                 (upd_buttonSavePDF (ButtonCtrlM.SetIsEnabled b) (window st))
                 (S (rerenders st)) in
    DropDownColorSelectionChanged SetColor st ev = Some st' /\
    (b = true <-> some_annotation_marked st') /\
    (dd_idx ev < 18 -> gColorsValues !! Z.to_nat (dd_idx ev) = Some col) /\
    (18 <= dd_idx ev -> col = ColorUnset).
Proof.
  intros Hsel Hl Hlive Hidx. unfold DropDownColorSelectionChanged.
  rewrite gColorsValues_length. change (Z.of_nat 18) with 18.
  assert (Hcol : exists col,
    (if dd_idx ev <? 18 then array_at gColorsValues (dd_idx ev) else Some ColorUnset)
      = Some col /\
    (dd_idx ev < 18 -> gColorsValues !! Z.to_nat (dd_idx ev) = Some col) /\
    (18 <= dd_idx ev -> col = ColorUnset)).
  { destruct (Z.ltb_spec (dd_idx ev) 18) as [Hlt|Hge].
    - unfold array_at. destruct (Z.ltb_spec (dd_idx ev) 0); [lia|].
      destruct (gColorsValues !! Z.to_nat (dd_idx ev)) as [col|] eqn:Hcol.
      + exists col. split; [reflexivity|]. split; [auto|lia].
      + apply lookup_ge_None in Hcol. rewrite gColorsValues_length in Hcol. lia.
    - exists ColorUnset. split; [reflexivity|]. split; [lia|auto]. }
  destruct Hcol as (col & -> & Hin & Hout).
  cbn [mbind option_bind]. rewrite Hsel. cbn [mbind option_bind].
  rewrite Hl. cbn [mbind option_bind].
  destruct (EnableSaveIfAnnotationsChanged_spec
              (<[l := SetColor a col]> (heap st)) (window st) (S (rerenders st)))
    as (b & -> & Hiff).
  { apply annotations_live_insert; eauto. }
  exists b, col. split; [reflexivity|]. split; [|split; assumption].
  rewrite Hiff. unfold some_annotation_marked. reflexivity.
Qed.

(** C4.  When an edit handler (icon or colour) returns, the save button is
    enabled if and only if some annotation of the panel's list has its
    changed marker or its deleted marker set, whatever the setter wrote. *)
Theorem save_enabled_iff_marked `{Platform}
    (SetIconName : Annotation.t -> string -> Annotation.t)
    (SetColor : Annotation.t -> Z -> Annotation.t)
    (st : State) (ev : DropDownSelectionChangedEvent) (l : loc) :
  annot (window st) = Some l ->
  is_Some (heap st !! l) ->
  annotations_live (heap st) (window st) ->
  (exists st',
      DropDownIconSelectionChanged SetIconName st ev = Some st' /\
      (button_isEnabled (buttonSavePDF (window st')) = true <->
       some_annotation_marked st')) /\
  (0 <= dd_idx ev ->
   exists st',
     DropDownColorSelectionChanged SetColor st ev = Some st' /\
     (button_isEnabled (buttonSavePDF (window st')) = true <->
      some_annotation_marked st')).
Proof.
  intros Hsel [a Hl] Hlive. split.
  - destruct (DropDownIconSelectionChanged_eq SetIconName st ev l a Hsel Hl Hlive)
      as (b & Hst & Hiff).
    eexists. split; [exact Hst|]. exact Hiff.
  - intros Hidx.
    destruct (DropDownColorSelectionChanged_eq SetColor st ev l a Hsel Hl Hlive Hidx)
      as (b & col & Hst & Hiff & _).
    eexists. split; [exact Hst|]. exact Hiff.
Qed.

(** C4 on the sample panel, first annotation selected: after either edit the
    save button is enabled. *)
Lemma save_enabled_iff_marked_witness :
  (exists st',
      DropDownIconSelectionChanged Annotation.SetIconName sample_selected
        (mkDropDownSelectionChangedEvent 1 "Help") = Some st' /\
      button_isEnabled (buttonSavePDF (window st')) = true) /\
  (exists st',
      DropDownColorSelectionChanged (H := sample_platform) Annotation.SetColor
        sample_selected (mkDropDownSelectionChangedEvent 3 "Blue") = Some st' /\
      button_isEnabled (buttonSavePDF (window st')) = true).
Proof.
  destruct (save_enabled_iff_marked (H := sample_platform)
              Annotation.SetIconName Annotation.SetColor sample_selected
              (mkDropDownSelectionChangedEvent 1 "Help") 0%nat)
    as [(st1 & Hst1 & Hiff1) _].
  { reflexivity. }
  { simpl. eexists. reflexivity. }
  { repeat constructor; simpl; eexists; reflexivity. }
  destruct (save_enabled_iff_marked (H := sample_platform)
              Annotation.SetIconName Annotation.SetColor sample_selected
              (mkDropDownSelectionChangedEvent 3 "Blue") 0%nat)
    as [_ Hcolor].
  { reflexivity. }
  { simpl. eexists. reflexivity. }
  { repeat constructor; simpl; eexists; reflexivity. }
  destruct (Hcolor ltac:(simpl; lia)) as (st2 & Hst2 & Hiff2).
  split.
  - exists st1. split; [exact Hst1|]. apply Hiff1.
    vm_compute in Hst1. injection Hst1 as <-.
    exists [Some 0%nat; Some 1%nat], (Some 0%nat),
      (Annotation.SetIconName (sample_annotation Text "Note" 0xff0000ff EmptyString) "Help").
    split; [reflexivity|]. split; [now left|]. split; [reflexivity|]. now left.
  - exists st2. split; [exact Hst2|]. apply Hiff2.
    vm_compute in Hst2. injection Hst2 as <-.
    exists [Some 0%nat; Some 1%nat], (Some 0%nat),
      (Annotation.SetColor (sample_annotation Text "Note" 0xff0000ff EmptyString) 0xffff0000).
    split; [reflexivity|]. split; [now left|]. split; [reflexivity|]. now left.
Defined.

(** C5.  For a palette index [i] in range chosen while an annotation is
    selected, the colour handler hands [gColorsValues[i]] to [SetColor] on
    the selected annotation: the annotation's stored colour is then exactly
    [gColorsValues[i]], and it is marked changed. *)
Theorem DropDownColorSelectionChanged_sets_color `{Platform} (st : State)
    (ev : DropDownSelectionChangedEvent) (l : loc) (a : Annotation.t) :
  annot (window st) = Some l ->
  heap st !! l = Some a ->
  annotations_live (heap st) (window st) ->
  0 <= dd_idx ev < 18 ->
  exists (st' : State) (a' : Annotation.t) (col : Z),
    DropDownColorSelectionChanged Annotation.SetColor st ev = Some st' /\
    gColorsValues !! Z.to_nat (dd_idx ev) = Some col /\
    heap st' !! l = Some a' /\
    a' = Annotation.SetColor a col /\
    Annotation.Color a' = col /\
    Annotation.isChanged a' = true.
Proof.
  intros Hsel Hl Hlive Hidx.
  destruct (DropDownColorSelectionChanged_eq Annotation.SetColor st ev l a
              Hsel Hl Hlive ltac:(lia))
    as (b & col & Hst & _ & Hin & _).
  eexists _, (Annotation.SetColor a col), col.
  split; [exact Hst|]. split; [apply Hin; lia|].
  split; [apply lookup_insert_eq|]. repeat split.
Qed.

(** C5 on the sample panel: choosing entry 3 stores the palette's blue. *)
Lemma DropDownColorSelectionChanged_sets_color_witness :
  exists (st' : State) (a' : Annotation.t) (col : Z),
    DropDownColorSelectionChanged (H := sample_platform) Annotation.SetColor
      sample_selected (mkDropDownSelectionChangedEvent 3 "Blue") = Some st' /\
    gColorsValues (H := sample_platform) !! 3%nat = Some col /\
    heap st' !! 0%nat = Some a' /\
    a' = Annotation.SetColor (sample_annotation Text "Note" 0xff0000ff EmptyString) col /\
    Annotation.Color a' = col /\
    Annotation.isChanged a' = true.
Proof.
  refine (DropDownColorSelectionChanged_sets_color (H := sample_platform)
            sample_selected (mkDropDownSelectionChangedEvent 3 "Blue") 0%nat
            (sample_annotation Text "Note" 0xff0000ff EmptyString) _ _ _ _).
  - reflexivity.
  - reflexivity.
  - repeat constructor; simpl; eexists; reflexivity.
  - simpl. lia.
Defined.

(** Every palette value but the first is found again under its own name. *)
Lemma palette_value_name `{Platform} (i : nat) (col : Z) :
  (1 <= i < 18)%nat ->
  gColorsValues !! i = Some col ->
  cstr <$> GetKnownColorName col = gColorNames !! i.
Proof.
  intros Hi Hcol. destruct i as [|i]; [lia|].
  do 17 (destruct i as [|i];
         [vm_compute in Hcol; injection Hcol as <-; vm_compute; reflexivity|]).
  lia.
Qed.

(** C3.  For every palette entry but entry 0: choosing it in the colour
    picker, reading the colour of the annotation back and looking its name
    up with [GetKnownColorName] gives the name of the entry chosen. *)
Theorem palette_round_trip `{Platform} (st : State)
    (ev : DropDownSelectionChangedEvent) (l : loc) (a : Annotation.t)
    (name : string) :
  annot (window st) = Some l ->
  heap st !! l = Some a ->
  annotations_live (heap st) (window st) ->
  1 <= dd_idx ev < 18 ->
  gColorNames !! Z.to_nat (dd_idx ev) = Some name ->
  exists (st' : State) (a' : Annotation.t),
    DropDownColorSelectionChanged Annotation.SetColor st ev = Some st' /\
    deref (heap st') (annot (window st')) = Some a' /\
    cstr <$> GetKnownColorName (Annotation.Color a') = Some name.
Proof.
  intros Hsel Hl Hlive Hidx Hname.
  destruct (DropDownColorSelectionChanged_eq Annotation.SetColor st ev l a
              Hsel Hl Hlive ltac:(lia))
    as (b & col & Hst & _ & Hin & _).
  eexists _, (Annotation.SetColor a col).
  split; [exact Hst|]. split.
  - cbn. rewrite Hsel. cbn. apply lookup_insert_eq.
  - rewrite <- Hname. apply palette_value_name; [lia|]. apply Hin. lia.
Qed.

(** C3 on the sample panel: entry 11, "Orange". *)
Lemma palette_round_trip_witness :
  exists (st' : State) (a' : Annotation.t),
    DropDownColorSelectionChanged (H := sample_platform) Annotation.SetColor
      sample_selected (mkDropDownSelectionChangedEvent 11 "Orange") = Some st' /\
    deref (heap st') (annot (window st')) = Some a' /\
    cstr <$> GetKnownColorName (H := sample_platform) (Annotation.Color a') =
      Some "Orange"%string.
Proof.
  refine (palette_round_trip (H := sample_platform) sample_selected
            (mkDropDownSelectionChangedEvent 11 "Orange") 0%nat
            (sample_annotation Text "Note" 0xff0000ff EmptyString) "Orange" _ _ _ _ _).
  - reflexivity.
  - reflexivity.
  - repeat constructor; simpl; eexists; reflexivity.
  - simpl. lia.
  - reflexivity.
Defined.

(** ** The edit control *)

(** The event that [HandleWM_COMMAND] hands to the callback. *)
Lemma HandleWM_COMMAND_argument (w : EditCtrl) (ev : WndEvent) :
  set_text (EditCtrlM.GetText w) (CopyWndEvent_ctor EditTextChangedEvent_new ev) =
  mkEditTextChangedEvent
    (mkWndEvent (hwnd ev) (msg ev) (wparam ev) (lparam ev) false 0)
    (edit_text w).
Proof. reflexivity. Qed.

(** C8.  On a text-changed notification ([WM_COMMAND] carrying [EN_CHANGE]):
    a registered callback is called once, with the message of the
    notification and the current text of the control, and the notification
    is handed back as handled exactly when the callback marked its event
    handled; without a callback nothing is called and the notification is
    left as it was. *)
Theorem HandleWM_COMMAND_text_changed (w : EditCtrl) (ev : WndEvent) :
  msg ev = WM_COMMAND ->
  HIWORD (wparam ev) = EN_CHANGE ->
  match OnTextChanged w with
  | Some callback =>
      exists (a : EditTextChangedEvent) (ev' : WndEvent),
        HandleWM_COMMAND w ev = Some (ev', [a]) /\
        text a = EditCtrlM.GetText w /\
        hwnd (base a) = hwnd ev /\ msg (base a) = msg ev /\
        wparam (base a) = wparam ev /\ lparam (base a) = lparam ev /\
        didHandle (base a) = false /\
        didHandle ev' = didHandle (base (callback a)) /\
        (didHandle (base (callback a)) = true -> didHandle ev' = true)
  | None => HandleWM_COMMAND w ev = Some (ev, [])
  end.
Proof.
  intros Hmsg Hcode. unfold HandleWM_COMMAND.
  rewrite Hmsg, Z.eqb_refl, Hcode, Z.eqb_refl. cbn [negb].
  destruct (OnTextChanged w) as [callback|]; [|reflexivity].
  do 2 eexists. split; [reflexivity|].
  rewrite HandleWM_COMMAND_argument. cbn. repeat split; auto.
Qed.

(** C8 on the sample control: the callback receives "abc" and the
    notification comes back handled. *)
Lemma HandleWM_COMMAND_text_changed_witness :
  exists (a : EditTextChangedEvent) (ev' : WndEvent),
    HandleWM_COMMAND sample_edit sample_en_change = Some (ev', [a]) /\
    text a = "abc"%string /\
    didHandle ev' = true.
Proof.
  destruct (HandleWM_COMMAND_text_changed sample_edit sample_en_change
              eq_refl eq_refl)
    as (a & ev' & Hrun & Htext & _ & _ & _ & _ & _ & Hback & _).
  exists a, ev'. split; [exact Hrun|]. split; [exact Htext|].
  rewrite Hback. vm_compute in Hrun. injection Hrun as _ <-. reflexivity.
Defined.

(** * Further properties of the panel *)

(** ** A selection, control by control *)

Lemma ShowAnnotationAuthor_written `{Platform} (h : gmap loc Annotation.t)
    (w : EditAnnotationsWindow) (p : ptr) :
  live_or_null h p ->
  ShowAnnotationAuthor h w p = Some (upd_staticAuthor (author_written h p) w).
Proof.
  unfold author_written. destruct p as [l|]; simpl; [|reflexivity].
  intros [a Ha]. rewrite Ha. simpl.
  destruct (is_empty (Annotation.Author a)); reflexivity.
Qed.

Lemma ShowAnnotationModificationDate_written `{Platform} (h : gmap loc Annotation.t)
    (w : EditAnnotationsWindow) (p : ptr) :
  live_or_null h p ->
  date_representable h p ->
  ShowAnnotationModificationDate h w p =
  Some (upd_staticModificationDate (date_written h p) w).
Proof.
  unfold date_written, date_representable. destruct p as [l|]; simpl; [|reflexivity].
  intros [a Ha] Hd. rewrite Ha in Hd |- *. simpl.
  destruct (Z.eqb_spec (Annotation.ModificationDate a) 0) as [Hz|Hz]; [reflexivity|].
  destruct Hd as [Hd|[t Ht]]; [contradiction|].
  unfold AppendPdfDate. rewrite Ht. reflexivity.
Qed.

Lemma ShowAnnotationsPopup_written `{Platform} (h : gmap loc Annotation.t)
    (w : EditAnnotationsWindow) (p : ptr) :
  live_or_null h p ->
  ShowAnnotationsPopup h w p = Some (upd_staticPopup (popup_written h p) w).
Proof.
  unfold popup_written, ShowAnnotationsPopup. destruct p as [l|]; simpl; [|reflexivity].
  intros [a Ha]. rewrite Ha. simpl.
  destruct (0 <=? Annotation.PopupId a); reflexivity.
Qed.

Lemma ShowAnnotationsIcon_written `{Platform} (h : gmap loc Annotation.t)
    (w : EditAnnotationsWindow) (p : ptr) :
  live_or_null h p ->
  ShowAnnotationsIcon h w p =
  Some (upd_dropDownIcon (icon_picker_written h p)
          (upd_staticIcon (icon_label_written h p) w)).
Proof.
  unfold icon_picker_written, icon_label_written, icons_offered, ShowAnnotationsIcon.
  destruct p as [l|]; simpl; [|reflexivity].
  intros [a Ha]. rewrite Ha. simpl.
  destruct (is_empty (Annotation.IconName a)); simpl; [reflexivity|].
  destruct (icons_of_type (Annotation.type a)); reflexivity.
Qed.

Lemma ShowAnnotationsColor_written `{Platform} (h : gmap loc Annotation.t)
    (w : EditAnnotationsWindow) (p : ptr) :
  live_or_null h p ->
  ShowAnnotationsColor h w p =
  Some (upd_dropDownColor (color_picker_written h p)
          (upd_staticColor (color_label_written h p) w)).
Proof.
  unfold color_picker_written, color_label_written, selected_type, ShowAnnotationsColor.
  destruct p as [l|]; simpl; [|reflexivity].
  intros [a Ha]. rewrite Ha. simpl.
  destruct (IsAnnotationTypeInArray gAnnotsWithColor (Annotation.Type_ a)); reflexivity.
Qed.

Lemma annot_contents_shown (h : gmap loc Annotation.t) (p : ptr)
    (w : EditAnnotationsWindow) :
  annot (contents_shown h p w) = annot w.
Proof. unfold contents_shown. destruct (deref h p); reflexivity. Qed.

(** The whole of a selection event. *)
Lemma ListBoxSelectionChanged_written `{Platform} (st : State)
    (ev : ListBoxSelectionChangedEvent) (p : ptr) :
  designated (window st) (lb_idx ev) = Some p ->
  live_or_null (heap st) p ->
  date_representable (heap st) p ->
  ListBoxSelectionChanged st ev =
  Some (mkState (heap st) (selection_written (heap st) p (window st)) (rerenders st)).
Proof.
  intros Hsel Hlive Hdate. unfold ListBoxSelectionChanged, selection_written.
  assert (Hfirst :
    (if 0 <=? lb_idx ev
     then v ← annotations (set_annot None (window st));
          p0 ← Vec_at v (lb_idx ev);
          Some (set_annot p0 (set_annot None (window st)))
     else Some (set_annot None (window st)))
    = Some (set_annot p (window st))).
  { unfold designated in Hsel. destruct (0 <=? lb_idx ev).
    - cbn [annotations set_annot].
      destruct (annotations (window st)) as [v|]; [|discriminate].
      cbn [mbind option_bind] in Hsel |- *. rewrite Hsel. reflexivity.
    - injection Hsel as <-. reflexivity. }
  cbv zeta. rewrite Hfirst. clear Hfirst.
  cbn [mbind option_bind].
  change (annot (set_annot p (window st))) with p.
  rewrite (ShowAnnotationAuthor_written _ _ _ Hlive). cbn [mbind option_bind].
  change (annot (upd_staticAuthor _ _)) with p.
  rewrite (ShowAnnotationModificationDate_written _ _ _ Hlive Hdate).
  cbn [mbind option_bind].
  change (annot (upd_staticModificationDate _ _)) with p.
  rewrite (ShowAnnotationsPopup_written _ _ _ Hlive). cbn [mbind option_bind].
  change (annot (upd_staticPopup _ _)) with p.
  rewrite (ShowAnnotationsContents_eq _ _ _ Hlive).
  fold (contents_shown (heap st) p
          (upd_staticPopup (popup_written (heap st) p)
             (upd_staticModificationDate (date_written (heap st) p)
                (upd_staticAuthor (author_written (heap st) p)
                   (set_annot p (window st)))))).
  cbn [mbind option_bind].
  set (w4 := contents_shown _ _ _).
  assert (H4 : annot w4 = p) by (unfold w4; now rewrite annot_contents_shown).
  rewrite H4.
  rewrite (ShowAnnotationsIcon_written _ _ _ Hlive). cbn [mbind option_bind].
  replace (annot (upd_dropDownIcon _ (upd_staticIcon _ w4))) with p
    by (symmetry; exact H4).
  rewrite (ShowAnnotationsColor_written _ _ _ Hlive). cbn [mbind option_bind].
  replace (annot (upd_dropDownColor _ (upd_staticColor _ (upd_dropDownIcon _
             (upd_staticIcon _ w4))))) with p
    by (symmetry; exact H4).
  reflexivity.
Qed.

(** The fields of the panel after a selection. *)
Lemma selection_written_fields `{Platform} (h : gmap loc Annotation.t) (p : ptr)
    (w : EditAnnotationsWindow) :
  live_or_null h p ->
  let w' := selection_written h p w in
  staticAuthor w' = author_written h p (staticAuthor w) /\
  staticModificationDate w' = date_written h p (staticModificationDate w) /\
  staticPopup w' = popup_written h p (staticPopup w) /\
  staticContents w' =
    StaticCtrlM.SetIsVisible (bool_decide (p <> None)) (staticContents w) /\
  staticIcon w' = icon_label_written h p (staticIcon w) /\
  dropDownIcon w' = icon_picker_written h p (dropDownIcon w) /\
  staticColor w' = color_label_written h p (staticColor w) /\
  dropDownColor w' = color_picker_written h p (dropDownColor w) /\
  buttonDelete w' = ButtonCtrlM.SetIsVisible (bool_decide (p <> None)) (buttonDelete w) /\
  buttonSavePDF w' = buttonSavePDF w /\
  annotations w' = annotations w /\
  annot w' = p /\
  OnTextChanged (editContents w') = OnTextChanged (editContents w).
Proof.
  unfold selection_written, contents_shown. cbv zeta.
  destruct p as [l|]; simpl; [intros [a ->]|intros _]; repeat split; reflexivity.
Qed.

(** A selection event has a result only for a pointer it designates, and
    only when that pointer is null, or live with a date that can be shown. *)
Lemma ListBoxSelectionChanged_inv_date `{Platform} (st st' : State)
    (ev : ListBoxSelectionChangedEvent) :
  ListBoxSelectionChanged st ev = Some st' ->
  exists p, designated (window st) (lb_idx ev) = Some p /\
            live_or_null (heap st) p /\
            date_representable (heap st) p /\
            st' = mkState (heap st) (selection_written (heap st) p (window st))
                    (rerenders st).
Proof.
  intros Hrun.
  destruct (designated (window st) (lb_idx ev)) as [p|] eqn:Hsel.
  - assert (Hfirst :
      (if 0 <=? lb_idx ev
       then v ← annotations (set_annot None (window st));
            p0 ← Vec_at v (lb_idx ev);
            Some (set_annot p0 (set_annot None (window st)))
       else Some (set_annot None (window st)))
      = Some (set_annot p (window st))).
    { unfold designated in Hsel. destruct (0 <=? lb_idx ev).
      - cbn [annotations set_annot].
        destruct (annotations (window st)) as [v|]; [|discriminate].
        cbn [mbind option_bind] in Hsel |- *. rewrite Hsel. reflexivity.
      - injection Hsel as <-. reflexivity. }
    unfold ListBoxSelectionChanged in Hrun. cbv zeta in Hrun.
    rewrite Hfirst in Hrun. clear Hfirst. cbn [mbind option_bind] in Hrun.
    change (annot (set_annot p (window st))) with p in Hrun.
    assert (Hlive : live_or_null (heap st) p).
    { destruct p as [l|]; [|exact I]. simpl.
      destruct (heap st !! l) as [a|] eqn:Hl; [eauto|]. exfalso.
      unfold ShowAnnotationAuthor in Hrun. cbn [deref] in Hrun.
      rewrite Hl in Hrun. discriminate. }
    assert (Hdate : date_representable (heap st) p).
    { rewrite (ShowAnnotationAuthor_written _ _ _ Hlive) in Hrun.
      cbn [mbind option_bind] in Hrun.
      change (annot (upd_staticAuthor _ _)) with p in Hrun.
      destruct (ShowAnnotationModificationDate (heap st)
                  (upd_staticAuthor (author_written (heap st) p) (set_annot p (window st)))
                  p) as [w2|] eqn:HD; [|discriminate].
      exact (ShowAnnotationModificationDate_defined _ _ _ _ HD). }
    exists p. split; [reflexivity|]. split; [exact Hlive|]. split; [exact Hdate|].
    pose proof (ListBoxSelectionChanged_written st ev p Hsel Hlive Hdate) as Hw.
    unfold ListBoxSelectionChanged in Hw. cbv zeta in Hw.
    unfold designated in Hsel.
    assert (Hsame : Some st' =
                    Some (mkState (heap st) (selection_written (heap st) p (window st))
                            (rerenders st))).
    { rewrite <- Hw. rewrite <- Hrun.
      destruct (0 <=? lb_idx ev).
      - cbn [annotations set_annot].
        destruct (annotations (window st)) as [v|]; [|discriminate].
        cbn [mbind option_bind] in Hsel |- *. rewrite Hsel. reflexivity.
      - injection Hsel as <-. reflexivity. }
    now injection Hsame.
  - exfalso. unfold ListBoxSelectionChanged, designated in *. cbv zeta in Hrun.
    cbn [annotations set_annot] in Hrun.
    destruct (0 <=? lb_idx ev); [|discriminate].
    destruct (annotations (window st)) as [v|]; [|discriminate].
    cbn [mbind option_bind] in Hsel, Hrun. rewrite Hsel in Hrun. discriminate.
Qed.

Lemma ListBoxSelectionChanged_inv `{Platform} (st st' : State)
    (ev : ListBoxSelectionChangedEvent) :
  ListBoxSelectionChanged st ev = Some st' ->
  exists p, designated (window st) (lb_idx ev) = Some p /\
            live_or_null (heap st) p /\
            st' = mkState (heap st) (selection_written (heap st) p (window st))
                    (rerenders st).
Proof.
  intros Hrun.
  apply ListBoxSelectionChanged_inv_date in Hrun as (p & Hsel & Hlive & _ & Hst).
  exists p. auto.
Qed.


(** X2.  A selection event writes no annotation, keeps the list of
    annotations, asks for no rendering, and leaves the save button and the
    callback of the contents editor as they were. *)
Theorem ListBoxSelectionChanged_frame `{Platform} (st st' : State)
    (ev : ListBoxSelectionChangedEvent) :
  ListBoxSelectionChanged st ev = Some st' ->
  heap st' = heap st /\
  rerenders st' = rerenders st /\
  annotations (window st') = annotations (window st) /\
  buttonSavePDF (window st') = buttonSavePDF (window st) /\
  OnTextChanged (editContents (window st')) = OnTextChanged (editContents (window st)).
Proof.
  intros Hrun.
  apply ListBoxSelectionChanged_inv in Hrun as (p & _ & Hlive & ->).
  destruct (selection_written_fields (heap st) p (window st) Hlive)
    as (_ & _ & _ & _ & _ & _ & _ & _ & _ & Hsave & Hlist & _ & Hcb).
  cbn [heap window rerenders]. auto.
Qed.

Lemma ListBoxSelectionChanged_frame_witness :
  exists st',
    ListBoxSelectionChanged (H := sample_platform) sample_state
      (mkListBoxSelectionChangedEvent 0 EmptyString) = Some st' /\
    heap st' = sample_heap /\
    rerenders st' = 0%nat /\
    annotations (window st') = Some [Some 0%nat; Some 1%nat] /\
    button_isEnabled (buttonSavePDF (window st')) = false.
Proof.
  destruct (ListBoxSelectionChanged (H := sample_platform) sample_state
              (mkListBoxSelectionChangedEvent 0 EmptyString)) as [st'|] eqn:Hrun;
    [|vm_compute in Hrun; discriminate Hrun].
  destruct (ListBoxSelectionChanged_frame (H := sample_platform) _ _ _ Hrun)
    as (Hheap & Hr & Hlist & Hsave & _).
  exists st'. split; [reflexivity|]. rewrite Hheap, Hr, Hlist, Hsave.
  repeat split; reflexivity.
Defined.

(** X3.  After a selection event the author label is visible exactly when
    an annotation is selected and its author is not empty; it then reads
    "Author: " followed by the author, and a hidden label keeps its text. *)
Theorem ListBoxSelectionChanged_author `{Platform} (st st' : State)
    (ev : ListBoxSelectionChangedEvent) :
  ListBoxSelectionChanged st ev = Some st' ->
  match deref (heap st') (annot (window st')) with
  | Some a =>
      static_isVisible (staticAuthor (window st')) =
        negb (is_empty (Annotation.author a)) /\
      static_text (staticAuthor (window st')) =
        if is_empty (Annotation.author a)
        then static_text (staticAuthor (window st))
        else ("Author: " +:+ Annotation.author a)%string
  | None =>
      annot (window st') = None /\
      static_isVisible (staticAuthor (window st')) = false /\
      static_text (staticAuthor (window st')) = static_text (staticAuthor (window st))
  end.
Proof.
  intros Hrun.
  apply ListBoxSelectionChanged_inv in Hrun as (p & _ & Hlive & ->).
  destruct (selection_written_fields (heap st) p (window st) Hlive)
    as (HA & _ & _ & _ & _ & _ & _ & _ & _ & _ & _ & Hp & _).
  cbn [heap window]. rewrite Hp, HA. unfold author_written.
  destruct p as [l|]; simpl in Hlive |- *.
  - destruct Hlive as [a ->]. unfold Annotation.Author.
    destruct (is_empty (Annotation.author a)); split; reflexivity.
  - repeat split; reflexivity.
Qed.

Lemma ListBoxSelectionChanged_author_witness :
  exists st',
    ListBoxSelectionChanged (H := sample_platform)
      (mkState (<[0%nat := Annotation.mk Ink 3 "Ada" 0 (-1) EmptyString EmptyString
                              0xff000000 false false true]> ∅)
               (CreateMainLayout (Some [Some 0%nat])) 0)
      (mkListBoxSelectionChangedEvent 0 EmptyString) = Some st' /\
    static_isVisible (staticAuthor (window st')) = true /\
    static_text (staticAuthor (window st')) = "Author: Ada"%string.
Proof.
  match goal with
  | |- exists st', ?run = Some st' /\ _ =>
      destruct run as [st'|] eqn:Hrun; [|vm_compute in Hrun; discriminate Hrun]
  end.
  pose proof (ListBoxSelectionChanged_author (H := sample_platform) _ _ _ Hrun) as Hlabel.
  exists st'. split; [reflexivity|].
  vm_compute in Hrun. injection Hrun as <-. exact Hlabel.
Defined.

(** Runs a handler on a sample state: names the state it returns. *)
Ltac run_sample st' Hrun :=
  match goal with
  | |- exists _, ?run = Some _ /\ _ =>
      destruct run as [st'|] eqn:Hrun; [|vm_compute in Hrun; discriminate Hrun]
  end.

(** X4.  After a selection event the date label is visible exactly when an
    annotation is selected and its modification date is not 0.  The date is
    then a time that [gmtime] breaks down, and the label reads "Date: "
    followed by what [strftime] writes for it; a hidden label keeps its
    text. *)
Theorem ListBoxSelectionChanged_date `{Platform} (st st' : State)
    (ev : ListBoxSelectionChangedEvent) :
  ListBoxSelectionChanged st ev = Some st' ->
  match deref (heap st') (annot (window st')) with
  | Some a =>
      static_isVisible (staticModificationDate (window st')) =
        negb (Annotation.modificationDate a =? 0) /\
      if Annotation.modificationDate a =? 0
      then static_text (staticModificationDate (window st')) =
           static_text (staticModificationDate (window st))
      else exists t : tm,
             gmtime (Annotation.modificationDate a) = Some t /\
             static_text (staticModificationDate (window st')) =
               ("Date: " +:+ strftime t)%string
  | None =>
      annot (window st') = None /\
      static_isVisible (staticModificationDate (window st')) = false /\
      static_text (staticModificationDate (window st')) =
        static_text (staticModificationDate (window st))
  end.
Proof.
  intros Hrun.
  apply ListBoxSelectionChanged_inv_date in Hrun as (p & _ & Hlive & Hdate & ->).
  destruct (selection_written_fields (heap st) p (window st) Hlive)
    as (_ & HD & _ & _ & _ & _ & _ & _ & _ & _ & _ & Hp & _).
  cbn [heap window]. rewrite Hp, HD. unfold date_written, date_representable in *.
  destruct p as [l|]; simpl in Hlive, Hdate |- *.
  - destruct Hlive as [a Ha]. rewrite Ha in Hdate |- *.
    unfold Annotation.ModificationDate in *.
    destruct (Z.eqb_spec (Annotation.modificationDate a) 0) as [Hz|Hz].
    + split; reflexivity.
    + destruct Hdate as [Hd|[t Ht]]; [contradiction|].
      unfold AppendPdfDate. rewrite Ht. cbn. split; [reflexivity|].
      exists t. split; reflexivity.
  - repeat split; reflexivity.
Qed.

Lemma ListBoxSelectionChanged_date_witness :
  exists st',
    ListBoxSelectionChanged (H := sample_platform) sample_inked
      (mkListBoxSelectionChangedEvent 0 EmptyString) = Some st' /\
    static_isVisible (staticModificationDate (window st')) = true /\
    static_text (staticModificationDate (window st')) =
      "Date: 1970-01-02 00:00 UTC"%string.
Proof.
  run_sample st' Hrun.
  pose proof (ListBoxSelectionChanged_date (H := sample_platform) _ _ _ Hrun) as Hlabel.
  exists st'. split; [reflexivity|].
  vm_compute in Hrun. injection Hrun as <-.
  destruct Hlabel as [Hvisible (t & Ht & Htext)].
  split; [exact Hvisible|].
  rewrite Htext. vm_compute in Ht. injection Ht as <-. reflexivity.
Defined.

(** X5.  After a selection event the popup label is visible exactly when an
    annotation is selected and its popup identifier is not negative; it
    then reads "Popup: ", the identifier, " 0 R". *)
Theorem ListBoxSelectionChanged_popup `{Platform} (st st' : State)
    (ev : ListBoxSelectionChangedEvent) :
  ListBoxSelectionChanged st ev = Some st' ->
  match deref (heap st') (annot (window st')) with
  | Some a =>
      static_isVisible (staticPopup (window st')) = (0 <=? Annotation.popupId a) /\
      static_text (staticPopup (window st')) =
        if 0 <=? Annotation.popupId a
        then ("Popup: " +:+ printf_d (Annotation.popupId a) +:+ " 0 R")%string
        else static_text (staticPopup (window st))
  | None =>
      annot (window st') = None /\
      static_isVisible (staticPopup (window st')) = false /\
      static_text (staticPopup (window st')) = static_text (staticPopup (window st))
  end.
Proof.
  intros Hrun.
  apply ListBoxSelectionChanged_inv in Hrun as (p & _ & Hlive & ->).
  destruct (selection_written_fields (heap st) p (window st) Hlive)
    as (_ & _ & HP & _ & _ & _ & _ & _ & _ & _ & _ & Hp & _).
  cbn [heap window]. rewrite Hp, HP. unfold popup_written.
  destruct p as [l|]; simpl in Hlive |- *.
  - destruct Hlive as [a ->]. unfold Annotation.PopupId.
    destruct (0 <=? Annotation.popupId a); split; reflexivity.
  - repeat split; reflexivity.
Qed.

Lemma ListBoxSelectionChanged_popup_witness :
  exists st',
    ListBoxSelectionChanged (H := sample_platform) sample_inked
      (mkListBoxSelectionChangedEvent 0 EmptyString) = Some st' /\
    static_isVisible (staticPopup (window st')) = true /\
    static_text (staticPopup (window st')) = "Popup: 12 0 R"%string.
Proof.
  run_sample st' Hrun.
  pose proof (ListBoxSelectionChanged_popup (H := sample_platform) _ _ _ Hrun) as Hlabel.
  exists st'. split; [reflexivity|].
  vm_compute in Hrun. injection Hrun as <-. exact Hlabel.
Defined.

(** X6.  After a selection event the icon label and the icon picker are
    both visible or both hidden: visible exactly when an annotation is
    selected, its icon name is not empty and its type is Text,
    FileAttachment, Sound or Stamp.  A hidden picker keeps its items and its
    selection. *)
Theorem ListBoxSelectionChanged_icon `{Platform} (st st' : State)
    (ev : ListBoxSelectionChangedEvent) :
  ListBoxSelectionChanged st ev = Some st' ->
  let shown :=
    match deref (heap st') (annot (window st')) with
    | Some a =>
        negb (is_empty (Annotation.iconName a)) &&
        IsAnnotationTypeInArray [Text; FileAttachment; Sound; Stamp] (Annotation.type a)
    | None => false
    end in
  static_isVisible (staticIcon (window st')) = shown /\
  dropdown_isVisible (dropDownIcon (window st')) = shown /\
  (shown = false ->
   dropdown_items (dropDownIcon (window st')) = dropdown_items (dropDownIcon (window st)) /\
   dropdown_currentSelection (dropDownIcon (window st')) =
     dropdown_currentSelection (dropDownIcon (window st))).
Proof.
  intros Hrun.
  apply ListBoxSelectionChanged_inv in Hrun as (p & _ & Hlive & ->).
  destruct (selection_written_fields (heap st) p (window st) Hlive)
    as (_ & _ & _ & _ & HI & HP & _ & _ & _ & _ & _ & Hp & _).
  cbn [heap window]. cbv zeta. rewrite Hp, HI, HP.
  unfold icon_label_written, icon_picker_written, icons_offered.
  destruct p as [l|]; simpl in Hlive |- *.
  - destruct Hlive as [a ->]. unfold Annotation.IconName.
    destruct (is_empty (Annotation.iconName a)); simpl; [auto|].
    destruct (Annotation.type a); simpl; auto; repeat split; discriminate.
  - auto.
Qed.

Lemma ListBoxSelectionChanged_icon_witness :
  (exists st',
      ListBoxSelectionChanged (H := sample_platform) sample_state
        (mkListBoxSelectionChangedEvent 0 EmptyString) = Some st' /\
      static_isVisible (staticIcon (window st')) = true /\
      dropdown_isVisible (dropDownIcon (window st')) = true) /\
  (exists st',
      ListBoxSelectionChanged (H := sample_platform) sample_inked
        (mkListBoxSelectionChangedEvent 0 EmptyString) = Some st' /\
      static_isVisible (staticIcon (window st')) = false /\
      dropdown_isVisible (dropDownIcon (window st')) = false).
Proof.
  split.
  - run_sample st' Hrun.
    destruct (ListBoxSelectionChanged_icon (H := sample_platform) _ _ _ Hrun)
      as (Hl & Hp & _).
    exists st'. split; [reflexivity|].
    vm_compute in Hrun. injection Hrun as <-. split; [exact Hl|exact Hp].
  - run_sample st' Hrun.
    destruct (ListBoxSelectionChanged_icon (H := sample_platform) _ _ _ Hrun)
      as (Hl & Hp & _).
    exists st'. split; [reflexivity|].
    vm_compute in Hrun. injection Hrun as <-. split; [exact Hl|exact Hp].
Defined.

(** The palette holds no colour twice from index 1 on. *)
Lemma gColorsValues_distinct `{Platform} (i j : nat) (v : Z) :
  (1 <= i)%nat -> (1 <= j)%nat ->
  gColorsValues !! i = Some v -> gColorsValues !! j = Some v -> i = j.
Proof.
  intros Hi Hj Hvi Hvj.
  assert (Hlt : (i < 18)%nat).
  { apply lookup_lt_Some in Hvi. now rewrite gColorsValues_length in Hvi. }
  assert (Hlt' : (j < 18)%nat).
  { apply lookup_lt_Some in Hvj. now rewrite gColorsValues_length in Hvj. }
  destruct i as [|i]; [lia|]. destruct j as [|j]; [lia|].
  do 17 (destruct i as [|i];
         [vm_compute in Hvi; injection Hvi as <-;
          do 17 (destruct j as [|j];
                 [first [reflexivity | vm_compute in Hvj; discriminate Hvj]|]);
          lia|]).
  lia.
Qed.

(** X7.  When the selected annotation's type takes a colour, the colour
    picker is visible and selects the palette entry of the annotation's
    colour, whatever its alpha byte: entry [i >= 1] when the colour with
    alpha 0xff is [gColorsValues[i]], entry 0 when it is no palette
    colour. *)
Theorem ListBoxSelectionChanged_color_index `{Platform} (st st' : State)
    (ev : ListBoxSelectionChangedEvent) (a : Annotation.t) :
  ListBoxSelectionChanged st ev = Some st' ->
  deref (heap st') (annot (window st')) = Some a ->
  IsAnnotationTypeInArray gAnnotsWithColor (Annotation.type a) = true ->
  dropdown_isVisible (dropDownColor (window st')) = true /\
  dropdown_items (dropDownColor (window st')) = gColorNames /\
  (forall i : nat,
      (1 <= i)%nat ->
      gColorsValues !! i = Some (ColorSetAlpha (Annotation.color a) 0xff) ->
      dropdown_currentSelection (dropDownColor (window st')) = Z.of_nat i) /\
  ((forall i : nat,
       (1 <= i)%nat ->
       gColorsValues !! i <> Some (ColorSetAlpha (Annotation.color a) 0xff)) ->
   dropdown_currentSelection (dropDownColor (window st')) = 0).
Proof.
  intros Hrun Ha Hin.
  apply ListBoxSelectionChanged_inv in Hrun as (p & _ & Hlive & ->).
  destruct (selection_written_fields (heap st) p (window st) Hlive)
    as (_ & _ & _ & _ & _ & _ & _ & HC & _ & _ & _ & Hp & _).
  cbn [heap window] in Ha |- *. rewrite Hp in Ha. rewrite HC.
  unfold color_picker_written. rewrite Ha.
  unfold Annotation.Type_, Annotation.Color. rewrite Hin. cbn.
  split; [reflexivity|]. split; [apply gColors_items|]. split.
  - intros i Hi Hval.
    assert (Hlt : (i < 18)%nat).
    { apply lookup_lt_Some in Hval. now rewrite gColorsValues_length in Hval. }
    rewrite (GetKnownColorName_least (Annotation.color a) i Hi Hval).
    + unfold seqstrings.IdxToStr.
      destruct (Z.ltb_spec (Z.of_nat i) 0); [lia|].
      apply FindStringInArray_IdxToStr_gColors; [exact Hlt|].
      unfold seqstrings.IdxToStr. destruct (Z.ltb_spec (Z.of_nat i) 0); [lia|reflexivity].
    + intros j Hj Hvj.
      assert (j = i) by (eapply gColorsValues_distinct; eauto; lia). lia.
  - intros Hno.
    destruct (GetKnownColorName (Annotation.color a)) as [s|] eqn:Hs.
    + apply GetKnownColorName_inv in Hs as (i & Hi & Hval & _).
      exfalso. apply (Hno i); [lia|exact Hval].
    + unfold FindStringInArray. apply FindStringInArray_loop_null.
Qed.

Lemma ListBoxSelectionChanged_color_index_witness :
  exists st',
    ListBoxSelectionChanged (H := sample_platform) sample_inked
      (mkListBoxSelectionChangedEvent 0 EmptyString) = Some st' /\
    dropdown_isVisible (dropDownColor (window st')) = true /\
    dropdown_currentSelection (dropDownColor (window st')) = 3.
Proof.
  run_sample st' Hrun.
  destruct (ListBoxSelectionChanged_color_index (H := sample_platform) _ _ _
              (Annotation.mk Ink 3 "Ada" 86400 12 EmptyString EmptyString
                 0xffff0000 false false true) Hrun)
    as (Hvis & _ & Hsel & _).
  - vm_compute in Hrun. injection Hrun as <-. reflexivity.
  - reflexivity.
  - exists st'. split; [reflexivity|]. split; [exact Hvis|].
    apply (Hsel 3%nat); [lia|reflexivity].
Defined.

(** X8.  After a selection event the delete button, the contents label and
    the contents editor are visible exactly when the selection is not
    null; with a negative index every property control of the panel is
    hidden. *)
Theorem ListBoxSelectionChanged_two_states `{Platform} (st st' : State)
    (ev : ListBoxSelectionChangedEvent) :
  ListBoxSelectionChanged st ev = Some st' ->
  let selected := bool_decide (annot (window st') <> None) in
  button_isVisible (buttonDelete (window st')) = selected /\
  static_isVisible (staticContents (window st')) = selected /\
  edit_isVisible (editContents (window st')) = selected /\
  (lb_idx ev < 0 ->
   selected = false /\
   static_isVisible (staticAuthor (window st')) = false /\
   static_isVisible (staticModificationDate (window st')) = false /\
   static_isVisible (staticPopup (window st')) = false /\
   static_isVisible (staticIcon (window st')) = false /\
   dropdown_isVisible (dropDownIcon (window st')) = false /\
   static_isVisible (staticColor (window st')) = false /\
   dropdown_isVisible (dropDownColor (window st')) = false).
Proof.
  intros Hrun.
  apply ListBoxSelectionChanged_inv in Hrun as (p & Hsel & Hlive & ->).
  cbn [heap window]. cbv zeta.
  unfold selection_written, contents_shown, designated in *.
  destruct p as [l|]; simpl in Hlive.
  - destruct Hlive as [a Ha]. simpl. rewrite Ha. simpl.
    do 3 (split; [reflexivity|]). intros Hneg. exfalso.
    destruct (Z.leb_spec 0 (lb_idx ev)); [lia|discriminate].
  - simpl. do 3 (split; [reflexivity|]). intros _. repeat split; reflexivity.
Qed.

Lemma ListBoxSelectionChanged_two_states_witness :
  exists st',
    ListBoxSelectionChanged (H := sample_platform) sample_inked
      (mkListBoxSelectionChangedEvent (-1) EmptyString) = Some st' /\
    button_isVisible (buttonDelete (window st')) = false /\
    static_isVisible (staticContents (window st')) = false /\
    edit_isVisible (editContents (window st')) = false /\
    static_isVisible (staticAuthor (window st')) = false /\
    dropdown_isVisible (dropDownColor (window st')) = false.
Proof.
  run_sample st' Hrun.
  destruct (ListBoxSelectionChanged_two_states (H := sample_platform) _ _ _ Hrun)
    as (Hdel & Hlab & Hed & Hneg).
  destruct (Hneg ltac:(simpl; lia)) as (Hnone & HA & _ & _ & _ & _ & _ & HC).
  exists st'. split; [reflexivity|].
  rewrite Hdel, Hlab, Hed, Hnone. auto.
Defined.

Lemma selection_written_idem `{Platform} (h : gmap loc Annotation.t) (p : ptr)
    (w : EditAnnotationsWindow) :
  live_or_null h p ->
  selection_written h p (selection_written h p w) = selection_written h p w.
Proof.
  unfold selection_written, contents_shown, author_written, date_written,
    popup_written, icon_label_written, icon_picker_written, icons_offered,
    color_label_written, color_picker_written, selected_type.
  destruct p as [l|]; simpl; [intros [a ->]|intros _; reflexivity].
  destruct (is_empty (Annotation.Author a)),
    (Annotation.ModificationDate a =? 0),
    (AppendPdfDate "Date: " (Annotation.ModificationDate a)),
    (0 <=? Annotation.PopupId a),
    (is_empty (Annotation.IconName a)), (icons_of_type (Annotation.type a)),
    (IsAnnotationTypeInArray gAnnotsWithColor (Annotation.Type_ a));
    reflexivity.
Qed.

(** X9.  Handling the same selection event a second time changes nothing:
    the state after the first handling is the state after the second. *)
Theorem ListBoxSelectionChanged_idempotent `{Platform} (st st' : State)
    (ev : ListBoxSelectionChangedEvent) :
  ListBoxSelectionChanged st ev = Some st' ->
  ListBoxSelectionChanged st' ev = Some st'.
Proof.
  intros Hrun.
  apply ListBoxSelectionChanged_inv_date in Hrun as (p & Hsel & Hlive & Hdate & ->).
  destruct (selection_written_fields (heap st) p (window st) Hlive)
    as (_ & _ & _ & _ & _ & _ & _ & _ & _ & _ & Hlist & _).
  rewrite (ListBoxSelectionChanged_written _ ev p).
  - cbn [heap window rerenders]. now rewrite selection_written_idem.
  - cbn [window]. unfold designated in *. now rewrite Hlist.
  - exact Hlive.
  - exact Hdate.
Qed.

Lemma ListBoxSelectionChanged_idempotent_witness :
  exists st',
    ListBoxSelectionChanged (H := sample_platform) sample_inked
      (mkListBoxSelectionChangedEvent 0 EmptyString) = Some st' /\
    ListBoxSelectionChanged (H := sample_platform) st'
      (mkListBoxSelectionChangedEvent 0 EmptyString) = Some st'.
Proof.
  run_sample st' Hrun.
  exists st'. split; [reflexivity|].
  exact (ListBoxSelectionChanged_idempotent (H := sample_platform) _ _ _ Hrun).
Defined.

(** ** The edit handlers, whatever the setters do *)

Lemma EnableSaveIfAnnotationsChanged_inv (h : gmap loc Annotation.t)
    (w w' : EditAnnotationsWindow) :
  EnableSaveIfAnnotationsChanged h w = Some w' ->
  exists b : bool, w' = upd_buttonSavePDF (ButtonCtrlM.SetIsEnabled b) w.
Proof.
  unfold EnableSaveIfAnnotationsChanged.
  destruct (match annotations w with
            | Some v => didChange_loop h v
            | None => Some false
            end) as [b|]; [|discriminate].
  cbn [mbind option_bind]. intros Hw. injection Hw as <-. eauto.
Qed.

(** X10.  When the icon handler returns, it has called the setter once, on
    the selected annotation and with the item of the event; no other
    annotation is written, the selection, the list and every control but
    the enabled flag of the save button are as before, and one rendering
    has been asked for. *)
Theorem DropDownIconSelectionChanged_frame
    (SetIconName : Annotation.t -> string -> Annotation.t)
    (st st' : State) (ev : DropDownSelectionChangedEvent) :
  DropDownIconSelectionChanged SetIconName st ev = Some st' ->
  exists (l : loc) (a : Annotation.t) (b : bool),
    annot (window st) = Some l /\
    heap st !! l = Some a /\
    heap st' !! l = Some (SetIconName a (dd_item ev)) /\
    (forall l' : loc, l' <> l -> heap st' !! l' = heap st !! l') /\
    window st' = upd_buttonSavePDF (ButtonCtrlM.SetIsEnabled b) (window st) /\
    rerenders st' = S (rerenders st).
Proof.
  unfold DropDownIconSelectionChanged. intros Hrun.
  destruct (annot (window st)) as [l|] eqn:Hsel; [|discriminate].
  cbn [mbind option_bind] in Hrun.
  destruct (heap st !! l) as [a|] eqn:Hl; [|discriminate].
  cbn [mbind option_bind] in Hrun.
  destruct (EnableSaveIfAnnotationsChanged _ (window st)) as [w'|] eqn:Hsave;
    [|discriminate].
  cbn [mbind option_bind] in Hrun. injection Hrun as <-.
  apply EnableSaveIfAnnotationsChanged_inv in Hsave as [b ->].
  exists l, a, b. cbn [heap window rerenders].
  split; [reflexivity|]. split; [exact Hl|].
  split; [apply lookup_insert_eq|].
  split; [intros l' Hne; now apply lookup_insert_ne|]. auto.
Qed.

Lemma DropDownIconSelectionChanged_frame_witness :
  exists st',
    DropDownIconSelectionChanged Annotation.SetIconName sample_selected
      (mkDropDownSelectionChangedEvent 1 "Help") = Some st' /\
    heap st' !! 0%nat =
      Some (Annotation.SetIconName
              (sample_annotation Text "Note" 0xff0000ff EmptyString) "Help") /\
    heap st' !! 1%nat = sample_heap !! 1%nat /\
    annot (window st') = Some 0%nat /\
    rerenders st' = 1%nat.
Proof.
  run_sample st' Hrun.
  destruct (DropDownIconSelectionChanged_frame _ _ _ _ Hrun)
    as (l & a & b & Hsel & Hl & Hl' & Hother & Hw & Hr).
  injection Hsel as <-.
  assert (a = sample_annotation Text "Note" 0xff0000ff EmptyString) as ->.
  { change (heap sample_selected !! 0%nat) with
      (Some (sample_annotation Text "Note" 0xff0000ff EmptyString)) in Hl.
    now injection Hl. }
  exists st'. split; [reflexivity|]. split; [exact Hl'|].
  split; [apply Hother; discriminate|]. split; [now rewrite Hw|exact Hr].
Defined.

Lemma DropDownColorSelectionChanged_inv `{Platform}
    (SetColor : Annotation.t -> Z -> Annotation.t)
    (st st' : State) (ev : DropDownSelectionChangedEvent) :
  DropDownColorSelectionChanged SetColor st ev = Some st' ->
  exists (l : loc) (a : Annotation.t) (b : bool) (col : Z),
    0 <= dd_idx ev /\
    array_at (gColorsValues ++ [ColorUnset]) (Z.min (dd_idx ev) 18) = Some col /\
    annot (window st) = Some l /\
    heap st !! l = Some a /\
    st' = mkState (<[l := SetColor a col]> (heap st))
            (upd_buttonSavePDF (ButtonCtrlM.SetIsEnabled b) (window st))
            (S (rerenders st)).
Proof.
  unfold DropDownColorSelectionChanged. rewrite gColorsValues_length.
  change (Z.of_nat 18) with 18. intros Hrun.
  destruct (if dd_idx ev <? 18 then array_at gColorsValues (dd_idx ev)
            else Some ColorUnset) as [col|] eqn:Hcol; [|discriminate].
  cbn [mbind option_bind] in Hrun.
  destruct (annot (window st)) as [l|] eqn:Hsel; [|discriminate].
  cbn [mbind option_bind] in Hrun.
  destruct (heap st !! l) as [a|] eqn:Hl; [|discriminate].
  cbn [mbind option_bind] in Hrun.
  destruct (EnableSaveIfAnnotationsChanged _ (window st)) as [w'|] eqn:Hsave;
    [|discriminate].
  cbn [mbind option_bind] in Hrun. injection Hrun as <-.
  apply EnableSaveIfAnnotationsChanged_inv in Hsave as [b ->].
  exists l, a, b, col. unfold array_at in *.
  destruct (Z.ltb_spec (dd_idx ev) 18) as [Hlt|Hge].
  - destruct (Z.ltb_spec (dd_idx ev) 0); [discriminate|].
    split; [lia|]. rewrite Z.min_l by lia.
    destruct (Z.ltb_spec (dd_idx ev) 0); [lia|].
    split; [|auto].
    rewrite lookup_app_l; [exact Hcol|]. rewrite gColorsValues_length. lia.
  - injection Hcol as <-. split; [lia|]. rewrite Z.min_r by lia.
    split; [reflexivity|auto].
Qed.

(** X11.  The colour handler has no result for a negative index.  When it
    returns, it has called the setter once, on the selected annotation:
    with [gColorsValues[idx]] for an index below 18, hence with [ColorUnset]
    for index 0, and with [ColorUnset] for every index from 18 on; no other
    annotation is written, only the enabled flag of the save button may
    differ in the panel, and one rendering has been asked for. *)
Theorem DropDownColorSelectionChanged_frame `{Platform}
    (SetColor : Annotation.t -> Z -> Annotation.t)
    (st : State) (ev : DropDownSelectionChangedEvent) :
  (dd_idx ev < 0 -> DropDownColorSelectionChanged SetColor st ev = None) /\
  (forall st' : State,
      DropDownColorSelectionChanged SetColor st ev = Some st' ->
      exists (l : loc) (a : Annotation.t) (b : bool) (col : Z),
        annot (window st) = Some l /\
        heap st !! l = Some a /\
        (dd_idx ev < 18 -> gColorsValues !! Z.to_nat (dd_idx ev) = Some col) /\
        (dd_idx ev = 0 \/ 18 <= dd_idx ev -> col = ColorUnset) /\
        heap st' !! l = Some (SetColor a col) /\
        (forall l' : loc, l' <> l -> heap st' !! l' = heap st !! l') /\
        window st' = upd_buttonSavePDF (ButtonCtrlM.SetIsEnabled b) (window st) /\
        rerenders st' = S (rerenders st)).
Proof.
  split.
  - intros Hneg.
    destruct (DropDownColorSelectionChanged SetColor st ev) as [st'|] eqn:Hrun;
      [|reflexivity].
    apply DropDownColorSelectionChanged_inv in Hrun as (_ & _ & _ & _ & Hpos & _). lia.
  - intros st' Hrun.
    apply DropDownColorSelectionChanged_inv in Hrun
      as (l & a & b & col & Hpos & Hcol & Hsel & Hl & ->).
    exists l, a, b, col. cbn [heap window rerenders]. unfold array_at in Hcol.
    destruct (Z.ltb_spec (Z.min (dd_idx ev) 18) 0); [lia|].
    split; [exact Hsel|]. split; [exact Hl|]. split; [|split].
    + intros Hlt. rewrite Z.min_l in Hcol by lia.
      rewrite lookup_app_l in Hcol; [exact Hcol|]. rewrite gColorsValues_length. lia.
    + intros [Hzero|Hge].
      * rewrite Hzero in Hcol. vm_compute in Hcol. now injection Hcol.
      * rewrite Z.min_r in Hcol by lia. vm_compute in Hcol. now injection Hcol.
    + split; [apply lookup_insert_eq|].
      split; [intros l' Hne; now apply lookup_insert_ne|]. auto.
Qed.

Lemma DropDownColorSelectionChanged_frame_witness :
  DropDownColorSelectionChanged (H := sample_platform) Annotation.SetColor
    sample_selected (mkDropDownSelectionChangedEvent (-1) EmptyString) = None /\
  exists st',
    DropDownColorSelectionChanged (H := sample_platform) Annotation.SetColor
      sample_selected (mkDropDownSelectionChangedEvent 18 "#102030") = Some st' /\
    Annotation.color <$> (heap st' !! 0%nat) = Some 0xfeffffff /\
    heap st' !! 1%nat = sample_heap !! 1%nat.
Proof.
  split.
  - apply (proj1 (DropDownColorSelectionChanged_frame (H := sample_platform)
                    Annotation.SetColor sample_selected
                    (mkDropDownSelectionChangedEvent (-1) EmptyString))).
    simpl. lia.
  - run_sample st' Hrun.
    destruct (proj2 (DropDownColorSelectionChanged_frame (H := sample_platform)
                       Annotation.SetColor sample_selected
                       (mkDropDownSelectionChangedEvent 18 "#102030")) st' Hrun)
      as (l & a & b & col & Hsel & Hl & _ & Hunset & Hl' & Hother & _).
    change (annot (window sample_selected)) with (Some 0%nat) in Hsel.
    injection Hsel as Hsel. subst l.
    exists st'. split; [reflexivity|]. split.
    + unfold loc in *. rewrite Hl', (Hunset ltac:(right; simpl; lia)). reflexivity.
    + apply Hother. discriminate.
Defined.

(** X12.  On a panel whose list holds live pointers only, an edit handler
    has a result exactly when an annotation is selected and live (and, for
    the colour handler, the index is not negative): with nothing selected
    there is no annotation to write. *)
Theorem edit_handlers_defined_iff `{Platform}
    (SetIconName : Annotation.t -> string -> Annotation.t)
    (SetColor : Annotation.t -> Z -> Annotation.t)
    (st : State) (ev : DropDownSelectionChangedEvent) :
  annotations_live (heap st) (window st) ->
  (is_Some (DropDownIconSelectionChanged SetIconName st ev) <->
   exists l : loc, annot (window st) = Some l /\ is_Some (heap st !! l)) /\
  (is_Some (DropDownColorSelectionChanged SetColor st ev) <->
   0 <= dd_idx ev /\
   exists l : loc, annot (window st) = Some l /\ is_Some (heap st !! l)).
Proof.
  intros Hlive. split; split.
  - intros [st' Hrun]. unfold DropDownIconSelectionChanged in Hrun.
    destruct (annot (window st)) as [l|]; [|discriminate].
    cbn [mbind option_bind] in Hrun.
    destruct (heap st !! l) as [a|] eqn:Hl; [|discriminate].
    exists l. rewrite Hl. eauto.
  - intros (l & Hsel & a & Hl).
    destruct (DropDownIconSelectionChanged_eq SetIconName st ev l a Hsel Hl Hlive)
      as (b & Hrun & _).
    rewrite Hrun. eauto.
  - intros [st' Hrun].
    apply DropDownColorSelectionChanged_inv in Hrun
      as (l & a & b & col & Hpos & _ & Hsel & Hl & _).
    split; [exact Hpos|]. exists l. rewrite Hl. eauto.
  - intros (Hpos & l & Hsel & a & Hl).
    destruct (DropDownColorSelectionChanged_eq SetColor st ev l a Hsel Hl Hlive Hpos)
      as (b & col & Hrun & _).
    rewrite Hrun. eauto.
Qed.

Lemma edit_handlers_defined_iff_witness :
  DropDownIconSelectionChanged Annotation.SetIconName sample_state
    (mkDropDownSelectionChangedEvent 1 "Help") = None /\
  is_Some (DropDownColorSelectionChanged (H := sample_platform) Annotation.SetColor
             sample_selected (mkDropDownSelectionChangedEvent 2 "Black")).
Proof.
  split.
  - destruct (DropDownIconSelectionChanged Annotation.SetIconName sample_state
                (mkDropDownSelectionChangedEvent 1 "Help")) as [st'|] eqn:Hrun;
      [|reflexivity].
    destruct (proj1 (proj1 (edit_handlers_defined_iff (H := sample_platform)
                Annotation.SetIconName Annotation.SetColor sample_state
                (mkDropDownSelectionChangedEvent 1 "Help")
                ltac:(repeat constructor; simpl; eexists; reflexivity)))
                ltac:(rewrite Hrun; eauto))
      as (l & Hsel & _).
    discriminate Hsel.
  - apply (proj2 (edit_handlers_defined_iff (H := sample_platform)
                    Annotation.SetIconName Annotation.SetColor sample_selected
                    (mkDropDownSelectionChangedEvent 2 "Black")
                    ltac:(repeat constructor; simpl; eexists; reflexivity))).
    split; [simpl; lia|]. exists 0%nat. split; [reflexivity|].
    simpl. eexists. reflexivity.
Defined.

(** X13.  An edit reaches the save button through the list: when the
    selected annotation is one of the list and the setter leaves it marked
    changed, the handler returns with the save button enabled. *)
Theorem edit_of_listed_annotation_enables_save `{Platform}
    (SetIconName : Annotation.t -> string -> Annotation.t)
    (SetColor : Annotation.t -> Z -> Annotation.t)
    (st : State) (ev : DropDownSelectionChangedEvent) (l : loc)
    (a : Annotation.t) (v : list ptr) :
  annot (window st) = Some l ->
  heap st !! l = Some a ->
  annotations (window st) = Some v ->
  In (Some l) v ->
  annotations_live (heap st) (window st) ->
  (Annotation.isChanged (SetIconName a (dd_item ev)) = true ->
   exists st',
     DropDownIconSelectionChanged SetIconName st ev = Some st' /\
     button_isEnabled (buttonSavePDF (window st')) = true) /\
  (0 <= dd_idx ev ->
   (forall c : Z, Annotation.isChanged (SetColor a c) = true) ->
   exists st',
     DropDownColorSelectionChanged SetColor st ev = Some st' /\
     button_isEnabled (buttonSavePDF (window st')) = true).
Proof.
  intros Hsel Hl Hv Hin Hlive. split.
  - intros Hmark.
    destruct (DropDownIconSelectionChanged_eq SetIconName st ev l a Hsel Hl Hlive)
      as (b & Hrun & Hiff).
    eexists. split; [exact Hrun|]. cbn. apply Hiff.
    exists v, (Some l), (SetIconName a (dd_item ev)). cbn [heap window].
    split; [exact Hv|]. split; [exact Hin|].
    split; [apply lookup_insert_eq|now left].
  - intros Hpos Hmark.
    destruct (DropDownColorSelectionChanged_eq SetColor st ev l a Hsel Hl Hlive Hpos)
      as (b & col & Hrun & Hiff & _).
    eexists. split; [exact Hrun|]. cbn. apply Hiff.
    exists v, (Some l), (SetColor a col). cbn [heap window].
    split; [exact Hv|]. split; [exact Hin|].
    split; [apply lookup_insert_eq|now left].
Qed.

Lemma edit_of_listed_annotation_enables_save_witness :
  exists st',
    DropDownColorSelectionChanged (H := sample_platform) Annotation.SetColor
      sample_selected (mkDropDownSelectionChangedEvent 0 "None") = Some st' /\
    button_isEnabled (buttonSavePDF (window st')) = true.
Proof.
  refine (proj2 (edit_of_listed_annotation_enables_save (H := sample_platform)
                   Annotation.SetIconName Annotation.SetColor sample_selected
                   (mkDropDownSelectionChangedEvent 0 "None") 0%nat
                   (sample_annotation Text "Note" 0xff0000ff EmptyString)
                   [Some 0%nat; Some 1%nat] _ _ _ _ _) _ _).
  - reflexivity.
  - reflexivity.
  - reflexivity.
  - now left.
  - repeat constructor; simpl; eexists; reflexivity.
  - simpl. lia.
  - reflexivity.
Defined.

(** ** An edit, then a selection *)

Lemma palette_values_opaque `{Platform} (i : nat) (col : Z) :
  (1 <= i)%nat ->
  gColorsValues !! i = Some col ->
  ColorSetAlpha col 0xff = col.
Proof.
  intros Hi Hcol.
  assert (Hlt : (i < 18)%nat).
  { apply lookup_lt_Some in Hcol. now rewrite gColorsValues_length in Hcol. }
  destruct i as [|i]; [lia|].
  do 17 (destruct i as [|i];
         [vm_compute in Hcol; injection Hcol as <-; reflexivity|]).
  lia.
Qed.

Lemma palette_index_selected `{Platform} (c : Z) (i : nat) :
  (1 <= i)%nat ->
  gColorsValues !! i = Some (ColorSetAlpha c 0xff) ->
  FindStringInArray gColors (GetKnownColorName c) 0 = Z.of_nat i.
Proof.
  intros Hi Hval.
  assert (Hlt : (i < 18)%nat).
  { apply lookup_lt_Some in Hval. now rewrite gColorsValues_length in Hval. }
  rewrite (GetKnownColorName_least c i Hi Hval).
  - unfold seqstrings.IdxToStr.
    destruct (Z.ltb_spec (Z.of_nat i) 0); [lia|].
    apply FindStringInArray_IdxToStr_gColors; [exact Hlt|].
    unfold seqstrings.IdxToStr. destruct (Z.ltb_spec (Z.of_nat i) 0); [lia|reflexivity].
  - intros j Hj Hvj.
    assert (j = i) by (eapply gColorsValues_distinct; eauto; lia). lia.
Qed.

(** In each table of icon names, a name is found at the place it has among
    the items of the picker. *)
Lemma icon_table_index (t : AnnotationType) (icons item : string) (k : nat) :
  icons_of_type t = Some icons ->
  DropDownItemsFromStringArray [] icons !! k = Some item ->
  FindStringInArray icons (Some item) 0 = Z.of_nat k /\ is_empty item = false.
Proof.
  intros Ht Hk.
  destruct t; try discriminate Ht; injection Ht as <-;
    do 14 (destruct k as [|k];
           [vm_compute in Hk; first [discriminate Hk | injection Hk as <-];
            split; reflexivity|]);
    vm_compute in Hk; discriminate Hk.
Qed.

(** X14.  Choosing entry [i] of the colour picker, [1 <= i < 18], and then
    selecting the edited annotation again shows the colour picker with
    entry [i] selected, provided the setter stores the colour it is given,
    keeps the type, and leaves a modification date that can be shown (0, or
    a time that [gmtime] breaks down). *)
Theorem color_edit_then_selection `{Platform}
    (SetColor : Annotation.t -> Z -> Annotation.t)
    (st : State) (ev : DropDownSelectionChangedEvent)
    (sel : ListBoxSelectionChangedEvent) (l : loc) (a : Annotation.t) :
  (forall c : Z, Annotation.color (SetColor a c) = c /\
                 Annotation.type (SetColor a c) = Annotation.type a /\
                 (Annotation.modificationDate (SetColor a c) = 0 \/
                  is_Some (gmtime (Annotation.modificationDate (SetColor a c))))) ->
  annot (window st) = Some l ->
  heap st !! l = Some a ->
  annotations_live (heap st) (window st) ->
  designated (window st) (lb_idx sel) = Some (Some l) ->
  IsAnnotationTypeInArray gAnnotsWithColor (Annotation.type a) = true ->
  1 <= dd_idx ev < 18 ->
  exists st1 st2,
    DropDownColorSelectionChanged SetColor st ev = Some st1 /\
    ListBoxSelectionChanged st1 sel = Some st2 /\
    annot (window st2) = Some l /\
    dropdown_isVisible (dropDownColor (window st2)) = true /\
    dropdown_currentSelection (dropDownColor (window st2)) = dd_idx ev.
Proof.
  intros Hset Hsel Hl Hlive Hdes Htype Hidx.
  destruct (DropDownColorSelectionChanged_eq SetColor st ev l a Hsel Hl Hlive
              ltac:(lia))
    as (b & col & Hrun & _ & Hcol & _).
  cbv zeta in Hrun. specialize (Hcol ltac:(lia)).
  destruct (Hset col) as (Hc & Ht & Hd).
  eexists _, _. split; [exact Hrun|].
  assert (Hlive1 : live_or_null (<[l := SetColor a col]> (heap st)) (Some l)).
  { simpl. rewrite lookup_insert_eq. eauto. }
  assert (Hdate1 : date_representable (<[l := SetColor a col]> (heap st)) (Some l)).
  { unfold date_representable. simpl. rewrite lookup_insert_eq. exact Hd. }
  rewrite (ListBoxSelectionChanged_written _ sel (Some l));
    [|exact Hdes|exact Hlive1|exact Hdate1].
  split; [reflexivity|]. cbn [heap window].
  destruct (selection_written_fields (<[l := SetColor a col]> (heap st)) (Some l)
              (upd_buttonSavePDF (ButtonCtrlM.SetIsEnabled b) (window st)) Hlive1)
    as (_ & _ & _ & _ & _ & _ & _ & HC & _ & _ & _ & Hp & _).
  rewrite Hp, HC. unfold color_picker_written. simpl deref.
  rewrite lookup_insert_eq. unfold Annotation.Type_, Annotation.Color.
  rewrite Ht, Htype, Hc. cbn.
  split; [reflexivity|]. split; [reflexivity|].
  rewrite (palette_index_selected col (Z.to_nat (dd_idx ev))); [lia|lia|].
  rewrite (palette_values_opaque (Z.to_nat (dd_idx ev)) col); [exact Hcol|lia|exact Hcol].
Qed.

Lemma color_edit_then_selection_witness :
  exists st1 st2,
    DropDownColorSelectionChanged (H := sample_platform) Annotation.SetColor
      sample_selected (mkDropDownSelectionChangedEvent 6 "Green") = Some st1 /\
    ListBoxSelectionChanged (H := sample_platform) st1
      (mkListBoxSelectionChangedEvent 0 EmptyString) = Some st2 /\
    annot (window st2) = Some 0%nat /\
    dropdown_isVisible (dropDownColor (window st2)) = true /\
    dropdown_currentSelection (dropDownColor (window st2)) = 6.
Proof.
  refine (color_edit_then_selection (H := sample_platform) Annotation.SetColor
            sample_selected (mkDropDownSelectionChangedEvent 6 "Green")
            (mkListBoxSelectionChangedEvent 0 EmptyString) 0%nat
            (sample_annotation Text "Note" 0xff0000ff EmptyString) _ _ _ _ _ _ _).
  - intros c. split; [reflexivity|]. split; [reflexivity|]. left. reflexivity.
  - reflexivity.
  - reflexivity.
  - repeat constructor; simpl; eexists; reflexivity.
  - reflexivity.
  - reflexivity.
  - simpl. lia.
Defined.

(** X15.  Choosing an entry of the icon picker and then selecting the
    edited annotation again shows the icon picker with that entry
    selected: the item at place [k] of the table of the annotation's type
    is found again at place [k], provided the setter stores the name it is
    given, keeps the type, and leaves a modification date that can be shown
    (0, or a time that [gmtime] breaks down). *)
Theorem icon_edit_then_selection `{Platform}
    (SetIconName : Annotation.t -> string -> Annotation.t)
    (st : State) (ev : DropDownSelectionChangedEvent)
    (sel : ListBoxSelectionChangedEvent) (l : loc) (a : Annotation.t)
    (icons : string) (k : nat) :
  (forall s : string, Annotation.iconName (SetIconName a s) = s /\
                      Annotation.type (SetIconName a s) = Annotation.type a /\
                      (Annotation.modificationDate (SetIconName a s) = 0 \/
                       is_Some (gmtime (Annotation.modificationDate (SetIconName a s))))) ->
  annot (window st) = Some l ->
  heap st !! l = Some a ->
  annotations_live (heap st) (window st) ->
  designated (window st) (lb_idx sel) = Some (Some l) ->
  icons_of_type (Annotation.type a) = Some icons ->
  DropDownItemsFromStringArray [] icons !! k = Some (dd_item ev) ->
  exists st1 st2,
    DropDownIconSelectionChanged SetIconName st ev = Some st1 /\
    ListBoxSelectionChanged st1 sel = Some st2 /\
    annot (window st2) = Some l /\
    dropdown_isVisible (dropDownIcon (window st2)) = true /\
    dropdown_items (dropDownIcon (window st2)) = DropDownItemsFromStringArray [] icons /\
    dropdown_currentSelection (dropDownIcon (window st2)) = Z.of_nat k.
Proof.
  intros Hset Hsel Hl Hlive Hdes Hicons Hk.
  destruct (DropDownIconSelectionChanged_eq SetIconName st ev l a Hsel Hl Hlive)
    as (b & Hrun & _).
  cbv zeta in Hrun.
  destruct (Hset (dd_item ev)) as (Hn & Ht & Hd).
  destruct (icon_table_index _ _ _ _ Hicons Hk) as [Hfind Hne].
  eexists _, _. split; [exact Hrun|].
  assert (Hlive1 : live_or_null (<[l := SetIconName a (dd_item ev)]> (heap st)) (Some l)).
  { simpl. rewrite lookup_insert_eq. eauto. }
  assert (Hdate1 : date_representable (<[l := SetIconName a (dd_item ev)]> (heap st))
                     (Some l)).
  { unfold date_representable. simpl. rewrite lookup_insert_eq. exact Hd. }
  rewrite (ListBoxSelectionChanged_written _ sel (Some l));
    [|exact Hdes|exact Hlive1|exact Hdate1].
  split; [reflexivity|]. cbn [heap window].
  destruct (selection_written_fields (<[l := SetIconName a (dd_item ev)]> (heap st))
              (Some l)
              (upd_buttonSavePDF (ButtonCtrlM.SetIsEnabled b) (window st)) Hlive1)
    as (_ & _ & _ & _ & _ & HI & _ & _ & _ & _ & _ & Hp & _).
  rewrite Hp, HI. unfold icon_picker_written, icons_offered. simpl deref.
  rewrite lookup_insert_eq. unfold Annotation.IconName.
  rewrite Hn, Ht, Hne, Hicons. cbn. rewrite Hfind. auto.
Qed.

Lemma icon_edit_then_selection_witness :
  exists st1 st2,
    DropDownIconSelectionChanged Annotation.SetIconName sample_selected
      (mkDropDownSelectionChangedEvent 3 "Key") = Some st1 /\
    ListBoxSelectionChanged (H := sample_platform) st1
      (mkListBoxSelectionChangedEvent 0 EmptyString) = Some st2 /\
    annot (window st2) = Some 0%nat /\
    dropdown_isVisible (dropDownIcon (window st2)) = true /\
    dropdown_items (dropDownIcon (window st2)) =
      DropDownItemsFromStringArray [] gTextIcons /\
    dropdown_currentSelection (dropDownIcon (window st2)) = 3.
Proof.
  refine (icon_edit_then_selection (H := sample_platform) Annotation.SetIconName
            sample_selected (mkDropDownSelectionChangedEvent 3 "Key")
            (mkListBoxSelectionChangedEvent 0 EmptyString) 0%nat
            (sample_annotation Text "Note" 0xff0000ff EmptyString)
            gTextIcons 3%nat _ _ _ _ _ _ _).
  - intros s. split; [reflexivity|]. split; [reflexivity|]. left. reflexivity.
  - reflexivity.
  - reflexivity.
  - repeat constructor; simpl; eexists; reflexivity.
  - reflexivity.
  - reflexivity.
  - reflexivity.
Defined.

(** ** The scan for changed annotations *)

Lemma didChange_loop_prefix (h : gmap loc Annotation.t) (v1 rest : list ptr) :
  Forall (unmarked h) v1 ->
  didChange_loop h (v1 ++ rest) = didChange_loop h rest.
Proof.
  induction 1 as [|p v1 (a & Ha & Hc & Hd) _ IH]; [reflexivity|].
  simpl. rewrite Ha. simpl. rewrite Hc, Hd. simpl. exact IH.
Qed.

(** X16.  [EnableSaveIfAnnotationsChanged] disables the save button for a
    panel without a list or with an empty one.  It reads the list in order
    and stops at the first marked annotation: the pointers after it are not
    read, so the button is enabled even if one of them dangles, while a
    dangling pointer before any marked annotation leaves the function
    without result. *)
Theorem EnableSaveIfAnnotationsChanged_scan (h : gmap loc Annotation.t)
    (w : EditAnnotationsWindow) :
  (annotations w = None \/ annotations w = Some [] ->
   EnableSaveIfAnnotationsChanged h w =
     Some (upd_buttonSavePDF (ButtonCtrlM.SetIsEnabled false) w)) /\
  (forall (v1 v2 : list ptr) (p : ptr) (a : Annotation.t),
      annotations w = Some (v1 ++ p :: v2) ->
      Forall (unmarked h) v1 ->
      deref h p = Some a ->
      Annotation.isChanged a = true \/ Annotation.isDeleted a = true ->
      EnableSaveIfAnnotationsChanged h w =
        Some (upd_buttonSavePDF (ButtonCtrlM.SetIsEnabled true) w)) /\
  (forall (v1 v2 : list ptr) (p : ptr),
      annotations w = Some (v1 ++ p :: v2) ->
      Forall (unmarked h) v1 ->
      deref h p = None ->
      EnableSaveIfAnnotationsChanged h w = None) /\
  (forall v : list ptr,
      annotations w = Some v ->
      Forall (unmarked h) v ->
      EnableSaveIfAnnotationsChanged h w =
        Some (upd_buttonSavePDF (ButtonCtrlM.SetIsEnabled false) w)).
Proof.
  unfold EnableSaveIfAnnotationsChanged. repeat split.
  - intros [->| ->]; reflexivity.
  - intros v1 v2 p a -> Hv1 Ha Hmark.
    rewrite (didChange_loop_prefix h v1 (p :: v2) Hv1). simpl. rewrite Ha. simpl.
    replace (Annotation.isChanged a || Annotation.isDeleted a) with true; [reflexivity|].
    symmetry. apply orb_true_iff. exact Hmark.
  - intros v1 v2 p -> Hv1 Hp.
    rewrite (didChange_loop_prefix h v1 (p :: v2) Hv1). simpl. rewrite Hp. reflexivity.
  - intros v -> Hv.
    rewrite <- (app_nil_r v), (didChange_loop_prefix h v [] Hv). reflexivity.
Qed.

(** X16 on a list whose second pointer is marked deleted and whose third
    pointer dangles. *)
Lemma EnableSaveIfAnnotationsChanged_scan_witness :
  EnableSaveIfAnnotationsChanged
    (<[1%nat := Annotation.mk Ink 1 EmptyString 0 (-1) EmptyString EmptyString 0
                  false true true]> sample_heap)
    (CreateMainLayout (Some [Some 0%nat; Some 1%nat; Some 7%nat])) =
  Some (upd_buttonSavePDF (ButtonCtrlM.SetIsEnabled true)
          (CreateMainLayout (Some [Some 0%nat; Some 1%nat; Some 7%nat]))).
Proof.
  refine (proj1 (proj2 (EnableSaveIfAnnotationsChanged_scan _ _))
            [Some 0%nat] [Some 7%nat] (Some 1%nat) _ _ _ _ _).
  - reflexivity.
  - repeat constructor. eexists. repeat split; reflexivity.
  - reflexivity.
  - now right.
Defined.

(** ** The tables of names, for any memory *)

Lemma SkipStr_shorter (s : string) :
  (String.length (seqstrings.SkipStr s) <= String.length s)%nat.
Proof.
  induction s as [|c r IH]; simpl; [lia|]. destruct (is_nul c); lia.
Qed.

Lemma DropDownItemsFromStringArray_acc (n : nat) :
  forall (strings : string) (items : list string),
    (String.length strings <= n)%nat ->
    DropDownItemsFromStringArray items strings =
    items ++ DropDownItemsFromStringArray [] strings.
Proof.
  induction n as [|n IH]; intros strings items Hn.
  - destruct strings; [|simpl in Hn; lia].
    simp DropDownItemsFromStringArray. now rewrite app_nil_r.
  - destruct strings as [|c r].
    + simp DropDownItemsFromStringArray. now rewrite app_nil_r.
    + simp DropDownItemsFromStringArray.
      destruct (is_nul c) eqn:Hc; [now rewrite app_nil_r|].
      assert (Hlen : (String.length (seqstrings.SkipStr (String c r)) <= n)%nat).
      { simpl. rewrite Hc. pose proof (SkipStr_shorter r). simpl in Hn. lia. }
      rewrite (IH _ (items ++ [cstr (String c r)]) Hlen),
        (IH _ ([] ++ [cstr (String c r)]) Hlen).
      now rewrite <- app_assoc.
Qed.

Lemma FindStringInArray_loop_items (n : nat) :
  forall (items : string) (t : string) (d i : Z),
    (String.length items <= n)%nat ->
    FindStringInArray_loop items (Some t) d i =
    match first_index (cstr t) (DropDownItemsFromStringArray [] items) with
    | Some k => i + Z.of_nat k
    | None => d
    end.
Proof.
  induction n as [|n IH]; intros items t d i Hn.
  - destruct items; [|simpl in Hn; lia].
    simp FindStringInArray_loop DropDownItemsFromStringArray. reflexivity.
  - destruct items as [|c r].
    + simp FindStringInArray_loop DropDownItemsFromStringArray. reflexivity.
    + simp FindStringInArray_loop DropDownItemsFromStringArray.
      destruct (is_nul c) eqn:Hc; [reflexivity|].
      assert (Hlen : (String.length (seqstrings.SkipStr (String c r)) <= n)%nat).
      { simpl. rewrite Hc. pose proof (SkipStr_shorter r). simpl in Hn. lia. }
      rewrite (DropDownItemsFromStringArray_acc n _ _ Hlen).
      cbn [app first_index]. unfold str.Eq.
      destruct (String.eqb (cstr (String c r)) (cstr t)); [simpl; lia|].
      rewrite (IH _ t d (i + 1) Hlen).
      destruct (first_index (cstr t) _); simpl; [lia|reflexivity].
Qed.

(** X17.  On any memory, [FindStringInArray] and
    [DropDownItemsFromStringArray] read the same table: the index returned
    for a string is the first place of that string among the items, and
    the fallback value is returned exactly when the string is not an item.
    With the default fallback -1, a result that is not negative is a place
    where the items hold the string. *)
Theorem FindStringInArray_agrees_with_items (items t : string) (d : Z) :
  FindStringInArray items (Some t) d =
    match first_index (cstr t) (DropDownItemsFromStringArray [] items) with
    | Some k => Z.of_nat k
    | None => d
    end /\
  (FindStringInArray items (Some t) (-1) = -1 <->
   ~ In (cstr t) (DropDownItemsFromStringArray [] items)) /\
  (forall k : nat,
      FindStringInArray items (Some t) (-1) = Z.of_nat k ->
      DropDownItemsFromStringArray [] items !! k = Some (cstr t)).
Proof.
  assert (Heq : forall d', FindStringInArray items (Some t) d' =
    match first_index (cstr t) (DropDownItemsFromStringArray [] items) with
    | Some k => Z.of_nat k
    | None => d'
    end).
  { intros d'. unfold FindStringInArray.
    rewrite (FindStringInArray_loop_items (String.length items)) by lia.
    destruct (first_index _ _); [lia|reflexivity]. }
  split; [apply Heq|]. rewrite (Heq (-1)).
  destruct (first_index (cstr t) (DropDownItemsFromStringArray [] items)) as [k|] eqn:Hk.
  - apply first_index_Some in Hk as [Hk _]. split.
    + split; [lia|]. intros Hno. exfalso. apply Hno.
      apply list_elem_of_In. eapply list_elem_of_lookup_2. exact Hk.
    + intros k' Hk'. assert (k' = k) as -> by lia. exact Hk.
  - apply first_index_None in Hk. split; [tauto|]. intros k' Hk'. lia.
Qed.

(** X18.  [DropDownItemsFromStringArray] only appends: the items already in
    the vector stay in front, in order; the strings it adds are never empty
    and hold no NUL, and there are at most as many as the memory has
    characters. *)
Theorem DropDownItemsFromStringArray_appends (items : list string) (strings : string) :
  DropDownItemsFromStringArray items strings =
    items ++ DropDownItemsFromStringArray [] strings /\
  Forall (fun s => name_ok s = true) (DropDownItemsFromStringArray [] strings) /\
  (length (DropDownItemsFromStringArray [] strings) <= String.length strings)%nat.
Proof.
  split; [apply (DropDownItemsFromStringArray_acc (String.length strings)); lia|].
  assert (Hcstr : forall s, nul_free (cstr s) = true).
  { clear. intros s. induction s as [|c r IH]; simpl; [reflexivity|].
    destruct (is_nul c) eqn:Hc; simpl; [reflexivity|]. now rewrite Hc. }
  remember (String.length strings) as n eqn:Hn.
  assert (Hle : (String.length strings <= n)%nat) by lia. clear Hn.
  revert strings Hle. induction n as [|n IH]; intros strings Hle.
  - destruct strings; [|simpl in Hle; lia].
    simp DropDownItemsFromStringArray. split; [constructor|simpl; lia].
  - destruct strings as [|c r].
    + simp DropDownItemsFromStringArray. split; [constructor|simpl; lia].
    + simp DropDownItemsFromStringArray.
      destruct (is_nul c) eqn:Hc; [split; [constructor|simpl; lia]|].
      assert (Hlen : (String.length (seqstrings.SkipStr (String c r)) <= n)%nat).
      { simpl. rewrite Hc. pose proof (SkipStr_shorter r). simpl in Hle. lia. }
      rewrite (DropDownItemsFromStringArray_acc n _ _ Hlen).
      destruct (IH _ Hlen) as [Hall Hcount].
      split.
      * apply Forall_app. split; [|exact Hall].
        constructor; [|constructor]. unfold name_ok.
        rewrite Hcstr. simpl. now rewrite Hc.
      * rewrite length_app. cbn [app length]. lia.
Qed.

(** X19.  Two colours are given the same palette name only if they differ
    at most in their alpha byte. *)
Theorem GetKnownColorName_injective `{Platform} (c c' : Z) (s s' : string) :
  GetKnownColorName c = Some s ->
  GetKnownColorName c' = Some s' ->
  cstr s = cstr s' ->
  ColorSetAlpha c 0xff = ColorSetAlpha c' 0xff.
Proof.
  intros Hs Hs' Hname.
  apply GetKnownColorName_inv in Hs as (i & Hi & Hval & Hidx).
  apply GetKnownColorName_inv in Hs' as (j & Hj & Hval' & Hidx').
  pose proof (IdxToStr_gColors i ltac:(lia)) as Hni. rewrite Hidx in Hni.
  pose proof (IdxToStr_gColors j ltac:(lia)) as Hnj. rewrite Hidx' in Hnj.
  simpl in Hni, Hnj. rewrite Hname in Hni. rewrite Hni in Hnj.
  assert (i = j) as ->.
  { clear - Hi Hj Hnj. destruct i as [|i]; [lia|]. destruct j as [|j]; [lia|].
    do 17 (destruct i as [|i];
           [do 17 (destruct j as [|j];
                   [first [reflexivity | discriminate Hnj]|]); lia|]).
    lia. }
  rewrite Hval in Hval'. now injection Hval'.
Qed.

Lemma GetKnownColorName_injective_witness :
  ColorSetAlpha 0x00808080 0xff = ColorSetAlpha 0x12808080 0xff.
Proof.
  destruct (GetKnownColorName (H := sample_platform) 0x00808080) as [s|] eqn:Hs;
    [|vm_compute in Hs; discriminate Hs].
  destruct (GetKnownColorName (H := sample_platform) 0x12808080) as [s'|] eqn:Hs';
    [|vm_compute in Hs'; discriminate Hs'].
  refine (GetKnownColorName_injective (H := sample_platform) _ _ s s' Hs Hs' _).
  vm_compute in Hs, Hs'. injection Hs as <-. injection Hs' as <-. reflexivity.
Defined.

(** * Further properties of the edit control *)

(** X20.  [HandleWM_COMMAND] has no result for a message that is not
    [WM_COMMAND].  When it returns it has called the callback at most once,
    and it has called it exactly when the notification is [EN_CHANGE] and a
    callback is registered; it never alters the window, message or
    parameters of the event, and an event for which nothing was called is
    handed back as it came. *)
Theorem HandleWM_COMMAND_calls (w : EditCtrl) (ev : WndEvent) :
  (msg ev <> WM_COMMAND -> HandleWM_COMMAND w ev = None) /\
  (forall (ev' : WndEvent) (calls : list EditTextChangedEvent),
      HandleWM_COMMAND w ev = Some (ev', calls) ->
      (length calls <= 1)%nat /\
      (calls <> [] <->
       HIWORD (wparam ev) = EN_CHANGE /\ is_Some (OnTextChanged w)) /\
      hwnd ev' = hwnd ev /\ msg ev' = msg ev /\
      wparam ev' = wparam ev /\ lparam ev' = lparam ev /\
      (calls = [] -> ev' = ev)).
Proof.
  unfold HandleWM_COMMAND. split.
  - intros Hmsg. destruct (Z.eqb_spec (msg ev) WM_COMMAND); [contradiction|reflexivity].
  - intros ev' calls.
    destruct (Z.eqb_spec (msg ev) WM_COMMAND); [|discriminate]. cbn [negb].
    destruct (Z.eqb_spec EN_CHANGE (HIWORD (wparam ev))) as [Hcode|Hcode].
    + destruct (OnTextChanged w) as [callback|]; intros Hrun;
        injection Hrun as <- <-; cbn.
      * split; [lia|]. split; [|repeat split; discriminate].
        split; [intros _; split; [congruence|eauto]|discriminate].
      * split; [lia|]. split; [|repeat split; reflexivity].
        split; [congruence|]. intros [_ [x Hx]]. discriminate.
    + intros Hrun. injection Hrun as <- <-. cbn.
      split; [lia|]. split; [|repeat split; reflexivity].
      split; [congruence|]. intros [Heq _]. congruence.
Qed.

Lemma HandleWM_COMMAND_calls_witness :
  HandleWM_COMMAND sample_edit (mkWndEvent 1 WM_COMMAND 0x01000007 0 false 0) =
  Some (mkWndEvent 1 WM_COMMAND 0x01000007 0 false 0, []).
Proof.
  destruct (HandleWM_COMMAND sample_edit (mkWndEvent 1 WM_COMMAND 0x01000007 0 false 0))
    as [[ev' calls]|] eqn:Hrun; [|vm_compute in Hrun; discriminate Hrun].
  destruct (proj2 (HandleWM_COMMAND_calls sample_edit
                     (mkWndEvent 1 WM_COMMAND 0x01000007 0 false 0)) ev' calls Hrun)
    as (_ & Hiff & _ & _ & _ & _ & Hsame).
  destruct calls as [|a rest].
  - now rewrite (Hsame eq_refl).
  - destruct (proj1 Hiff ltac:(discriminate)) as [Hcode _]. discriminate Hcode.
Defined.

(** X21.  [HandleWM_CTLCOLOREDIT] answers a colour request of its own
    control exactly when the control has a background brush: the event is
    then handled with the brush as result, the background mode is set to
    transparent, and the text colour is set only when it is not
    [ColorUnset]; without a brush nothing is drawn and the event is left as
    it came.  A request that names another control has no result. *)
Theorem HandleWM_CTLCOLOREDIT_brush `{Platform} (w : EditCtrlWin) (ev : WndEvent) :
  msg ev = WM_CTLCOLOREDIT ->
  (lparam ev <> ec_hwnd w -> EditCtrlNative.HandleWM_CTLCOLOREDIT w ev = None) /\
  (lparam ev = ec_hwnd w ->
   exists (ev' : WndEvent) (calls : list GdiCall),
     EditCtrlNative.HandleWM_CTLCOLOREDIT w ev = Some (ev', calls) /\
     (ec_bgBrush w = 0 -> ev' = ev /\ calls = []) /\
     (ec_bgBrush w <> 0 ->
      didHandle ev' = true /\ result ev' = ec_bgBrush w /\
      calls = SetBkMode (wparam ev) TRANSPARENT ::
              (if ec_textColor w =? ColorUnset then []
               else [SetTextColor (wparam ev) (ec_textColor w)]))).
Proof.
  intros Hmsg. unfold EditCtrlNative.HandleWM_CTLCOLOREDIT.
  rewrite Hmsg, Z.eqb_refl. cbn [negb]. split.
  - intros Hne. destruct (Z.eqb_spec (lparam ev) (ec_hwnd w)); [contradiction|reflexivity].
  - intros Heq. rewrite Heq, Z.eqb_refl. cbn [negb].
    destruct (Z.eqb_spec (ec_bgBrush w) 0) as [Hb|Hb].
    + exists ev, []. split; [reflexivity|]. split; [auto|contradiction].
    + eexists _, _. split; [reflexivity|]. split; [contradiction|]. intros _.
      cbn. destruct (ec_textColor w =? ColorUnset); auto.
Qed.

Lemma HandleWM_CTLCOLOREDIT_brush_witness :
  exists ev',
    EditCtrlNative.HandleWM_CTLCOLOREDIT (H := sample_platform)
      (mkEditCtrlWin 42 0 false true 1 EmptyString 77 0x000000ff [] [])
      (mkWndEvent 1 WM_CTLCOLOREDIT 9 42 false 0) =
    Some (ev', [SetBkMode 9 TRANSPARENT; SetTextColor 9 0x000000ff]) /\
    didHandle ev' = true /\ result ev' = 77.
Proof.
  destruct (proj2 (HandleWM_CTLCOLOREDIT_brush (H := sample_platform)
                     (mkEditCtrlWin 42 0 false true 1 EmptyString 77 0x000000ff [] [])
                     (mkWndEvent 1 WM_CTLCOLOREDIT 9 42 false 0) eq_refl) eq_refl)
    as (ev' & calls & Hrun & _ & Hbrush).
  destruct (Hbrush ltac:(discriminate)) as (Hh & Hr & Hcalls).
  exists ev'. rewrite Hrun, Hcalls. auto.
Defined.

Lemma land_lor_same (a m : Z) : Z.land (Z.lor a m) m = m.
Proof.
  apply Z.bits_inj'. intros n _. rewrite Z.land_spec, Z.lor_spec.
  destruct (Z.testbit a n), (Z.testbit m n); reflexivity.
Qed.

Lemma IsMaskSet_lor_same (a m : Z) : IsMaskSet (Z.lor a m) m = true.
Proof. unfold IsMaskSet. rewrite land_lor_same. apply Z.eqb_refl. Qed.

Lemma IsMaskSet_lor_disjoint (a b m : Z) :
  Z.land b m = 0 -> IsMaskSet (Z.lor a b) m = IsMaskSet a m.
Proof.
  intros Hd. unfold IsMaskSet. now rewrite Z.land_lor_distr_l, Hd, Z.lor_0_r.
Qed.

Lemma IsMaskSet_lor_more (a b m : Z) :
  Z.land b m = m -> IsMaskSet (Z.lor a b) m = true.
Proof.
  intros Hd. unfold IsMaskSet. rewrite Z.land_lor_distr_l, Hd.
  replace (Z.lor (Z.land a m) m) with m; [apply Z.eqb_refl|].
  apply Z.bits_inj'. intros n _. rewrite Z.lor_spec, Z.land_spec.
  destruct (Z.testbit a n), (Z.testbit m n); reflexivity.
Qed.

(** X22.  [EditCtrl::Create] only adds style bits.  It records whether the
    style had [WS_BORDER] when it was called, which is so for a control
    that comes from the constructor.  A multi-line control gets
    [ES_MULTILINE], [WS_VSCROLL] and [ES_WANTRETURN] and never
    [ES_AUTOHSCROLL]; a single-line control gets [ES_AUTOHSCROLL] and never
    [ES_MULTILINE].  When the window cannot be created the result is
    [false] and no handler is registered; otherwise the handle is stored
    and the handlers of [WM_COMMAND] and [WM_CTLCOLOREDIT] are registered. *)
Theorem Create_style (WindowBase_Create : Z -> option Z)
    (Edit_SetCueBannerText : Z -> string -> bool) (w : EditCtrlWin) :
  let r := EditCtrlNative.Create WindowBase_Create Edit_SetCueBannerText w in
  let w' := fst r in
  Z.land (ec_dwStyle w') (ec_dwStyle w) = ec_dwStyle w /\
  ec_hasBorder w' = IsMaskSet (ec_dwStyle w) WS_BORDER /\
  ec_hasBorder
    (fst (EditCtrlNative.Create WindowBase_Create Edit_SetCueBannerText
            (EditCtrlNative.EditCtrl_ctor w))) = true /\
  (if ec_isMultiLine w
   then IsMaskSet (ec_dwStyle w') ES_MULTILINE = true /\
        IsMaskSet (ec_dwStyle w') WS_VSCROLL = true /\
        IsMaskSet (ec_dwStyle w') ES_WANTRETURN = true /\
        IsMaskSet (ec_dwStyle w') ES_AUTOHSCROLL = IsMaskSet (ec_dwStyle w) ES_AUTOHSCROLL
   else IsMaskSet (ec_dwStyle w') ES_AUTOHSCROLL = true /\
        IsMaskSet (ec_dwStyle w') ES_MULTILINE = IsMaskSet (ec_dwStyle w) ES_MULTILINE) /\
  match WindowBase_Create (ec_dwStyle w') with
  | None =>
      snd r = false /\ ec_hwnd w' = ec_hwnd w /\
      ec_handlers w' = ec_handlers w /\ ec_cueBanners w' = ec_cueBanners w
  | Some h =>
      snd r = true /\ ec_hwnd w' = h /\
      ec_handlers w' = ec_handlers w ++ [WM_COMMAND; WM_CTLCOLOREDIT]
  end.
Proof.
  cbv zeta.
  assert (Hstyle : forall w0,
    ec_dwStyle (fst (EditCtrlNative.Create WindowBase_Create Edit_SetCueBannerText w0)) =
    if ec_isMultiLine w0
    then Z.lor (ec_dwStyle w0) (Z.lor (Z.lor ES_MULTILINE WS_VSCROLL) ES_WANTRETURN)
    else Z.lor (ec_dwStyle w0) ES_AUTOHSCROLL).
  { intros w0. unfold EditCtrlNative.Create, EditCtrlNative.EditSetCueText.
    destruct (WindowBase_Create _) as [h|]; cbn; [|reflexivity].
    destruct (h =? 0); reflexivity. }
  assert (Hborder : forall w0,
    ec_hasBorder (fst (EditCtrlNative.Create WindowBase_Create Edit_SetCueBannerText w0)) =
    IsMaskSet (ec_dwStyle w0) WS_BORDER).
  { intros w0. unfold EditCtrlNative.Create, EditCtrlNative.EditSetCueText.
    destruct (WindowBase_Create _) as [h|]; cbn; [|reflexivity].
    destruct (h =? 0); reflexivity. }
  split; [|split; [apply Hborder|split; [|split]]].
  - rewrite Hstyle. destruct (ec_isMultiLine w);
      rewrite Z.land_comm, Z.land_lor_distr_r, Z.land_diag;
      apply Z.bits_inj'; intros n _; rewrite Z.lor_spec, Z.land_spec;
      destruct (Z.testbit (ec_dwStyle w) n); reflexivity.
  - rewrite Hborder. apply IsMaskSet_lor_same.
  - rewrite Hstyle. destruct (ec_isMultiLine w).
    + repeat split.
      * apply IsMaskSet_lor_more. reflexivity.
      * apply IsMaskSet_lor_more. reflexivity.
      * apply IsMaskSet_lor_more. reflexivity.
      * apply IsMaskSet_lor_disjoint. reflexivity.
    + split; [apply IsMaskSet_lor_same|].
      apply IsMaskSet_lor_disjoint. reflexivity.
  - rewrite Hstyle. unfold EditCtrlNative.Create, EditCtrlNative.EditSetCueText.
    destruct (WindowBase_Create _) as [h|]; cbn.
    + destruct (h =? 0); cbn; auto.
    + auto.
Qed.

Lemma Create_style_witness :
  let r := EditCtrlNative.Create sample_create sample_banner
             (EditCtrlNative.EditCtrl_ctor sample_edit_win) in
  snd r = true /\
  ec_hwnd (fst r) = 42 /\
  ec_hasBorder (fst r) = true /\
  IsMaskSet (ec_dwStyle (fst r)) ES_MULTILINE = true /\
  IsMaskSet (ec_dwStyle (fst r)) ES_AUTOHSCROLL = false /\
  ec_handlers (fst r) = [WM_COMMAND; WM_CTLCOLOREDIT].
Proof.
  cbv zeta.
  destruct (Create_style sample_create sample_banner
              (EditCtrlNative.EditCtrl_ctor sample_edit_win))
    as (_ & Hb & _ & Hml & Hok).
  cbv zeta in Hml, Hok.
  change (ec_isMultiLine (EditCtrlNative.EditCtrl_ctor sample_edit_win)) with true in Hml.
  destruct Hml as (Hm & _ & _ & Ha).
  unfold sample_create at 1 in Hok. destruct Hok as (Hs & Hh & Hreg).
  rewrite Hs, Hh, Hb, Hm, Ha, Hreg. repeat split; reflexivity.
Defined.

(** X23.  A cue text set before the control is created is remembered but
    not shown: [SetCueText] returns [false] and makes no native call.
    [Create] then hands the remembered text to the native control.  On a
    created control [SetCueText] hands its text over at once and returns
    what the native call reports. *)
Theorem SetCueText_before_and_after_Create (WindowBase_Create : Z -> option Z)
    (Edit_SetCueBannerText : Z -> string -> bool) (w : EditCtrlWin) (s : string) :
  let before := EditCtrlNative.SetCueText Edit_SetCueBannerText w s in
  let created :=
    EditCtrlNative.Create WindowBase_Create Edit_SetCueBannerText (fst before) in
  (ec_hwnd w = 0 ->
   snd before = false /\
   ec_cueText (fst before) = s /\
   ec_cueBanners (fst before) = ec_cueBanners w /\
   (snd created = true -> ec_hwnd (fst created) <> 0 ->
    ec_cueBanners (fst created) = s :: ec_cueBanners w) /\
   (snd created = false -> ec_cueBanners (fst created) = ec_cueBanners w)) /\
  (ec_hwnd w <> 0 ->
   snd before = Edit_SetCueBannerText (ec_hwnd w) s /\
   ec_cueText (fst before) = s /\
   ec_cueBanners (fst before) = s :: ec_cueBanners w).
Proof.
  cbv zeta. unfold EditCtrlNative.SetCueText, EditCtrlNative.EditSetCueText. cbn.
  split.
  - intros Hnull. rewrite Hnull. cbn. do 3 (split; [reflexivity|]).
    unfold EditCtrlNative.Create, EditCtrlNative.EditSetCueText. cbn.
    destruct (WindowBase_Create _) as [h'|]; cbn.
    + destruct (Z.eqb_spec h' 0) as [->|Hne]; cbn.
      * split; [intros _ Hh; contradiction|discriminate].
      * split; [reflexivity|discriminate].
    + split; [discriminate|reflexivity].
  - intros Hlive. destruct (Z.eqb_spec (ec_hwnd w) 0); [contradiction|].
    cbn. repeat split.
Qed.

Lemma SetCueText_before_and_after_Create_witness :
  snd (EditCtrlNative.SetCueText sample_banner sample_edit_win "Search") = false /\
  ec_cueBanners
    (fst (EditCtrlNative.Create sample_create sample_banner
            (fst (EditCtrlNative.SetCueText sample_banner sample_edit_win "Search")))) =
  ["Search"%string].
Proof.
  destruct (proj1 (SetCueText_before_and_after_Create sample_create sample_banner
                     sample_edit_win "Search") eq_refl)
    as (Hr & _ & _ & Hcreate & _).
  split; [exact Hr|]. apply Hcreate; [reflexivity|discriminate].
Defined.

Lemma LOWORD_nonneg (x : Z) : 0 <= LOWORD x.
Proof. unfold LOWORD. apply Z.land_nonneg. right. lia. Qed.

Lemma HIWORD_nonneg (x : Z) : 0 <= HIWORD x.
Proof. unfold HIWORD. apply Z.land_nonneg. right. lia. Qed.

Lemma LOWORD_le (x : Z) : LOWORD x <= 0xffff.
Proof.
  unfold LOWORD. change 0xffff with (Z.ones 16). rewrite Z.land_ones by lia.
  change (Z.ones 16) with (2 ^ 16 - 1). pose proof (Z.mod_pos_bound x (2 ^ 16)). lia.
Qed.

Lemma HIWORD_le (x : Z) : HIWORD x <= 0xffff.
Proof.
  unfold HIWORD. change 0xffff with (Z.ones 16). rewrite Z.land_ones by lia.
  change (Z.ones 16) with (2 ^ 16 - 1).
  pose proof (Z.mod_pos_bound (Z.shiftr x 16) (2 ^ 16)). lia.
Qed.

Lemma int_of_Some (x y : Z) : int_of x = Some y <-> y = x /\ INT_MIN <= x <= INT_MAX.
Proof.
  unfold int_of.
  destruct (Z.leb_spec INT_MIN x), (Z.leb_spec x INT_MAX); cbn;
    split; try discriminate; try (intros [_ ?]; lia).
  - intros Hx. injection Hx as <-. lia.
  - intros [-> _]. reflexivity.
Qed.

Lemma int_of_None (x : Z) : int_of x = None <-> x < INT_MIN \/ INT_MAX < x.
Proof.
  unfold int_of.
  destruct (Z.leb_spec INT_MIN x), (Z.leb_spec x INT_MAX); cbn;
    split; try discriminate; try lia; auto.
Qed.

(** X24.  The ideal size of an edit control, for measured heights that are
    not negative, computed in [int].  When the function returns, the width
    holds the wider of the two measured texts, the margins and the border;
    the height is the number of lines times the smaller measured height, or
    times the larger one when the smaller is 0, so that without border it
    is 0 only for no line or two heights of 0; a border adds the same
    scaled four pixels to both; and both dimensions are in the range of
    [int].  The function returns when the number of lines is not negative,
    the measured widths are in the range of [int] and the two dimensions,
    computed exactly, do not exceed [INT_MAX]; it has no result when the
    height times the number of lines exceeds [INT_MAX]. *)
Theorem GetIdealSize_bounds (w : EditCtrlWin) (s1 s2 : Size) (margins dpi4 : Z) :
  0 <= size_dy s1 ->
  0 <= size_dy s2 ->
  0 <= dpi4 ->
  let border := if ec_hasBorder w then dpi4 else 0 in
  let height := if Z.min (size_dy s1) (size_dy s2) =? 0
                then Z.max (size_dy s1) (size_dy s2)
                else Z.min (size_dy s1) (size_dy s2) in
  (forall r : Size,
      EditCtrlNative.GetIdealSize w s1 s2 margins dpi4 = Some r ->
      size_dx r =
        Z.max (size_dx s1) (size_dx s2) + LOWORD margins + HIWORD margins + border /\
      size_dx s1 <= size_dx r /\ size_dx s2 <= size_dx r /\
      (0 < size_dy s1 -> 0 < size_dy s2 ->
       size_dy r = Z.min (size_dy s1) (size_dy s2) * ec_idealSizeLines w + border) /\
      (size_dy s1 = 0 \/ size_dy s2 = 0 ->
       size_dy r = Z.max (size_dy s1) (size_dy s2) * ec_idealSizeLines w + border) /\
      (size_dy r = border <->
       ec_idealSizeLines w = 0 \/ (size_dy s1 = 0 /\ size_dy s2 = 0)) /\
      INT_MIN <= size_dx r <= INT_MAX /\
      INT_MIN <= size_dy r <= INT_MAX) /\
  (INT_MIN <= size_dx s1 ->
   INT_MIN <= size_dx s2 ->
   0 <= ec_idealSizeLines w ->
   Z.max (size_dx s1) (size_dx s2) + LOWORD margins + HIWORD margins + border <= INT_MAX ->
   height * ec_idealSizeLines w + border <= INT_MAX ->
   is_Some (EditCtrlNative.GetIdealSize w s1 s2 margins dpi4)) /\
  (INT_MAX < height * ec_idealSizeLines w ->
   EditCtrlNative.GetIdealSize w s1 s2 margins dpi4 = None).
Proof.
  intros H1 H2 Hd. cbv zeta. unfold EditCtrlNative.GetIdealSize.
  pose proof (LOWORD_nonneg margins) as Hl0. pose proof (HIWORD_nonneg margins) as Hh0.
  pose proof (LOWORD_le margins) as Hl1. pose proof (HIWORD_le margins) as Hh1.
  set (height := if Z.min (size_dy s1) (size_dy s2) =? 0
                 then Z.max (size_dy s1) (size_dy s2)
                 else Z.min (size_dy s1) (size_dy s2)).
  assert (Hheight : 0 <= height /\
            (0 < size_dy s1 -> 0 < size_dy s2 -> height = Z.min (size_dy s1) (size_dy s2)) /\
            (size_dy s1 = 0 \/ size_dy s2 = 0 ->
             height = Z.max (size_dy s1) (size_dy s2)) /\
            (height = 0 <-> size_dy s1 = 0 /\ size_dy s2 = 0)).
  { unfold height.
    destruct (Z.eqb_spec (Z.min (size_dy s1) (size_dy s2)) 0); repeat split; lia. }
  destruct Hheight as (Hh & Hmin & Hmax & Hzero).
  clearbody height.
  assert (Hmargin : int_of (LOWORD margins + HIWORD margins) =
                    Some (LOWORD margins + HIWORD margins)).
  { apply int_of_Some. unfold INT_MIN, INT_MAX. lia. }
  rewrite Hmargin. split; [|split].
  - intros r Hrun.
    destruct (int_of (height * ec_idealSizeLines w)) as [dy|] eqn:Hdy; [|discriminate].
    apply int_of_Some in Hdy as [-> Hdy]. cbn [mbind option_bind] in Hrun.
    destruct (int_of (Z.max (size_dx s1) (size_dx s2) +
                      (LOWORD margins + HIWORD margins))) as [dx|] eqn:Hdx;
      [|discriminate].
    apply int_of_Some in Hdx as [-> Hdx]. cbn [mbind option_bind] in Hrun.
    destruct (ec_hasBorder w).
    + destruct (int_of (Z.max (size_dx s1) (size_dx s2) +
                        (LOWORD margins + HIWORD margins) + dpi4)) as [dx|] eqn:Hdx';
        [|discriminate].
      apply int_of_Some in Hdx' as [-> Hdx']. cbn [mbind option_bind] in Hrun.
      destruct (int_of (height * ec_idealSizeLines w + dpi4)) as [dy|] eqn:Hdy';
        [|discriminate].
      apply int_of_Some in Hdy' as [-> Hdy']. cbn [mbind option_bind] in Hrun.
      injection Hrun as <-. cbn [size_dx size_dy].
      split; [lia|]. split; [lia|]. split; [lia|].
      split; [intros; rewrite <- Hmin by assumption; reflexivity|].
      split; [intros; rewrite <- Hmax by assumption; reflexivity|].
      split; [|split; assumption].
      split; [intros; assert (height * ec_idealSizeLines w = 0) by lia; nia|].
      intros [->|Hz]; [lia|]. apply Hzero in Hz. rewrite Hz. lia.
    + injection Hrun as <-. cbn [size_dx size_dy].
      split; [lia|]. split; [lia|]. split; [lia|].
      split; [intros; rewrite <- Hmin by assumption; lia|].
      split; [intros; rewrite <- Hmax by assumption; lia|].
      split; [|split; assumption].
      split; [intros; assert (height * ec_idealSizeLines w = 0) by lia; nia|].
      intros [->|Hz]; [lia|]. apply Hzero in Hz. rewrite Hz. lia.
  - intros Hx1 Hx2 Hlines Hdx Hdy.
    assert (Hprod : 0 <= height * ec_idealSizeLines w) by nia.
    assert (Hborder : 0 <= (if ec_hasBorder w then dpi4 else 0))
      by (destruct (ec_hasBorder w); lia).
    rewrite (proj2 (int_of_Some (height * ec_idealSizeLines w) _))
      by (split; [reflexivity|unfold INT_MIN in *; lia]).
    cbn [mbind option_bind].
    rewrite (proj2 (int_of_Some (Z.max (size_dx s1) (size_dx s2) +
                                 (LOWORD margins + HIWORD margins)) _))
      by (split; [reflexivity|unfold INT_MIN in *; lia]).
    cbn [mbind option_bind].
    destruct (ec_hasBorder w); [|eauto].
    rewrite (proj2 (int_of_Some (Z.max (size_dx s1) (size_dx s2) +
                                 (LOWORD margins + HIWORD margins) + dpi4) _))
      by (split; [reflexivity|unfold INT_MIN in *; lia]).
    cbn [mbind option_bind].
    rewrite (proj2 (int_of_Some (height * ec_idealSizeLines w + dpi4) _))
      by (split; [reflexivity|unfold INT_MIN in *; lia]).
    cbn [mbind option_bind]. eauto.
  - intros Hover.
    rewrite (proj2 (int_of_None (height * ec_idealSizeLines w))) by (right; exact Hover).
    reflexivity.
Qed.

(** X24 on a control of five lines with a border: the size is 59 by 84;
    with 2^28 lines of height 16 the product leaves the range of [int]. *)
Lemma GetIdealSize_bounds_witness :
  EditCtrlNative.GetIdealSize
    (mkEditCtrlWin 42 0 true true 5 EmptyString 0 0 [] [])
    (mkSize 50 16) (mkSize 0 0) 0x00030002 4 = Some (mkSize 59 84) /\
  EditCtrlNative.GetIdealSize
    (mkEditCtrlWin 42 0 true true (2 ^ 28) EmptyString 0 0 [] [])
    (mkSize 50 16) (mkSize 0 0) 0x00030002 4 = None.
Proof.
  split.
  - destruct (GetIdealSize_bounds
                (mkEditCtrlWin 42 0 true true 5 EmptyString 0 0 [] [])
                (mkSize 50 16) (mkSize 0 0) 0x00030002 4
                ltac:(simpl; lia) ltac:(simpl; lia) ltac:(lia))
      as (Hsize & Hsome & _).
    destruct Hsome as [r Hr]; try (vm_compute; discriminate).
    destruct (Hsize r Hr) as (Hdx & _ & _ & _ & Hdy & _).
    specialize (Hdy ltac:(right; reflexivity)).
    rewrite Hr. destruct r as [dx dy]. cbn in Hdx, Hdy. now rewrite Hdx, Hdy.
  - apply (GetIdealSize_bounds
             (mkEditCtrlWin 42 0 true true (2 ^ 28) EmptyString 0 0 [] [])
             (mkSize 50 16) (mkSize 0 0) 0x00030002 4
             ltac:(simpl; lia) ltac:(simpl; lia) ltac:(lia)).
    vm_compute. reflexivity.
Defined.

(** * Opening and closing the panel *)

Lemma delete_owned_spec (v : list ptr) :
  forall h : gmap loc Annotation.t,
    NoDup v ->
    Forall (fun p => is_Some (deref h p)) v ->
    exists h',
      delete_owned h v = Some h' /\
      forall l : loc,
        h' !! l =
        match h !! l with
        | Some a => if Annotation.pdf a && bool_decide (Some l ∈ v)
                    then None else Some a
        | None => None
        end.
Proof.
  induction v as [|p rest IH]; intros h Hnd Hlive.
  - exists h. split; [reflexivity|]. intros l.
    destruct (h !! l) as [a|]; [|reflexivity].
    rewrite bool_decide_eq_false_2 by (apply not_elem_of_nil).
    now rewrite andb_false_r.
  - apply NoDup_cons in Hnd as [Hnotin Hnd].
    apply Forall_cons in Hlive as [[a Ha] Hlive].
    destruct p as [l0|]; [|discriminate]. simpl in Ha.
    cbn [delete_owned deref]. rewrite Ha. cbn [mbind option_bind].
    set (h1 := if Annotation.pdf a then delete l0 h else h).
    assert (Hother : forall l, l <> l0 -> h1 !! l = h !! l).
    { intros l Hne. unfold h1. destruct (Annotation.pdf a); [|reflexivity].
      now apply lookup_delete_ne. }
    assert (Hlive1 : Forall (fun p => is_Some (deref h1 p)) rest).
    { rewrite Forall_forall in Hlive |- *. intros q Hq.
      specialize (Hlive q Hq). destruct q as [l|]; [|exact Hlive].
      simpl in *. rewrite Hother; [exact Hlive|]. intros ->. contradiction. }
    destruct (IH h1 Hnd Hlive1) as (h' & Hrun & Hspec).
    exists h'. split; [exact Hrun|]. intros l. rewrite Hspec.
    destruct (decide (l = l0)) as [->|Hne].
    + rewrite Ha. unfold h1.
      destruct (Annotation.pdf a) eqn:Hpdf.
      * rewrite lookup_delete_eq.
        rewrite bool_decide_eq_true_2; [reflexivity|apply elem_of_cons; now left].
      * rewrite Ha, Hpdf. reflexivity.
    + rewrite (Hother l Hne). destruct (h !! l) as [c|]; [|reflexivity].
      destruct (Annotation.pdf c); [|reflexivity]. cbn [andb].
      destruct (bool_decide_reflect (Some l ∈ rest)) as [Hin|Hin].
      * rewrite bool_decide_eq_true_2; [reflexivity|apply elem_of_cons; now right].
      * rewrite bool_decide_eq_false_2; [reflexivity|].
        intros Hin'. apply elem_of_cons in Hin' as [Heq|Hin']; [congruence|contradiction].
Qed.

(** X25.  Destroying a panel whose list names every annotation once, all
    of them live, frees exactly the listed annotations that have [pdf] set:
    these are gone from the heap, and every other annotation, listed with
    [pdf] unset or not listed, is as before.  A panel without a list, or
    one that lists an owned annotation twice, leaves the destructor without
    result. *)
Theorem EditAnnotationsWindow_dtor_frees_owned (h : gmap loc Annotation.t)
    (w : EditAnnotationsWindow) :
  (forall v : list ptr,
      annotations w = Some v ->
      NoDup v ->
      Forall (fun p => is_Some (deref h p)) v ->
      exists h',
        EditAnnotationsWindow_dtor h w = Some h' /\
        forall (l : loc) (a : Annotation.t),
          h !! l = Some a ->
          (In (Some l) v -> Annotation.pdf a = true -> h' !! l = None) /\
          (In (Some l) v -> Annotation.pdf a = false -> h' !! l = Some a) /\
          (~ In (Some l) v -> h' !! l = Some a)) /\
  (annotations w = None -> EditAnnotationsWindow_dtor h w = None) /\
  (forall (l : loc) (a : Annotation.t) (v1 v2 v3 : list ptr),
      annotations w = Some (v1 ++ Some l :: v2 ++ Some l :: v3) ->
      h !! l = Some a ->
      Annotation.pdf a = true ->
      EditAnnotationsWindow_dtor h w = None).
Proof.
  unfold EditAnnotationsWindow_dtor. repeat split.
  - intros v -> Hnd Hlive. cbn [mbind option_bind].
    destruct (delete_owned_spec v h Hnd Hlive) as (h' & Hrun & Hspec).
    exists h'. split; [exact Hrun|]. intros l a Hl.
    specialize (Hspec l). rewrite Hl in Hspec. rewrite Hspec.
    split; [|split].
    + intros Hin ->. apply list_elem_of_In in Hin.
      now rewrite bool_decide_eq_true_2.
    + intros _ ->. reflexivity.
    + intros Hno. rewrite bool_decide_eq_false_2; [now rewrite andb_false_r|].
      intros Hin. apply Hno. now apply list_elem_of_In.
  - intros ->. reflexivity.
  - intros l a v1 v2 v3 -> Hl Hpdf. cbn [mbind option_bind].
    assert (Hgone : forall (v : list ptr) (h0 : gmap loc Annotation.t),
              h0 !! l = None -> delete_owned h0 (v ++ Some l :: v3) = None).
    { induction v as [|q v IH]; intros h0 Hl0; simpl.
      - rewrite Hl0. reflexivity.
      - destruct q as [l'|]; simpl; [|reflexivity].
        destruct (h0 !! l') as [c|] eqn:Hc; [|reflexivity]. simpl.
        apply IH. destruct (Annotation.pdf c); [|exact Hl0].
        destruct (decide (l' = l)) as [->|Hne]; [apply lookup_delete_eq|].
        now rewrite lookup_delete_ne. }
    revert h Hl. induction v1 as [|q v1 IH]; intros h Hl; simpl.
    + rewrite Hl. simpl. rewrite Hpdf. apply Hgone. apply lookup_delete_eq.
    + destruct q as [l'|]; simpl; [|reflexivity].
      destruct (h !! l') as [c|] eqn:Hc; [|reflexivity]. simpl.
      destruct (Annotation.pdf c) eqn:Hpc.
      * destruct (decide (l' = l)) as [->|Hne].
        -- change (v1 ++ Some l :: v2 ++ Some l :: v3)
             with (v1 ++ Some l :: (v2 ++ Some l :: v3)).
           rewrite app_comm_cons, app_assoc. apply Hgone. apply lookup_delete_eq.
        -- apply IH. now rewrite lookup_delete_ne.
      * apply IH. exact Hl.
Qed.

(** X25 on a heap with an owned and a borrowed annotation. *)
Lemma EditAnnotationsWindow_dtor_frees_owned_witness :
  let h : gmap loc Annotation.t :=
    <[1%nat := Annotation.mk Ink 2 EmptyString 0 (-1) EmptyString EmptyString 0
                 false false false]>
      (<[0%nat := sample_annotation Text "Note" 0xff0000ff EmptyString]> ∅) in
  exists h',
    EditAnnotationsWindow_dtor h (CreateMainLayout (Some [Some 0%nat; Some 1%nat])) =
      Some h' /\
    h' !! 0%nat = None /\
    is_Some (h' !! 1%nat).
Proof.
  cbv zeta.
  match goal with
  | |- exists h', EditAnnotationsWindow_dtor ?h ?w = _ /\ _ =>
      destruct (proj1 (EditAnnotationsWindow_dtor_frees_owned h w)
                  [Some 0%nat; Some 1%nat] eq_refl) as (h' & Hrun & Hspec)
  end.
  - repeat constructor; cbn; intros Hin;
      repeat (apply elem_of_cons in Hin as [Hin|Hin]; [discriminate Hin|]);
      now apply elem_of_nil in Hin.
  - repeat constructor; simpl; eexists; reflexivity.
  - exists h'. split; [exact Hrun|]. split.
    + apply (Hspec 0%nat (sample_annotation Text "Note" 0xff0000ff EmptyString));
        [reflexivity|now left|reflexivity].
    + pose proof (proj1 (proj2 (Hspec 1%nat _ eq_refl))
                    ltac:(right; now left) eq_refl) as Hkept.
      unfold loc in *. rewrite Hkept. eauto.
Defined.

Lemma RebuildAnnotations_loop_spec `{Platform} (AnnotationName : AnnotationType -> string)
    (h : gmap loc Annotation.t) (v : list ptr) :
  Forall (fun p => is_Some (deref h p)) v ->
  exists model,
    RebuildAnnotations_loop AnnotationName h v = Some model /\
    length model = length v /\
    forall (i : nat) (p : ptr) (a : Annotation.t),
      v !! i = Some p -> deref h p = Some a ->
      model !! i =
        Some (("page " +:+ printf_d (Annotation.pageNo a) +:+ ", ") +:+
              AnnotationName (Annotation.type a))%string.
Proof.
  induction 1 as [|p rest [a Ha] _ (model & Hrun & Hlen & Hrows)].
  - exists []. split; [reflexivity|]. split; [reflexivity|].
    intros i p a Hi. rewrite lookup_nil in Hi. discriminate.
  - simpl. rewrite Ha, Hrun. simpl. eexists. split; [reflexivity|].
    split; [simpl; now rewrite Hlen|].
    intros [|i] q c Hi Hq; simpl in Hi |- *.
    + injection Hi as <-. rewrite Ha in Hq. injection Hq as <-. reflexivity.
    + eapply Hrows; eauto.
Qed.





(** X28.  Opening a panel and closing it again frees what the engine
    handed over and nothing else: when the engine's annotations have [pdf]
    set, the user's have it unset, all are live and none is named twice,
    [CloseWindow] after [StartEditAnnotations] clears the tab's panel,
    removes exactly the engine's annotations from the heap and keeps every
    other annotation. *)
Theorem StartEditAnnotations_then_CloseWindow `{Platform}
    (AnnotationName : AnnotationType -> string) (CrashIf_returns : bool)
    (engineAnnots user : list ptr) (h : gmap loc Annotation.t) (tab : TabInfo) :
  editAnnotsWindow tab = None ->
  AsFixed tab = Some (mkDisplayModel (Some user)) ->
  NoDup (engineAnnots ++ user) ->
  Forall (fun p => exists a, deref h p = Some a /\ Annotation.pdf a = true) engineAnnots ->
  Forall (fun p => exists a, deref h p = Some a /\ Annotation.pdf a = false) user ->
  exists (tab1 tab2 : TabInfo) (h' : gmap loc Annotation.t),
    StartEditAnnotations AnnotationName CrashIf_returns engineAnnots true h tab =
      Some tab1 /\
    CloseWindow h tab1 = Some (h', tab2) /\
    editAnnotsWindow tab2 = None /\
    forall l : loc,
      (In (Some l) engineAnnots -> h' !! l = None) /\
      (~ In (Some l) engineAnnots -> h' !! l = h !! l).
Proof.
  intros Hslot Hdm Hnd Hengine Huser.
  assert (Hlive : Forall (fun p => is_Some (deref h p)) (engineAnnots ++ user)).
  { apply Forall_app. split; eapply Forall_impl; eauto;
      intros p (a & Ha & _); rewrite Ha; eauto. }
  destruct (RebuildAnnotations_loop_spec AnnotationName h _ Hlive)
    as (model & Hmodel & _).
  destruct (delete_owned_spec _ h Hnd Hlive) as (h' & Hdel & Hspec).
  unfold StartEditAnnotations, CloseWindow, EditAnnotationsWindow_dtor.
  rewrite Hslot, Hdm. cbn [mbind option_bind userAnnots negb].
  unfold RebuildAnnotations. cbn [annotations CreateMainLayout].
  rewrite Hmodel. cbn [mbind option_bind].
  eexists _, _, h'. split; [reflexivity|].
  cbn [mbind option_bind editAnnotsWindow panel_window annotations CreateMainLayout].
  rewrite Hdel. cbn [mbind option_bind].
  split; [reflexivity|]. split; [reflexivity|]. intros l. rewrite Hspec.
  rewrite Forall_forall in Hengine, Huser. split.
  - intros Hin. apply list_elem_of_In in Hin.
    destruct (Hengine _ Hin) as (a & Ha & Hpdf). simpl in Ha. rewrite Ha, Hpdf.
    rewrite bool_decide_eq_true_2; [reflexivity|].
    apply elem_of_app. now left.
  - intros Hno. destruct (h !! l) as [a|] eqn:Hl; [|reflexivity].
    destruct (bool_decide_reflect (Some l ∈ engineAnnots ++ user)) as [Hin|Hin];
      [|now rewrite andb_false_r].
    apply elem_of_app in Hin as [Hin|Hin].
    + exfalso. apply Hno. now apply list_elem_of_In.
    + destruct (Huser _ Hin) as (c & Hc & Hpdf). simpl in Hc.
      rewrite Hl in Hc. injection Hc as <-. now rewrite Hpdf.
Qed.

Lemma StartEditAnnotations_then_CloseWindow_witness :
  exists (tab1 tab2 : TabInfo) (h' : gmap loc Annotation.t),
    StartEditAnnotations (H := sample_platform) sample_name false [Some 0%nat] true
      sample_heap_owned sample_tab = Some tab1 /\
    CloseWindow sample_heap_owned tab1 = Some (h', tab2) /\
    editAnnotsWindow tab2 = None /\
    h' !! 0%nat = None /\
    h' !! 1%nat = sample_heap_owned !! 1%nat.
Proof.
  destruct (StartEditAnnotations_then_CloseWindow (H := sample_platform) sample_name
              false [Some 0%nat] [Some 1%nat] sample_heap_owned sample_tab eq_refl eq_refl)
    as (tab1 & tab2 & h' & Hopen & Hclose & Hslot & Hheap).
  - repeat constructor; cbn; intros Hin;
      repeat (apply elem_of_cons in Hin as [Hin|Hin]; [discriminate Hin|]);
      now apply elem_of_nil in Hin.
  - repeat constructor. eexists. split; reflexivity.
  - repeat constructor. eexists. split; reflexivity.
  - exists tab1, tab2, h'. repeat (split; [assumption|]). split.
    + apply (Hheap 0%nat). now left.
    + apply (Hheap 1%nat). intros [Heq|[]]. discriminate Heq.
Defined.

(** X29.  [IsAnnotationTypeInArray] is membership in the array.  By the
    tables, every type whose interior colour can be edited has an editable
    border, every type with an editable border has a colour, and every type
    that is offered icons has a colour. *)
Theorem annotation_type_tables :
  (forall (arr : list AnnotationType) (t : AnnotationType),
      IsAnnotationTypeInArray arr t = true <-> In t arr) /\
  (forall t : AnnotationType,
      ShouldEditInteriorColor t = true -> ShouldEditBorder t = true) /\
  (forall t : AnnotationType,
      ShouldEditBorder t = true ->
      IsAnnotationTypeInArray gAnnotsWithColor t = true) /\
  (forall t : AnnotationType,
      is_Some (icons_of_type t) ->
      IsAnnotationTypeInArray gAnnotsWithColor t = true).
Proof.
  split; [|split; [|split]].
  - intros arr t. induction arr as [|x rest IH].
    + split; [discriminate|intros []].
    + change (IsAnnotationTypeInArray (x :: rest) t)
        with (if bool_decide (t = x) then true else IsAnnotationTypeInArray rest t).
      destruct (bool_decide_reflect (t = x)) as [->|Hne].
      * split; [now left|reflexivity].
      * rewrite IH. split; [now right|]. intros [Heq|Hin]; [congruence|exact Hin].
  - intros t. destruct t; vm_compute; intros Hin; first [reflexivity | discriminate Hin].
  - intros t. destruct t; vm_compute; intros Hin; first [reflexivity | discriminate Hin].
  - intros t [icons Hicons].
    destruct t; first [reflexivity | discriminate Hicons].
Qed.
